(** * Stingray pool and node reconciliation

    A shallow embedding of [stingray_pool.py] and [stingray_node.py]:
    the recursive property diff, the two [set_present]/[set_absent]
    reconcilers and the [main] entry points, over an explicit model of
    the HTTP transport. *)

From Stdlib Require Import List String ZArith Bool Lia.
Import ListNotations.
Open Scope string_scope.
Open Scope list_scope.
Open Scope Z_scope.

(** ** Python values

    The values that flow through both modules are what [json.loads]
    produces and what Ansible passes as parameters.  A dict is an
    association list with pairwise distinct keys, in iteration order.
    Numbers are integers. *)

#[warnings="-register-all"]
Inductive json : Type :=
| JNull
| JBool (b : bool)
| JNum (n : Z)
| JStr (s : string)
| JList (l : list json)
| JDict (d : list (string * json)).

Definition pydict := list (string * json).

(** Key lookup in a dict; [None] when the key is missing. *)
Fixpoint lookup {V : Type} (k : string) (d : list (string * V)) : option V :=
  match d with
  | [] => None
  | (k', v) :: rest => if String.eqb k' k then Some v else lookup k rest
  end.

Definition keys (d : pydict) : list string := map fst d.

(** [d[k] = v] on a dict: replace in place, or add the key. *)
Fixpoint dict_set {V : Type} (k : string) (v : V) (d : list (string * V))
  : list (string * V) :=
  match d with
  | [] => [(k, v)]
  | (k', v') :: rest =>
      if String.eqb k' k then (k', v) :: rest else (k', v') :: dict_set k v rest
  end.

(** Python's [==] on these values.  [True == 1] and [False == 0] hold in
    Python, dict equality ignores the order of keys, list equality is
    pointwise. *)
Definition num_of_bool (b : bool) : Z := if b then 1 else 0.

Fixpoint py_eq (a b : json) {struct a} : bool :=
  match a, b with
  | JNull, JNull => true
  | JBool x, JBool y => Bool.eqb x y
  | JBool x, JNum y => num_of_bool x =? y
  | JNum x, JBool y => x =? num_of_bool y
  | JNum x, JNum y => x =? y
  | JStr x, JStr y => String.eqb x y
  | JList xs, JList ys =>
      (fix eq_list (xs ys : list json) {struct xs} : bool :=
         match xs, ys with
         | [], [] => true
         | x :: xs', y :: ys' => py_eq x y && eq_list xs' ys'
         | _, _ => false
         end) xs ys
  | JDict d, JDict e =>
      (List.length d =? List.length e)%nat &&
      (fix eq_items (items : pydict) {struct items} : bool :=
         match items with
         | [] => true
         | (k, v) :: rest =>
             match lookup k e with
             | Some w => py_eq v w && eq_items rest
             | None => false
             end
         end) d
  | _, _ => false
  end.

Definition is_dict (v : json) : bool :=
  match v with JDict _ => true | _ => false end.

Definition is_none (v : json) : bool :=
  match v with JNull => true | _ => false end.

(** Truth value of a Python object, as tested by [if x], [x and y], [x or y]. *)
Definition truthy (v : json) : bool :=
  match v with
  | JNull => false
  | JBool b => b
  | JNum n => negb (n =? 0)
  | JStr s => negb (String.eqb s "")
  | JList l => match l with [] => false | _ => true end
  | JDict d => match d with [] => false | _ => true end
  end.

(** ** Exceptions and results *)

Inductive exn : Type :=
| ConnectionError (reason : string)   (* requests.exceptions.ConnectionError *)
| RequestException (reason : string)  (* any other exception of the transport *)
| ValueError                          (* json.loads on a body that is not JSON *)
| KeyError (k : string)
| IndexError
| TypeError
| AttributeError.

Inductive result (A : Type) : Type :=
| Ok (a : A)
| Raise (e : exn).
Arguments Ok {A} a.
Arguments Raise {A} e.

Definition rbind {A B} (r : result A) (f : A -> result B) : result B :=
  match r with
  | Ok a => f a
  | Raise e => Raise e
  end.

(** [current_pool.get(k, None)]: only a dict has a [get] method. *)
Definition py_get (v : json) (k : string) : result json :=
  match v with
  | JDict d => Ok match lookup k d with Some x => x | None => JNull end
  | _ => Raise AttributeError
  end.

(** [v[k]] with a string key. *)
Definition getitem (v : json) (k : string) : result json :=
  match v with
  | JDict d => match lookup k d with Some x => Ok x | None => Raise (KeyError k) end
  | _ => Raise TypeError
  end.

(** One element of the list that [_pool_changes] returns:
    [{field: {'before': before, 'after': after}}]. *)
Record change : Type := Change {
  field : string;
  before : json;
  after : json
}.

(** ** Transport and module runtime

    [json.loads] and [json.dumps] are library code.  A body is modelled
    by what [json.loads] makes of it: the text of a JSON document is
    identified with the value it denotes, any other text is [NotJson]. *)

Inductive body : Type :=
| Json (v : json)
| NotJson (s : string).

Definition json_loads (t : body) : result json :=
  match t with
  | Json v => Ok v
  | NotJson _ => Raise ValueError
  end.

Definition json_dumps (v : json) : body := Json v.

Inductive method : Type := GET | PUT | DELETE.

Record request : Type := Request {
  meth : method;
  url : string;
  data : option body
}.

Record response : Type := Response {
  status_code : Z;
  text : body
}.

Definition is_write (rq : request) : bool :=
  match meth rq with GET => false | _ => true end.

(** The remote side is a deterministic function of the requests it has
    received so far; [calls] records every request the session issued. *)
Record world : Type := World {
  behaviour : list request -> request -> result response;
  calls : list request
}.

(** What a module reports: the [msg] argument of [exit_json]/[fail_json]
    is a string, the text of an exception, the list built by the pool
    diff, or the [changes] dict. *)
Inductive mvalue : Type :=
| MJson (v : json)
| MText (t : body).

Inductive message : Type :=
| MsgStr (s : string)
| MsgExn (e : exn)                         (* str(e) *)
| MsgUnableToConnect (url : string) (e : exn)
| MsgPoolNotFound (pool : string)
| MsgChanges (l : list change)
| MsgDict (d : list (string * mvalue)).

Inductive report : Type :=
| ExitJson (changed : bool) (msg : message) (data : json)
| FailJson (msg : message).

(** [exit_json] and [fail_json] leave the process through [SystemExit],
    which [except Exception] does not catch. *)
Inductive outcome (A : Type) : Type :=
| Return (a : A)
| Exit (r : report)
| Throw (e : exn).
Arguments Return {A} a.
Arguments Exit {A} r.
Arguments Throw {A} e.

Definition M (A : Type) : Type := world -> outcome A * world.

Definition ret {A} (a : A) : M A := fun w => (Return a, w).

Definition bind {A B} (m : M A) (f : A -> M B) : M B :=
  fun w =>
    match m w with
    | (Return a, w') => f a w'
    | (Exit r, w') => (Exit r, w')
    | (Throw e, w') => (Throw e, w')
    end.

Notation "x <- m ;; k" := (bind m (fun x => k))
  (at level 100, m at next level, right associativity).

Definition lift {A} (r : result A) : M A :=
  fun w => (match r with Ok a => Return a | Raise e => Throw e end, w).

Definition try_except {A} (m : M A) (handler : exn -> M A) : M A :=
  fun w =>
    match m w with
    | (Throw e, w') => handler e w'
    | other => other
    end.

Definition fail_json {A} (msg : message) : M A := fun w => (Exit (FailJson msg), w).

Definition exit_json {A} (changed : bool) (msg : message) (data : json) : M A :=
  fun w => (Exit (ExitJson changed msg data), w).

(** One call of the [requests] session. *)
Definition http (rq : request) : M response :=
  fun w =>
    (match behaviour w (calls w) rq with
     | Ok resp => Return resp
     | Raise e => Throw e
     end,
     World (behaviour w) (calls w ++ [rq])).

Definition pool_url (server port pool : string) : string :=
  String.append "https://" (String.append server (String.append ":"
    (String.append port (String.append "/api/tm/3.0/config/active/pools/" pool)))).

Inductive presence : Type := present | absent.

(** ** The pool module *)

Module StingrayPool.

(** *** The pool diff *)

Definition dotted (parent k : string) : string :=
  String.append parent (String.append "." k).

(** [StingrayPool._pool_changes].  The loop runs over the items of
    [new_pool] in iteration order; an exception ends the call.  The
    recursive call receives the key [k] as its [parent]. *)
Fixpoint pool_changes_of (new_pool : json) (current_pool : json) (parent : string)
  {struct new_pool} : result (list change) :=
  match new_pool with
  | JDict items =>
      (fix loop (items : pydict) {struct items} : result (list change) :=
         match items with
         | [] => Ok []
         | (k, nv) :: rest =>
             rbind (py_get current_pool k) (fun cv =>
             if is_none cv then loop rest
             else
               match nv with
               | JDict _ =>
                   rbind (pool_changes_of nv cv k) (fun sub =>
                   rbind (loop rest) (fun tl => Ok (sub ++ tl)))
               | _ =>
                   if negb (py_eq nv cv) then
                     let entry :=
                       if String.eqb parent ""
                       then Change k cv nv
                       else Change (dotted parent k) cv nv in
                     rbind (loop rest) (fun tl => Ok (entry :: tl))
                   else loop rest
               end)
         end) items
  | _ => Ok []
  end.

Definition _pool_changes (new_pool : pydict) (current_pool : json) (parent : string)
  : result (list change) :=
  pool_changes_of (JDict new_pool) current_pool parent.


(** The fields of a [StingrayPool] object that the methods read or write. *)
Record self : Type := Self {
  check_mode : bool;          (* self.module.check_mode *)
  pool : string;
  properties : pydict;
  _url : string;
  exists_ : bool;             (* self.exists *)
  pool_data : json;
  msg : message;
  changed : bool
}.

Definition set_exists (b : bool) (s : self) : self :=
  Self (check_mode s) (pool s) (properties s) (_url s) b (pool_data s) (msg s) (changed s).
Definition set_pool_data (d : json) (s : self) : self :=
  Self (check_mode s) (pool s) (properties s) (_url s) (exists_ s) d (msg s) (changed s).
Definition set_msg (m : message) (s : self) : self :=
  Self (check_mode s) (pool s) (properties s) (_url s) (exists_ s) (pool_data s) m (changed s).
Definition set_changed (b : bool) (s : self) : self :=
  Self (check_mode s) (pool s) (properties s) (_url s) (exists_ s) (pool_data s) (msg s) b.
Definition set_check_mode (b : bool) (s : self) : self :=
  Self b (pool s) (properties s) (_url s) (exists_ s) (pool_data s) (msg s) (changed s).

(** [dict((k,v,) for k,v in properties.iteritems() if v is not None)] *)
Definition non_empty_props (properties : pydict) : pydict :=
  filter (fun kv => negb (is_none (snd kv))) properties.

(** [StingrayPool.__init__]: the GET and the decoding of its body. *)
Definition __init__ (check : bool) (server port pool : string) (properties : pydict)
  : M self :=
  let url := pool_url server port pool in
  let s := Self check pool (non_empty_props properties) url false JNull (MsgStr "") false in
  response <- try_except (http (Request GET url None))
                (fun e => match e with
                          | ConnectionError _ => fail_json (MsgUnableToConnect url e)
                          | _ => lift (Raise e)
                          end) ;;
  let s := set_exists true s in
  let s := if status_code response =? 404 then set_exists false s else s in
  pool_data <- try_except (lift (json_loads (text response)))
                 (fun e => fail_json (MsgExn e)) ;;
  ret (set_pool_data pool_data s).

(** [StingrayPool.set_absent] *)
Definition set_absent (s : self) : M self :=
  let s := set_changed false s in
  let changes := [("pool", MJson (JStr (pool s)))] in
  if exists_ s then
    let s := set_changed true s in
    let changes := dict_set "action" (MJson (JStr "destroy_pool")) changes in
    let s := set_msg (MsgDict changes) s in
    if check_mode s then ret s
    else
      response <- try_except (http (Request DELETE (_url s) None))
                    (fun e => fail_json (MsgExn e)) ;;
      if negb (status_code response =? 204) then
        let changes := dict_set "error" (MText (text response)) changes in
        fail_json (MsgDict changes)
      else ret s
  else
    let s := set_changed false s in
    ret (set_msg (MsgDict changes) s).

(** The body of the PUT: [{'properties': ...}]. *)
Definition put_body (props : pydict) : body :=
  json_dumps (JDict [("properties", JDict props)]).

(** [StingrayPool.set_present] *)
Definition set_present (s : self) : M self :=
  let s := set_changed false s in
  let changes := [("pool", MJson (JStr (pool s)))] in
  if negb (exists_ s) then
    let s := set_changed true s in
    let changes := dict_set "action" (MJson (JStr "create_pool")) changes in
    let s := set_msg (MsgDict changes) s in
    if check_mode s then ret s
    else
      let new_pool :=
        if truthy (JDict (properties s)) then put_body (properties s)
        else put_body [("basic", JDict [])] in
      response <- try_except (http (Request PUT (_url s) (Some new_pool)))
                    (fun e => fail_json (MsgExn e)) ;;
      if status_code response =? 201 then
        pool_data <- lift (json_loads (text response)) ;;
        ret (set_pool_data pool_data s)
      else
        let changes := dict_set "error" (MText (text response)) changes in
        fail_json (MsgDict changes)
  else
    let s := set_msg (MsgDict changes) s in
    changes <- lift (rbind (getitem (pool_data s) "properties") (fun current =>
                     _pool_changes (properties s) current "")) ;;
    let s := if (0 <? List.length changes)%nat then set_changed true s else s in
    let s := set_msg (MsgChanges changes) s in
    if check_mode s then ret s
    else if changed s then
      let new_pool := put_body (properties s) in
      response <- try_except (http (Request PUT (_url s) (Some new_pool)))
                    (fun e => fail_json (MsgExn e)) ;;
      if status_code response =? 200 then
        pool_data <- lift (json_loads (text response)) ;;
        ret (set_pool_data pool_data s)
      else fail_json (MsgChanges changes)
    else ret s.

(** [main]: the object is built outside the [try]; inside it, every
    exception becomes [fail_json(msg=str(e))]. *)
Definition main (check : bool) (state : presence) (server port name : string)
  (properties : pydict) : M unit :=
  stingray_pool <- __init__ check server port name properties ;;
  try_except
    (stingray_pool <- match state with
                      | present => set_present stingray_pool
                      | absent => set_absent stingray_pool
                      end ;;
     exit_json (changed stingray_pool) (msg stingray_pool) (pool_data stingray_pool))
    (fun e => fail_json (MsgExn e)).

End StingrayPool.

(** ** The node module *)

Module StingrayNode.

Record self : Type := Self {
  check_mode : bool;          (* self.module.check_mode *)
  pool : string;
  node : string;
  desired_weight : json;
  desired_priority : json;
  desired_lb_state : json;
  _url : string;
  pool_data : json;
  msg : message;
  changed : bool
}.

Definition set_pool_data (d : json) (s : self) : self :=
  Self (check_mode s) (pool s) (node s) (desired_weight s) (desired_priority s)
       (desired_lb_state s) (_url s) d (msg s) (changed s).
Definition set_msg (m : message) (s : self) : self :=
  Self (check_mode s) (pool s) (node s) (desired_weight s) (desired_priority s)
       (desired_lb_state s) (_url s) (pool_data s) m (changed s).
Definition set_changed (b : bool) (s : self) : self :=
  Self (check_mode s) (pool s) (node s) (desired_weight s) (desired_priority s)
       (desired_lb_state s) (_url s) (pool_data s) (msg s) b.
Definition set_check_mode (b : bool) (s : self) : self :=
  Self b (pool s) (node s) (desired_weight s) (desired_priority s)
       (desired_lb_state s) (_url s) (pool_data s) (msg s) (changed s).

(** [StingrayNode.__init__]: a missing pool is fatal here. *)
Definition __init__ (check : bool) (server port pool node : string)
  (weight priority lb_state : json) : M self :=
  let url := pool_url server port pool in
  let s := Self check pool node weight priority lb_state url JNull (MsgStr "") false in
  response <- try_except (http (Request GET url None))
                (fun e => match e with
                          | ConnectionError _ => fail_json (MsgUnableToConnect url e)
                          | _ => lift (Raise e)
                          end) ;;
  if status_code response =? 404 then fail_json (MsgPoolNotFound pool)
  else
    pool_data <- try_except (lift (json_loads (text response)))
                   (fun e => fail_json (MsgExn e)) ;;
    ret (set_pool_data pool_data s).

(** [pool_data['properties']['basic']['nodes_table']] *)
Definition nodes_table (pool_data : json) : result json :=
  rbind (getitem pool_data "properties") (fun props =>
  rbind (getitem props "basic") (fun basic =>
  getitem basic "nodes_table")).

(** [self._nodes()] *)
Definition _nodes (s : self) : result json := nodes_table (pool_data s).

(** What [for n in v] runs over: the elements of a list, the keys of a
    dict, the characters of a string; anything else is not iterable. *)
Definition iterate (v : json) : result (list json) :=
  match v with
  | JList l => Ok l
  | JDict d => Ok (map (fun kv => JStr (fst kv)) d)
  | JStr s => Ok (map (fun c => JStr (String c EmptyString)) (list_ascii_of_string s))
  | _ => Raise TypeError
  end.

(** [[n for n in nodes if n['node'] == node]] when [same] is true,
    [[n for n in nodes if n['node'] != node]] otherwise. *)
Fixpoint select (same : bool) (node : string) (nodes : list json) : result (list json) :=
  match nodes with
  | [] => Ok []
  | n :: rest =>
      rbind (getitem n "node") (fun a =>
      rbind (select same node rest) (fun tl =>
      Ok (if Bool.eqb (py_eq a (JStr node)) same then n :: tl else tl)))
  end.

(** [self._get_current_node()] *)
Definition _get_current_node (s : self) : result (list json) :=
  rbind (_nodes s) (fun tbl =>
  rbind (iterate tbl) (fun nodes => select true (node s) nodes)).

(** [self._node_exists()] *)
Definition _node_exists (s : self) : result bool :=
  rbind (_get_current_node s) (fun l => Ok (truthy (JList l))).

(** [[n for n in nodes if n['node'] == node and n['state'] == state]]:
    [and] reads [n['state']] only when the address matches. *)
Fixpoint select_state (node : string) (state : json) (nodes : list json)
  : result (list json) :=
  match nodes with
  | [] => Ok []
  | n :: rest =>
      rbind (getitem n "node") (fun a =>
      rbind (if py_eq a (JStr node)
             then rbind (getitem n "state") (fun st => Ok (py_eq st state))
             else Ok false) (fun keep =>
      rbind (select_state node state rest) (fun tl =>
      Ok (if (keep : bool) then n :: tl else tl))))
  end.

(** [self._has_state(state)] *)
Definition _has_state (s : self) (state : json) : result bool :=
  rbind (_nodes s) (fun tbl =>
  rbind (iterate tbl) (fun nodes =>
  rbind (select_state (node s) state nodes) (fun l => Ok (truthy (JList l))))).

(** [[n for n in self._nodes() if n['node'] != self.node]] *)
Definition other_nodes (s : self) : result (list json) :=
  rbind (_nodes s) (fun tbl =>
  rbind (iterate tbl) (fun nodes => select false (node s) nodes)).

(** [self.set_nodes(nodes)] *)
Definition set_nodes (s : self) (nodes : list json) : M response :=
  let pool_data :=
    JDict [("properties", JDict [("basic", JDict [("nodes_table", JList nodes)])])] in
  http (Request PUT (_url s) (Some (json_dumps pool_data))).

(** ["HTTP {2}".format(status)]: the template asks for the third
    positional argument of a call that has one. *)
Definition format_http_2 (args : list Z) : result mvalue :=
  match nth_error args 2 with
  | Some _ => Ok (MJson (JStr "HTTP"))
  | None => Raise IndexError
  end.

(** The tail shared by the three writes: decode on 200, else report. *)
Definition after_put (s : self) (changes : list (string * mvalue)) (response : response)
  : M self :=
  if status_code response =? 200 then
    pool_data <- lift (json_loads (text response)) ;;
    ret (set_pool_data pool_data s)
  else
    err <- lift (format_http_2 [status_code response]) ;;
    let changes := dict_set "error" err changes in
    fail_json (MsgDict changes).

(** [StingrayNode.set_absent] *)
Definition set_absent (s : self) : M self :=
  let s := set_changed false s in
  let changes := [("node", MJson (JStr (node s))); ("pool", MJson (JStr (pool s)))] in
  node_exists <- lift (_node_exists s) ;;
  if (node_exists : bool) then
    let s := set_changed true s in
    let changes := dict_set "action" (MJson (JStr "remove_node")) changes in
    let s := set_msg (MsgDict changes) s in
    if check_mode s then ret s
    else
      new_nodes <- lift (other_nodes s) ;;
      response <- set_nodes s new_nodes ;;
      after_put s changes response
  else
    let s := set_changed false s in
    ret (set_msg (MsgDict changes) s).

(** [x or default] *)
Definition py_or (x default : json) : json := if truthy x then x else default.

(** [l + [n]]: only a list can be extended by a list. *)
Definition list_add (v : json) (l : list json) : result (list json) :=
  match v with
  | JList l0 => Ok (l0 ++ l)
  | _ => Raise TypeError
  end.

(** [n[k] = v] *)
Definition setitem (n : json) (k : string) (v : json) : json :=
  match n with
  | JDict d => JDict (dict_set k v d)
  | _ => n
  end.

(** [current_node] is the first matching element of the table inside
    [self.pool_data], not a copy: an assignment to one of its keys is an
    assignment inside [self.pool_data].  [store_current_node] writes the
    updated object back at its position. *)
Fixpoint replace_first (node : string) (n' : json) (nodes : list json) : list json :=
  match nodes with
  | [] => []
  | n :: rest =>
      match getitem n "node" with
      | Ok a => if py_eq a (JStr node) then n' :: rest else n :: replace_first node n' rest
      | Raise _ => n :: replace_first node n' rest
      end
  end.

Definition with_nodes (pd : json) (tbl : list json) : json :=
  match pd with
  | JDict d =>
      match lookup "properties" d with
      | Some (JDict p) =>
          match lookup "basic" p with
          | Some (JDict b) =>
              JDict (dict_set "properties"
                       (JDict (dict_set "basic"
                                 (JDict (dict_set "nodes_table" (JList tbl) b)) p)) d)
          | _ => pd
          end
      | _ => pd
      end
  | _ => pd
  end.

Definition store_current_node (s : self) (n' : json) : self :=
  match _nodes s with
  | Ok (JList tbl) => set_pool_data (with_nodes (pool_data s) (replace_first (node s) n' tbl)) s
  | _ => s
  end.

(** One of the three comparisons of [set_present]:
    [if desired and desired != current_node[key]: ...]. *)
Definition compare_field (key : string) (desired : json)
  (st : self * json * list (string * mvalue)) : result (self * json * list (string * mvalue)) :=
  let '(s, current_node, changes) := st in
  if truthy desired then
    rbind (getitem current_node key) (fun cur =>
    if negb (py_eq desired cur) then
      let changes :=
        dict_set key (MJson (JDict [("before", cur); ("after", desired)])) changes in
      let current_node := setitem current_node key desired in
      let s := store_current_node s current_node in
      Ok (set_changed true s, current_node, changes)
    else Ok st)
  else Ok st.

(** The three comparisons in a row: state, weight, priority. *)
Definition compare_fields (s : self) (current_node : json) (changes : list (string * mvalue))
  : result (self * json * list (string * mvalue)) :=
  rbind (compare_field "state" (desired_lb_state s) (s, current_node, changes)) (fun st =>
  rbind (compare_field "weight" (desired_weight s) st) (fun st =>
  compare_field "priority" (desired_priority s) st)).
Arguments compare_fields : simpl never.

(** [self._get_current_node()[0]] *)
Definition first_node (l : list json) : result json :=
  match l with
  | n :: _ => Ok n
  | [] => Raise IndexError
  end.

(** [StingrayNode.set_present] *)
Definition set_present (s : self) : M self :=
  let s := set_changed false s in
  let changes := [("node", MJson (JStr (node s))); ("pool", MJson (JStr (pool s)))] in
  node_exists <- lift (_node_exists s) ;;
  if negb node_exists then
    let changes := dict_set "action" (MJson (JStr "add_node")) changes in
    let s := set_msg (MsgDict changes) s in
    let s := set_changed true s in
    if check_mode s then ret s
    else
      new_nodes <- lift (rbind (_nodes s) (fun tbl =>
                     list_add tbl
                       [JDict [("node", JStr (node s));
                               ("state", py_or (desired_lb_state s) (JStr "active"));
                               ("weight", py_or (desired_weight s) (JNum 1));
                               ("priority", py_or (desired_priority s) (JNum 1))]])) ;;
      response <- set_nodes s new_nodes ;;
      after_put s changes response
  else
    current_node <- lift (rbind (_get_current_node s) first_node) ;;
    st <- lift (compare_fields s current_node changes) ;;
    let '(s, current_node, changes) := st in
    if changed s then
      let s := set_msg (MsgDict changes) s in
      if check_mode s then ret s
      else
        new_nodes <- lift (rbind (other_nodes s) (fun l => Ok (l ++ [current_node]))) ;;
        response <- set_nodes s new_nodes ;;
        after_put s changes response
    else ret (set_msg (MsgDict changes) s).

(** [main] *)
Definition main (check : bool) (state : presence) (server port pool name : string)
  (weight priority lb_state : json) : M unit :=
  stingray_node <- __init__ check server port pool name weight priority lb_state ;;
  try_except
    (stingray_node <- match state with
                      | present => set_present stingray_node
                      | absent => set_absent stingray_node
                      end ;;
     exit_json (changed stingray_node) (msg stingray_node) (pool_data stingray_node))
    (fun e => fail_json (MsgExn e)).

End StingrayNode.

(** ** The remote API assumed by the idempotence property

    A pool resource that stores what is written to it: a PUT on a
    missing pool stores the document and answers 201, a PUT on an
    existing pool merges the document into the stored one key by key and
    answers 200 with the result, DELETE removes it and answers 204, GET
    answers 200 with the stored document or 404. *)

Fixpoint merge (new cur : json) {struct new} : json :=
  match new with
  | JDict items =>
      match cur with
      | JDict c =>
          JDict ((fix go (items : pydict) (acc : pydict) {struct items} : pydict :=
                    match items with
                    | [] => acc
                    | (k, v) :: rest =>
                        go rest (dict_set k (match lookup k acc with
                                             | Some cv => merge v cv
                                             | None => v
                                             end) acc)
                    end) items c)
      | _ => new
      end
  | _ => new
  end.

Definition not_found_body : body :=
  Json (JDict [("error_id", JStr "resource.not_found")]).

Definition api_step (rq : request) (st : option json) : result response * option json :=
  match meth rq with
  | GET =>
      match st with
      | Some doc => (Ok (Response 200 (Json doc)), st)
      | None => (Ok (Response 404 not_found_body), st)
      end
  | PUT =>
      match data rq with
      | Some (Json v) =>
          match st with
          | None => (Ok (Response 201 (Json v)), Some v)
          | Some doc => (Ok (Response 200 (Json (merge v doc))), Some (merge v doc))
          end
      | _ => (Ok (Response 400 (NotJson "")), st)
      end
  | DELETE =>
      match st with
      | Some _ => (Ok (Response 204 (NotJson "")), None)
      | None => (Ok (Response 404 not_found_body), None)
      end
  end.

Definition api_state (init : option json) (history : list request) : option json :=
  fold_left (fun st rq => snd (api_step rq st)) history init.

Definition faithful (init : option json) : list request -> request -> result response :=
  fun history rq => fst (api_step rq (api_state init history)).

(** ** Well-formed values

    A Python dict has no two equal keys. *)

Fixpoint nodup_keys (ks : list string) : bool :=
  match ks with
  | [] => true
  | k :: rest => negb (existsb (String.eqb k) rest) && nodup_keys rest
  end.

Fixpoint wf (v : json) : bool :=
  match v with
  | JList l => forallb wf l
  | JDict d => nodup_keys (map fst d) && forallb (fun kv => wf (snd kv)) d
  | _ => true
  end.

(** ** Induction on values *)

Section JsonInd.
Variable P : json -> Prop.
Hypothesis HNull : P JNull.
Hypothesis HBool : forall b, P (JBool b).
Hypothesis HNum : forall n, P (JNum n).
Hypothesis HStr : forall s, P (JStr s).
Hypothesis HList : forall l, Forall P l -> P (JList l).
Hypothesis HDict : forall d, Forall (fun kv => P (snd kv)) d -> P (JDict d).

Fixpoint json_induction (v : json) : P v :=
  match v with
  | JNull => HNull
  | JBool b => HBool b
  | JNum n => HNum n
  | JStr s => HStr s
  | JList l =>
      HList l ((fix all (l : list json) : Forall P l :=
                match l with
                | [] => Forall_nil _
                | x :: xs => Forall_cons _ (json_induction x) (all xs)
                end) l)
  | JDict d =>
      HDict d ((fix all (d : pydict) : Forall (fun kv => P (snd kv)) d :=
                match d with
                | [] => Forall_nil _
                | kv :: rest => Forall_cons _ (json_induction (snd kv)) (all rest)
                end) d)
  end.
End JsonInd.

(** ** Vocabulary of the properties

    *** The pool diff *)

Import StingrayPool.

(** The label that [_pool_changes] gives to key [k] under [parent]. *)
Definition entry_field (parent k : string) : string :=
  if String.eqb parent "" then k else dotted parent k.

(** [agrees new cur]: every key of [new] that [cur] holds with a value
    other than null holds, in [cur], the same leaf or a dict that agrees
    in turn. *)
Fixpoint agrees (new cur : json) {struct new} : Prop :=
  match new with
  | JDict items =>
      (fix all (items : pydict) : Prop :=
         match items with
         | [] => True
         | (k, v) :: rest =>
             (exists c, cur = JDict c /\
                match lookup k c with
                | None => True
                | Some cv =>
                    is_none cv = true \/
                    (if is_dict v then agrees v cv else cv = v)
                end) /\ all rest
         end) items
  | _ => True
  end.

(** *** Two trees that differ at one leaf

    A path lists, from the root down, the key taken at each dict together
    with the items before and after it.  [plug path leaf] is the tree
    with [leaf] at the end of the path; [plug path nv] and [plug path cv]
    differ at that leaf only. *)

Definition path := list (pydict * string * pydict).

Fixpoint plug (p : path) (leaf : json) : json :=
  match p with
  | [] => leaf
  | (pre, k, post) :: rest => JDict (pre ++ (k, plug rest leaf) :: post)
  end.

Definition path_keys (p : path) : list string := map (fun s => snd (fst s)) p.

(** [a.b.c] for the keys [a; b; c]. *)
Fixpoint dotted_path (ks : list string) : string :=
  match ks with
  | [] => ""
  | [k] => k
  | k :: rest => dotted k (dotted_path rest)
  end.

(** The field that the diff reports for the leaf at the end of [ks],
    when it starts below [parent]. *)
Fixpoint reported_field (parent : string) (ks : list string) : string :=
  match ks with
  | [] => parent
  | [k] => entry_field parent k
  | k :: rest => reported_field k rest
  end.

Definition nonempty_keys (ks : list string) : bool :=
  forallb (fun k => negb (String.eqb k "")) ks.

(** The property as the specification words it: one entry, labelled with
    the full dotted path. *)
Definition full_path_claim : Prop :=
  forall (p : path) (nv cv : json) (new_pool : pydict),
    plug p nv = JDict new_pool ->
    wf (plug p nv) = true ->
    nonempty_keys (path_keys p) = true ->
    is_dict nv = false -> py_eq nv cv = false ->
    _pool_changes new_pool (plug p cv) "" =
      Ok [Change (dotted_path (path_keys p)) cv nv].

(** [follow ks cur]: the value that [cur] holds under the keys [ks]. *)
Fixpoint follow (ks : list string) (cur : json) : option json :=
  match ks with
  | [] => Some cur
  | k :: rest =>
      match cur with
      | JDict c =>
          match lookup k c with
          | Some cv => follow rest cv
          | None => None
          end
      | _ => None
      end
  end.

(** The shape that the diff relies on: wherever the desired tree holds a
    dict under a key that the current tree holds with a value other than
    null, that value is a dict too, at every level. *)
Fixpoint shape_ok (new cur : json) {struct new} : bool :=
  match new with
  | JDict items =>
      (fix all (items : pydict) : bool :=
         match items with
         | [] => true
         | (k, v) :: rest =>
             match cur with
             | JDict c =>
                 match lookup k c with
                 | Some cv =>
                     is_none cv || (if is_dict v then is_dict cv && shape_ok v cv else true)
                 | None => true
                 end
             | _ => false
             end && all rest
         end) items
  | _ => true
  end.

Definition c1_pre : pydict := [("connection", JDict [("max_reply_time", JNum 30)])].
Definition c1_path : path :=
  [ (c1_pre, "basic", []);
    ([("monitors", JList [JStr "Ping"])], "note", [("passive_monitoring", JBool true)]) ].

(** *** Running the modules *)

(** The requests that [m] issues when started in [w]. *)
Definition issued {A} (m : M A) (w : world) : list request :=
  skipn (List.length (calls w)) (calls (snd (m w))).

Definition get_request (server port pool : string) : request :=
  Request GET (pool_url server port pool) None.

Definition logged (w : world) (rqs : list request) : world :=
  World (behaviour w) (calls w ++ rqs).

Definition answers_404 (t : body) : world :=
  World (fun _ _ => Ok (Response 404 t)) [].

Definition c7_doc : json :=
  JDict [("properties",
          JDict [("basic",
                  JDict [("nodes_table",
                          JList [JDict [("node", JStr "10.0.0.2:80"); ("state", JStr "active");
                                        ("weight", JNum 1); ("priority", JNum 1)]])])])].

(** *** Check mode *)

(** What check mode promises of a method [m], given how to put an object
    in or out of check mode and how to read its report. *)
Definition dry_run_ok {S : Type} (set_check : bool -> S -> S)
  (changed_of : S -> bool) (msg_of : S -> message) (m : S -> M S) (s : S) (w : world)
  : Prop :=
  snd (m (set_check true s) w) = w /\
  (issued (m (set_check false s)) w <> [] ->
   exists s1, fst (m (set_check true s) w) = Return s1 /\
              changed_of s1 = true /\
              forall s2, fst (m (set_check false s) w) = Return s2 ->
                         changed_of s2 = true /\ msg_of s2 = msg_of s1).

Definition snapshot_kept {S : Type} (set_check : bool -> S -> S)
  (data_of : S -> json) (m : S -> M S) (s : S) (w : world) : Prop :=
  forall s1, fst (m (set_check true s) w) = Return s1 -> data_of s1 = data_of s.

Definition with_check (b : bool)
  (r : result (StingrayNode.self * json * list (string * mvalue)))
  : result (StingrayNode.self * json * list (string * mvalue)) :=
  match r with
  | Ok (s, cn, ch) => Ok (StingrayNode.set_check_mode b s, cn, ch)
  | Raise e => Raise e
  end.

(** No value of the dict is null. *)
Definition no_null_values (P : pydict) : bool :=
  forallb (fun kv => negb (is_none (snd kv))) P.

(** The bodies that the pool methods send. *)
Definition pool_write_body (s : StingrayPool.self) (b : option body) : Prop :=
  b = None \/ b = Some (put_body (StingrayPool.properties s)) \/
  b = Some (put_body [("basic", JDict [])]).

(** *** Concrete pools *)

Definition node_entry (address state : string) (weight priority : Z) : json :=
  JDict [("node", JStr address); ("state", JStr state);
         ("weight", JNum weight); ("priority", JNum priority)].

Definition web_nodes : list json :=
  [node_entry "10.0.0.1:80" "active" 1 1;
   node_entry "10.0.0.2:80" "active" 1 1;
   node_entry "10.0.0.3:80" "draining" 2 1].

Definition web_doc : json :=
  JDict [("properties",
          JDict [("basic", JDict [("note", JStr "x"); ("nodes_table", JList web_nodes)])])].

Definition web_world : world := World (faithful (Some web_doc)) [].

(** A server that holds [web_doc] and answers every write with 500. *)
Definition failing_world : world :=
  World (fun _ rq =>
           match meth rq with
           | GET => Ok (Response 200 (Json web_doc))
           | _ => Ok (Response 500 (NotJson "internal error"))
           end) [].

Definition web_pool_object : StingrayPool.self :=
  StingrayPool.Self false "web" [("basic", JDict [("note", JStr "y")])]
    (pool_url "lb" "9070" "web") true web_doc (MsgStr "") false.

(** *** The node table *)

Import StingrayNode.

Definition needs_update (d cur : json) : bool := truthy d && negb (py_eq d cur).

(** The value of a field after its comparison. *)
Definition updated_field (d cur : json) : json := if needs_update d cur then d else cur.

Definition apply_field (key : string) (d cur : json) (x : json) : json :=
  if needs_update d cur then setitem x key d else x.

Definition has_address (name : string) (x : json) : Prop :=
  exists d a, x = JDict d /\ lookup "node" d = Some a /\ py_eq a (JStr name) = true.

(** What the comparisons keep of the object they started from. *)
Definition tracks (s0 s : self) (others : list json) : Prop :=
  check_mode s = check_mode s0 /\ node s = node s0 /\ _url s = _url s0 /\
  exists tbl, nodes_table (pool_data s) = Ok (JList tbl) /\
              select false (node s0) tbl = Ok others.

Definition nodes_body (nodes : list json) : body :=
  json_dumps (JDict [("properties", JDict [("basic", JDict [("nodes_table", JList nodes)])])]).

(** The entry after the three comparisons. *)
Definition updated_node (s : self) (st wt pr : json) (x : json) : json :=
  apply_field "priority" (desired_priority s) pr
    (apply_field "weight" (desired_weight s) wt
       (apply_field "state" (desired_lb_state s) st x)).

Definition web_node_object : self :=
  Self false "web" "10.0.0.1:80" (JNum 5) JNull JNull
    (pool_url "lb" "9070" "web") web_doc (MsgStr "") false.

(** *** The faithful API

    The items of [merge] on two dicts. *)
Fixpoint merge_into (items acc : pydict) : pydict :=
  match items with
  | [] => acc
  | (k, v) :: rest =>
      merge_into rest (dict_set k (match lookup k acc with
                                   | Some cv => merge v cv
                                   | None => v
                                   end) acc)
  end.

Definition faithful_world (init : option json) (history : list request) : world :=
  World (faithful init) history.

Definition created_props (props : pydict) : pydict :=
  if truthy (JDict props) then props else [("basic", JDict [])].

(** *** A node that is as desired *)

Definition field_settled (key : string) (d cn : json) : Prop :=
  truthy d = false \/ exists v, getitem cn key = Ok v /\ py_eq d v = true.

(** A document in which the node is as desired. *)
Definition settled (st : presence) (name : string) (dw dp dl : json) (doc : json) : Prop :=
  exists tblv nodes,
    nodes_table doc = Ok tblv /\ iterate tblv = Ok nodes /\
    match st with
    | absent => select true name nodes = Ok []
    | present =>
        exists x dup, select true name nodes = Ok (x :: dup) /\
                      field_settled "state" dl x /\
                      field_settled "weight" dw x /\
                      field_settled "priority" dp x
    end.

Definition node_method (st : presence) : self -> M self :=
  match st with
  | present => set_present
  | absent => set_absent
  end.

(** *** Further vocabulary *)

(** The entry that [set_present] appends for a node that is not in the table. *)
Definition new_node_entry (name : string) (lb_state weight priority : json) : json :=
  JDict [("node", JStr name);
         ("state", StingrayNode.py_or lb_state (JStr "active"));
         ("weight", StingrayNode.py_or weight (JNum 1));
         ("priority", StingrayNode.py_or priority (JNum 1))].

(** Whether the entry [n] carries the address [name]. *)
Definition has_name (name : string) (n : json) : bool :=
  match getitem n "node" with
  | Ok a => py_eq a (JStr name)
  | Raise _ => false
  end.

(** The change record of a pool before any diff: [{'pool': name}] and its action. *)
Definition pool_record (name : string) (action : option string) : list (string * mvalue) :=
  match action with
  | None => [("pool", MJson (JStr name))]
  | Some a => [("pool", MJson (JStr name)); ("action", MJson (JStr a))]
  end.

(** The change record of a node before any comparison. *)
Definition node_record (name pool : string) : list (string * mvalue) :=
  [("node", MJson (JStr name)); ("pool", MJson (JStr pool))].

Definition put_request (server port pool : string) (b : body) : request :=
  Request PUT (pool_url server port pool) (Some b).

Definition delete_request (server port pool : string) : request :=
  Request DELETE (pool_url server port pool) None.

(** A server that holds [web_doc] and answers every write with [resp]. *)
Definition answering_world (resp : response) : world :=
  World (fun _ rq =>
           match meth rq with
           | GET => Ok (Response 200 (Json web_doc))
           | _ => Ok resp
           end) [].

(** A server without the pool that answers every write with [resp]. *)
Definition absent_world (resp : response) : world :=
  World (fun _ rq =>
           match meth rq with
           | GET => Ok (Response 404 not_found_body)
           | _ => Ok resp
           end) [].

(** A pool document whose table lists one address twice. *)
Definition twice_listed : json :=
  JDict [("properties",
          JDict [("basic",
                  JDict [("nodes_table",
                          JList [node_entry "10.0.0.1:80" "active" 1 1;
                                 node_entry "10.0.0.2:80" "active" 1 1;
                                 node_entry "10.0.0.1:80" "disabled" 3 1])])])].

(** A pool document whose only entry has an address and nothing else. *)
Definition bare_entry_doc : json :=
  JDict [("properties",
          JDict [("basic",
                  JDict [("nodes_table", JList [JDict [("node", JStr "10.0.0.1:80")]])])])].

(** A server that answers every request with 200 and [doc]. *)
Definition serving_world (doc : json) : world :=
  World (fun _ _ => Ok (Response 200 (Json doc))) [].

(** A server whose GET raises [e]. *)
Definition unreachable_world (e : exn) : world := World (fun _ _ => Raise e) [].

(** What a run issues after its GET: nothing, or one write, and none in check mode. *)
Definition one_write_at_most (check : bool) (rqs : list request) : Prop :=
  rqs = [] \/ (check = false /\ exists rq, rqs = [rq] /\ is_write rq = true).

(** An entry of a diff that is a leaf and differs. *)
Definition leaf_entry (e : change) : Prop :=
  is_none (before e) = false /\ is_dict (after e) = false /\
  py_eq (after e) (before e) = false.

(** *** When a change is needed

    Read off the stored document and the desired state, not off what a
    run does.  [differs new cur]: some leaf of the desired tree has, in
    the current tree, a counterpart that is not null and not equal to
    it (a key that the current tree lacks or holds as null is not
    compared). *)
Fixpoint differs (new cur : json) {struct new} : bool :=
  match new with
  | JDict items =>
      (fix any (items : pydict) : bool :=
         match items with
         | [] => false
         | (k, v) :: rest =>
             match cur with
             | JDict c =>
                 match lookup k c with
                 | Some cv =>
                     if is_none cv then false
                     else if is_dict v then differs v cv else negb (py_eq v cv)
                 | None => false
                 end
             | _ => false
             end || any rest
         end) items
  | _ => false
  end.

(** [len(l) > 0] *)
Definition nonempty {A} (l : list A) : bool :=
  match l with [] => false | _ => true end.

(** [holds new cur]: the current tree has every key of the desired tree,
    with the desired value at every leaf. *)
Fixpoint holds (new cur : json) {struct new} : Prop :=
  match new with
  | JDict items =>
      (fix all (items : pydict) : Prop :=
         match items with
         | [] => True
         | (k, v) :: rest =>
             (exists c cv, cur = JDict c /\ lookup k c = Some cv /\
                (if is_dict v then holds v cv else cv = v)) /\ all rest
         end) items
  | _ => True
  end.

(** Whether the stored pool differs from what the pool module is asked for. *)
Definition pool_needs_change (state : presence) (props : pydict) (stored : option json)
  : bool :=
  match state, stored with
  | absent, Some _ => true
  | absent, None => false
  | present, None => true
  | present, Some doc =>
      match getitem doc "properties" with
      | Ok cur => differs (JDict (non_empty_props props)) cur
      | Raise _ => false
      end
  end.

(** The stored pool is what the pool module was asked for. *)
Definition pool_as_desired (state : presence) (props : pydict) (stored : option json)
  : Prop :=
  match state with
  | absent => stored = None
  | present =>
      exists doc cur, stored = Some doc /\ getitem doc "properties" = Ok cur /\
                      holds (JDict (non_empty_props props)) cur
  end.

(** A desired field that is given (true for Python) and is not the one of the entry. *)
Definition field_needs (key : string) (desired entry : json) : bool :=
  truthy desired &&
  match getitem entry key with
  | Ok cur => negb (py_eq desired cur)
  | Raise _ => true
  end.

Definition entry_needs (weight priority lb_state entry : json) : bool :=
  field_needs "state" lb_state entry || field_needs "weight" weight entry
  || field_needs "priority" priority entry.

(** Whether the stored table differs from what the node module is asked
    for: for [absent], some entry carries the address; for [present], no
    entry carries it, or the first that does has a field to update. *)
Definition node_needs_change (state : presence) (name : string)
  (weight priority lb_state : json) (stored : option json) : bool :=
  match stored with
  | None => match state with absent => false | present => true end
  | Some doc =>
      match rbind (StingrayNode.nodes_table doc) StingrayNode.iterate with
      | Ok nodes =>
          match state with
          | absent => existsb (has_name name) nodes
          | present =>
              match find (has_name name) nodes with
              | None => true
              | Some x => entry_needs weight priority lb_state x
              end
          end
      | Raise _ => false
      end
  end.

(** The stored table is what the node module was asked for. *)
Definition node_as_desired (state : presence) (name : string)
  (weight priority lb_state : json) (stored : option json) : Prop :=
  exists doc nodes,
    stored = Some doc /\
    rbind (StingrayNode.nodes_table doc) StingrayNode.iterate = Ok nodes /\
    match state with
    | absent => existsb (has_name name) nodes = false
    | present =>
        exists x, find (has_name name) nodes = Some x /\
                  entry_needs weight priority lb_state x = false
    end.


(** *** A stored document that the modules can read

    The pool module reads [properties] of the stored pool and diffs it
    against the desired tree; the node module reads the table as a list
    of entries that each have an address and, for the entry it updates,
    the fields it is given. *)
Definition pool_readable (state : presence) (props : pydict) (stored : option json)
  : bool :=
  match state, stored with
  | present, Some doc =>
      match getitem doc "properties" with
      | Ok cur => shape_ok (JDict (non_empty_props props)) cur
      | Raise _ => false
      end
  | _, _ => true
  end.

Definition has_key (key : string) (n : json) : bool :=
  match getitem n key with
  | Ok _ => true
  | Raise _ => false
  end.

Definition field_readable (key : string) (desired entry : json) : bool :=
  negb (truthy desired) || has_key key entry.

Definition node_readable (state : presence) (name : string)
  (weight priority lb_state : json) (stored : option json) : bool :=
  match stored with
  | None => false
  | Some doc =>
      match StingrayNode.nodes_table doc with
      | Ok (JList nodes) =>
          forallb (has_key "node") nodes &&
          match state with
          | absent => true
          | present =>
              match find (has_name name) nodes with
              | None => true
              | Some x =>
                  field_readable "state" lb_state x &&
                  field_readable "weight" weight x &&
                  field_readable "priority" priority x
              end
          end
      | _ => false
      end
  end.

(** * Proofs *)

(** ** Lemmas on dicts and equality *)

Lemma lookup_app_notin {V} (k : string) (pre post : list (string * V)) :
  existsb (String.eqb k) (map fst pre) = false ->
  lookup k (pre ++ post) = lookup k post.
Proof.
  induction pre as [|[k' v] pre IH]; simpl; intros H; [reflexivity|].
  apply orb_false_iff in H. destruct H as [Hk Hpre].
  rewrite String.eqb_sym in Hk. rewrite Hk. auto.
Qed.

Lemma lookup_head {V} (k : string) (v : V) (rest : list (string * V)) :
  lookup k ((k, v) :: rest) = Some v.
Proof. simpl. rewrite String.eqb_refl. reflexivity. Qed.

Lemma lookup_dict_set_eq {V} (k : string) (v : V) (d : list (string * V)) :
  lookup k (dict_set k v d) = Some v.
Proof.
  induction d as [|[k' v'] d IH]; simpl.
  - rewrite String.eqb_refl. reflexivity.
  - destruct (String.eqb k' k) eqn:E; simpl; rewrite E; auto.
Qed.

Lemma lookup_dict_set_ne {V} (k k' : string) (v : V) (d : list (string * V)) :
  String.eqb k k' = false ->
  lookup k' (dict_set k v d) = lookup k' d.
Proof.
  intros Hne. induction d as [|[k0 v0] d IH]; simpl.
  - rewrite Hne. reflexivity.
  - destruct (String.eqb k0 k) eqn:E; simpl.
    + apply String.eqb_eq in E. subst k0. rewrite Hne. reflexivity.
    + destruct (String.eqb k0 k'); auto.
Qed.

Lemma existsb_eqb_false_iff (k : string) (ks : list string) :
  existsb (String.eqb k) ks = false <-> ~ In k ks.
Proof.
  split.
  - intros H Hin. assert (existsb (String.eqb k) ks = true) as E.
    { apply existsb_exists. exists k. split; [assumption|apply String.eqb_refl]. }
    congruence.
  - intros H. destruct (existsb (String.eqb k) ks) eqn:E; [|reflexivity].
    apply existsb_exists in E. destruct E as [x [Hin Hx]].
    apply String.eqb_eq in Hx. subst x. contradiction.
Qed.

Lemma nodup_keys_NoDup (ks : list string) : nodup_keys ks = true <-> NoDup ks.
Proof.
  induction ks as [|k ks IH]; simpl.
  - split; [constructor|reflexivity].
  - rewrite andb_true_iff, negb_true_iff, existsb_eqb_false_iff, IH.
    split; [intros [H1 H2]; constructor; assumption|intros H; inversion H; auto].
Qed.

Lemma lookup_In_nodup (d : pydict) (k : string) (v : json) :
  nodup_keys (map fst d) = true -> In (k, v) d -> lookup k d = Some v.
Proof.
  induction d as [|[k' v'] d IH]; simpl; intros Hnd Hin; [contradiction|].
  apply andb_true_iff in Hnd. destruct Hnd as [Hk Hnd].
  destruct Hin as [Heq|Hin].
  - inversion Heq; subst. rewrite String.eqb_refl. reflexivity.
  - destruct (String.eqb k' k) eqn:E; [|auto].
    apply String.eqb_eq in E. subst k'.
    apply negb_true_iff, existsb_eqb_false_iff in Hk.
    exfalso. apply Hk. apply in_map_iff. exists (k, v). auto.
Qed.

Lemma py_eq_refl (v : json) : wf v = true -> py_eq v v = true.
Proof.
  induction v as [| b | n | s | l IH | d IH] using json_induction; simpl; intros Hwf.
  - reflexivity.
  - apply Bool.eqb_reflx.
  - apply Z.eqb_refl.
  - apply String.eqb_refl.
  - induction IH as [|x xs Hx Hxs IHxs]; [reflexivity|].
    simpl in Hwf. apply andb_true_iff in Hwf. destruct Hwf as [H1 H2].
    rewrite Hx by assumption. simpl. auto.
  - apply andb_true_iff in Hwf. destruct Hwf as [Hnd Hall].
    rewrite Nat.eqb_refl. simpl.
    assert (forall items, incl items d ->
              Forall (fun kv => wf (snd kv) = true -> py_eq (snd kv) (snd kv) = true) items ->
              (fix eq_items (items : pydict) : bool :=
                 match items with
                 | [] => true
                 | (k, v) :: rest =>
                     match lookup k d with
                     | Some w => py_eq v w && eq_items rest
                     | None => false
                     end
                 end) items = true) as Hgen.
    { induction items as [|[k v] items IHi]; intros Hincl Hall'; [reflexivity|].
      inversion Hall' as [|? ? Hv Hrest]; subst.
      rewrite (lookup_In_nodup d k v Hnd) by (apply Hincl; left; reflexivity).
      simpl in Hv. rewrite Hv.
      - simpl. apply IHi; [|assumption]. intros x Hx. apply Hincl. right. assumption.
      - rewrite forallb_forall in Hall. apply (Hall (k, v)). apply Hincl. left. reflexivity. }
    apply Hgen; [apply incl_refl|assumption].
Qed.

Lemma pool_changes_nil (current_pool : json) (parent : string) :
  _pool_changes [] current_pool parent = Ok [].
Proof. reflexivity. Qed.

Lemma pool_changes_cons (k : string) (nv : json) (rest : pydict)
  (current_pool : json) (parent : string) :
  _pool_changes ((k, nv) :: rest) current_pool parent =
  rbind (py_get current_pool k) (fun cv =>
    if is_none cv then _pool_changes rest current_pool parent
    else if is_dict nv then
      rbind (pool_changes_of nv cv k) (fun sub =>
      rbind (_pool_changes rest current_pool parent) (fun tl => Ok (sub ++ tl)))
    else if negb (py_eq nv cv) then
      rbind (_pool_changes rest current_pool parent) (fun tl =>
      Ok (Change (entry_field parent k) cv nv :: tl))
    else _pool_changes rest current_pool parent).
Proof.
  unfold _pool_changes, entry_field. simpl.
  destruct (py_get current_pool k) as [cv|e]; simpl; [|reflexivity].
  destruct (is_none cv); [reflexivity|].
  destruct nv; simpl; try reflexivity;
    destruct (negb _); try reflexivity; destruct (String.eqb parent ""); reflexivity.
Qed.

Lemma pool_changes_of_dict (items : pydict) (current_pool : json) (parent : string) :
  pool_changes_of (JDict items) current_pool parent = _pool_changes items current_pool parent.
Proof. reflexivity. Qed.

Lemma pool_changes_of_leaf (v : json) (current_pool : json) (parent : string) :
  is_dict v = false -> pool_changes_of v current_pool parent = Ok [].
Proof. destruct v; simpl; intros H; try reflexivity. discriminate. Qed.

Global Opaque _pool_changes.

Lemma agrees_no_changes (new : json) :
  wf new = true ->
  forall cur parent, agrees new cur -> pool_changes_of new cur parent = Ok [].
Proof.
  induction new as [| b | n | s | l IH | d IH] using json_induction;
    intros Hwf cur parent Hag; try reflexivity.
  rewrite pool_changes_of_dict.
  simpl in Hwf. apply andb_true_iff in Hwf. destruct Hwf as [_ Hall].
  induction IH as [|[k v] items Hv Hitems IHitems].
  - apply pool_changes_nil.
  - simpl in Hall. apply andb_true_iff in Hall. destruct Hall as [Hwfv Hall].
    destruct Hag as [[c [Hc Hk]] Hrest].
    rewrite pool_changes_cons. subst cur. simpl py_get.
    specialize (IHitems Hall Hrest).
    destruct (lookup k c) as [cv|]; simpl; [|exact IHitems].
    destruct (is_none cv) eqn:Hnone; [exact IHitems|].
    destruct Hk as [Hk|Hk]; [congruence|].
    destruct (is_dict v) eqn:Hd.
    + simpl in Hv. rewrite (Hv Hwfv cv k Hk). simpl. rewrite IHitems. reflexivity.
    + subst cv. rewrite py_eq_refl by assumption. simpl. exact IHitems.
Qed.

Lemma rbind_ok_r {A} (r : result (list A)) :
  rbind r (fun tl => Ok ([] ++ tl)) = r.
Proof. destruct r; reflexivity. Qed.

Lemma pool_changes_app (l1 l2 : pydict) (cur : json) (parent : string) :
  _pool_changes (l1 ++ l2) cur parent =
  rbind (_pool_changes l1 cur parent) (fun a =>
  rbind (_pool_changes l2 cur parent) (fun b => Ok (a ++ b))).
Proof.
  induction l1 as [|[k v] l1 IH]; simpl.
  - rewrite pool_changes_nil. simpl. symmetry. apply rbind_ok_r.
  - rewrite !pool_changes_cons.
    destruct (py_get cur k) as [cv|e]; simpl; [|reflexivity].
    destruct (is_none cv); [exact IH|].
    destruct (is_dict v).
    + destruct (pool_changes_of v cv k) as [sub|e]; simpl; [|reflexivity].
      rewrite IH.
      destruct (_pool_changes l1 cur parent) as [a|e]; simpl; [|reflexivity].
      destruct (_pool_changes l2 cur parent) as [b|e]; simpl; [|reflexivity].
      rewrite app_assoc. reflexivity.
    + destruct (negb (py_eq v cv)); [|exact IH].
      rewrite IH.
      destruct (_pool_changes l1 cur parent) as [a|e]; simpl; [|reflexivity].
      destruct (_pool_changes l2 cur parent) as [b|e]; simpl; reflexivity.
Qed.

Lemma agrees_items (items c : pydict) :
  (forall k v, In (k, v) items ->
     match lookup k c with
     | None => True
     | Some cv => is_none cv = true \/ (if is_dict v then agrees v cv else cv = v)
     end) ->
  agrees (JDict items) (JDict c).
Proof.
  induction items as [|[k v] items IH]; intros H; simpl; [exact I|].
  split.
  - exists c. split; [reflexivity|]. apply H. left. reflexivity.
  - apply IH. intros k' v' Hin. apply H. right. assumption.
Qed.

Lemma agrees_self (v : json) : wf v = true -> agrees v v.
Proof.
  induction v as [| b | n | s | l IH | d IH] using json_induction;
    intros Hwf; try exact I.
  apply agrees_items. intros k v Hin.
  simpl in Hwf. apply andb_true_iff in Hwf. destruct Hwf as [Hnd Hall].
  rewrite (lookup_In_nodup d k v Hnd Hin). right.
  destruct (is_dict v) eqn:Hd; [|reflexivity].
  rewrite Forall_forall in IH. apply (IH (k, v) Hin).
  rewrite forallb_forall in Hall. apply (Hall (k, v) Hin).
Qed.

Lemma agrees_no_changes_items (items : pydict) :
  forallb (fun kv => wf (snd kv)) items = true ->
  forall cur parent, agrees (JDict items) cur -> _pool_changes items cur parent = Ok [].
Proof.
  induction items as [|[k v] items IH]; intros Hall cur parent Hag.
  - apply pool_changes_nil.
  - simpl in Hall. apply andb_true_iff in Hall. destruct Hall as [Hwfv Hall].
    destruct Hag as [[c [Hc Hk]] Hrest].
    rewrite pool_changes_cons. subst cur. simpl py_get.
    specialize (IH Hall (JDict c) parent Hrest).
    destruct (lookup k c) as [cv|]; simpl; [|exact IH].
    destruct (is_none cv) eqn:Hnone; [exact IH|].
    destruct Hk as [Hk|Hk]; [congruence|].
    destruct (is_dict v) eqn:Hd.
    + rewrite (agrees_no_changes v Hwfv cv k Hk). simpl. rewrite IH. reflexivity.
    + subst cv. rewrite py_eq_refl by assumption. simpl. exact IH.
Qed.

(** The items around the path are the same on both sides: they report nothing. *)
Lemma siblings_no_changes (items pre post : pydict) (k : string) (x y : json)
  (parent : string) :
  wf (JDict (pre ++ (k, x) :: post)) = true ->
  incl items (pre ++ post) ->
  _pool_changes items (JDict (pre ++ (k, y) :: post)) parent = Ok [].
Proof.
  intros Hwf Hincl.
  simpl in Hwf. apply andb_true_iff in Hwf. destruct Hwf as [Hnd Hall].
  assert (nodup_keys (map fst (pre ++ (k, y) :: post)) = true) as Hnd'.
  { rewrite map_app in *. exact Hnd. }
  rewrite forallb_forall in Hall.
  assert (forall k' v', In (k', v') items ->
            wf v' = true /\ lookup k' (pre ++ (k, y) :: post) = Some v') as Hitems.
  { intros k' v' Hin. apply Hincl in Hin. apply in_app_or in Hin. split.
    - apply (Hall (k', v')). apply in_or_app. destruct Hin; [left|right; right]; assumption.
    - apply lookup_In_nodup; [assumption|].
      apply in_or_app. destruct Hin; [left|right; right]; assumption. }
  apply agrees_no_changes_items.
  - apply forallb_forall. intros [k' v'] Hin. apply (Hitems k' v' Hin).
  - apply agrees_items. intros k' v' Hin. destruct (Hitems k' v' Hin) as [Hw Hl].
    rewrite Hl. right. destruct (is_dict v'); [apply agrees_self; assumption|reflexivity].
Qed.

Lemma plug_is_dict (p : path) (leaf : json) : p <> [] -> is_dict (plug p leaf) = true.
Proof. destruct p as [|[[pre k] post] rest]; [congruence|reflexivity]. Qed.

(** What the diff returns on two trees that differ at one leaf. *)
Lemma pool_changes_plug (p : path) (nv cv : json) :
  p <> [] ->
  is_dict nv = false -> is_none cv = false -> py_eq nv cv = false ->
  forall parent,
    wf (plug p nv) = true ->
    pool_changes_of (plug p nv) (plug p cv) parent =
      Ok [Change (reported_field parent (path_keys p)) cv nv].
Proof.
  intros Hp Hleaf Hcv Hne.
  induction p as [|[[pre k] post] rest IH]; [congruence|].
  intros parent Hwf. simpl plug. rewrite pool_changes_of_dict, pool_changes_app.
  simpl plug in Hwf.
  rewrite (siblings_no_changes pre pre post k (plug rest nv) (plug rest cv) parent Hwf)
    by (apply incl_appl, incl_refl).
  simpl rbind at 1. rewrite pool_changes_cons.
  rewrite (siblings_no_changes post pre post k (plug rest nv) (plug rest cv) parent Hwf)
    by (apply incl_appr, incl_refl).
  assert (lookup k (pre ++ (k, plug rest cv) :: post) = Some (plug rest cv)) as Hl.
  { apply lookup_In_nodup.
    - simpl in Hwf. apply andb_true_iff in Hwf. rewrite map_app in *. apply Hwf.
    - apply in_or_app. right. left. reflexivity. }
  simpl py_get. rewrite Hl. simpl rbind at 1.
  assert (wf (plug rest nv) = true) as Hwf'.
  { simpl in Hwf. apply andb_true_iff in Hwf. destruct Hwf as [_ Hall].
    rewrite forallb_forall in Hall.
    apply (Hall (k, plug rest nv)). apply in_or_app. right. left. reflexivity. }
  destruct rest as [|s rest'].
  - simpl plug. rewrite Hcv, Hleaf, Hne. reflexivity.
  - assert (s :: rest' <> []) as Hne' by congruence.
    rewrite (plug_is_dict _ nv Hne').
    assert (is_none (plug (s :: rest') cv) = false) as Hn.
    { destruct s as [[a b] c]. reflexivity. }
    rewrite Hn. rewrite (IH Hne' k Hwf'). destruct s as [[a b] c]. reflexivity.
Qed.

Lemma shape_ok_cons (k : string) (v : json) (rest : pydict) (cur : json) :
  shape_ok (JDict ((k, v) :: rest)) cur =
  match cur with
  | JDict c =>
      match lookup k c with
      | Some cv => is_none cv || (if is_dict v then is_dict cv && shape_ok v cv else true)
      | None => true
      end
  | _ => false
  end && shape_ok (JDict rest) cur.
Proof. reflexivity. Qed.

Lemma pool_changes_total (new : json) :
  forall cur parent, shape_ok new cur = true ->
  exists changes, pool_changes_of new cur parent = Ok changes.
Proof.
  induction new as [| b | n | s | l IH | d IH] using json_induction;
    intros cur parent Hs; try (exists []; reflexivity).
  rewrite pool_changes_of_dict.
  induction IH as [|[k v] items Hv Hitems IHitems].
  - exists []. apply pool_changes_nil.
  - rewrite shape_ok_cons in Hs. apply andb_true_iff in Hs. destruct Hs as [Hk Hrest].
    destruct (IHitems Hrest) as [tl Htl].
    rewrite pool_changes_cons, Htl.
    destruct cur as [| | | | |c]; try discriminate. simpl py_get.
    destruct (lookup k c) as [cv|]; simpl; [|exists tl; reflexivity].
    destruct (is_none cv) eqn:Hnone; [exists tl; reflexivity|].
    simpl in Hk. destruct (is_dict v) eqn:Hd.
    + apply andb_true_iff in Hk. destruct Hk as [_ Hsub].
      simpl in Hv. destruct (Hv cv k Hsub) as [sub Hsub'].
      rewrite Hsub'. simpl. eexists. reflexivity.
    + destruct (negb (py_eq v cv)); simpl; eexists; reflexivity.
Qed.

(** ** Properties of the pool diff *)

Example pool_changes_ex1 :
  _pool_changes [("basic", JDict [("note", JStr "x"); ("monitors", JNull)])]
                (JDict [("basic", JDict [("note", JStr "y"); ("monitors", JList [])])]) ""
  = Ok [Change "basic.note" (JStr "y") (JStr "x");
        Change "basic.monitors" (JList []) JNull].
Proof. vm_compute. reflexivity. Qed.

(** C1, as amended.  When the desired and the current tree differ at one
    leaf only, the current leaf is not null and the desired leaf is not a
    dict, the diff returns exactly one entry, with ['before'] the current
    leaf and ['after'] the desired one; for a leaf at depth one or two
    (path [a] or [a.b], keys not empty) its field is the full dotted
    path. *)
Theorem one_leaf_one_entry (p : path) (nv cv : json) (new_pool : pydict) :
  plug p nv = JDict new_pool ->
  wf (plug p nv) = true ->
  nonempty_keys (path_keys p) = true ->
  is_dict nv = false -> is_none cv = false -> py_eq nv cv = false ->
  exists e,
    _pool_changes new_pool (plug p cv) "" = Ok [e] /\
    before e = cv /\ after e = nv /\
    ((List.length p <= 2)%nat -> field e = dotted_path (path_keys p)).
Proof.
  intros Hplug Hwf Hkeys Hleaf Hcv Hne.
  assert (p <> []) as Hp.
  { intros ->. simpl in Hplug. subst nv. discriminate. }
  exists (Change (reported_field "" (path_keys p)) cv nv).
  rewrite <- pool_changes_of_dict, <- Hplug.
  split; [apply pool_changes_plug; assumption|].
  split; [reflexivity|]. split; [reflexivity|].
  intros Hlen. simpl.
  destruct p as [|[[pre1 k1] post1] [|[[pre2 k2] post2] [|s rest]]];
    [congruence|reflexivity| |simpl in Hlen; lia].
  simpl in Hkeys. apply andb_true_iff in Hkeys. destruct Hkeys as [Hk1 _].
  apply negb_true_iff in Hk1.
  simpl. unfold entry_field. rewrite Hk1. reflexivity.
Qed.

Lemma one_leaf_one_entry_witness :
  exists e,
    _pool_changes
      (c1_pre ++ [("basic", JDict [("monitors", JList [JStr "Ping"]);
                                   ("note", JStr "new");
                                   ("passive_monitoring", JBool true)])])
      (plug c1_path (JStr "old")) "" = Ok [e] /\
    before e = JStr "old" /\ after e = JStr "new" /\
    ((List.length c1_path <= 2)%nat -> field e = "basic.note").
Proof.
  apply (one_leaf_one_entry c1_path (JStr "new") (JStr "old")); reflexivity.
Defined.

(** C1 as stated fails twice over.  A current leaf that is null is
    skipped, so the two trees differ and nothing is reported; and at
    depth three the field is [b.c], the last two keys, not [a.b.c]. *)
Lemma full_path_refuted :
  _pool_changes [("a", JDict [("b", JNum 2)])]
                (JDict [("a", JDict [("b", JNull)])]) "" = Ok []
  /\
  _pool_changes [("a", JDict [("b", JDict [("c", JNum 2)])])]
                (JDict [("a", JDict [("b", JDict [("c", JNum 1)])])]) ""
    = Ok [Change "b.c" (JNum 1) (JNum 2)]
  /\ ~ full_path_claim.
Proof.
  split; [vm_compute; reflexivity|]. split; [vm_compute; reflexivity|].
  intros H.
  specialize (H [([], "a", []); ([], "b", []); ([], "c", [])] (JNum 2) (JNum 1)
                [("a", JDict [("b", JDict [("c", JNum 2)])])]
                eq_refl eq_refl eq_refl eq_refl eq_refl).
  vm_compute in H. discriminate H.
Qed.

(** C6.  A desired key whose current counterpart is missing or null
    contributes nothing, whatever its desired value is and at whatever
    depth it sits: the diff is the one of the tree without the key. *)
Theorem unset_current_key_skipped (p : path) (pre post : pydict) (k : string)
  (nv cur : json) (c : pydict) (parent : string) :
  follow (path_keys p) cur = Some (JDict c) ->
  lookup k c = None \/ lookup k c = Some JNull ->
  pool_changes_of (plug p (JDict (pre ++ (k, nv) :: post))) cur parent =
  pool_changes_of (plug p (JDict (pre ++ post))) cur parent.
Proof.
  revert cur parent.
  induction p as [|[[ppre pk] ppost] rest IH]; intros cur parent Hf Hk.
  - simpl in Hf. inversion Hf; subst cur. simpl plug.
    rewrite !pool_changes_of_dict, !pool_changes_app, pool_changes_cons.
    simpl py_get.
    destruct Hk as [Hk|Hk]; rewrite Hk; reflexivity.
  - simpl plug. rewrite !pool_changes_of_dict, !pool_changes_app, !pool_changes_cons.
    simpl in Hf. destruct cur as [| | | | |d]; try discriminate.
    simpl py_get. destruct (lookup pk d) as [cv|]; [|discriminate].
    simpl rbind.
    assert (forall leaf, is_dict (plug rest leaf) = is_dict leaf \/
                         is_dict (plug rest leaf) = true) as Hd.
    { intros leaf. destruct rest as [|[[a b] e] r]; [left|right]; reflexivity. }
    rewrite (IH cv pk Hf Hk).
    destruct (is_none cv); [reflexivity|].
    destruct (Hd (JDict (pre ++ (k, nv) :: post))) as [E1|E1];
      destruct (Hd (JDict (pre ++ post))) as [E2|E2]; rewrite E1, E2; reflexivity.
Qed.

Lemma unset_current_key_skipped_witness :
  pool_changes_of
    (plug [([], "basic", [])] (JDict ([("note", JStr "x")] ++ ("nodes", JDict [("n", JNum 1)]) :: [])))
    (JDict [("basic", JDict [("note", JStr "y"); ("nodes", JNull)])]) "" =
  pool_changes_of
    (plug [([], "basic", [])] (JDict ([("note", JStr "x")] ++ [])))
    (JDict [("basic", JDict [("note", JStr "y"); ("nodes", JNull)])]) "".
Proof.
  apply (unset_current_key_skipped [([], "basic", [])] [("note", JStr "x")] [] "nodes"
           (JDict [("n", JNum 1)]) _ [("note", JStr "y"); ("nodes", JNull)] "").
  - reflexivity.
  - right. reflexivity.
Defined.

(** C10.  On trees of the expected shape the diff returns a list; on
    some tree outside it (a dict desired where the current value is a
    number) it raises. *)
Theorem pool_changes_total_on_shape :
  (forall (new_pool c : pydict) (parent : string),
     shape_ok (JDict new_pool) (JDict c) = true ->
     exists changes, _pool_changes new_pool (JDict c) parent = Ok changes)
  /\
  (exists (new_pool c : pydict),
     shape_ok (JDict new_pool) (JDict c) = false /\
     _pool_changes new_pool (JDict c) "" = Raise AttributeError).
Proof.
  split.
  - intros new_pool c parent Hs. rewrite <- pool_changes_of_dict.
    apply pool_changes_total. assumption.
  - exists [("basic", JDict [("note", JStr "x")])], [("basic", JNum 5)].
    split; vm_compute; reflexivity.
Qed.

Lemma pool_changes_total_on_shape_witness :
  exists changes,
    _pool_changes [("basic", JDict [("note", JStr "x")]); ("web", JDict [("k", JNum 1)])]
                  (JDict [("basic", JDict [("note", JStr "y")]); ("web", JNull)]) ""
    = Ok changes.
Proof.
  apply (proj1 pool_changes_total_on_shape). reflexivity.
Defined.

Lemma logged_nil (w : world) : logged w [] = w.
Proof. destruct w. unfold logged. simpl. rewrite app_nil_r. reflexivity. Qed.

Lemma issued_logged {A} (m : M A) (w : world) (o : outcome A) (rqs : list request) :
  m w = (o, logged w rqs) -> issued m w = rqs.
Proof.
  intros H. unfold issued. rewrite H. simpl.
  rewrite skipn_app, skipn_all, Nat.sub_diag. reflexivity.
Qed.

Lemma pool_init_run (check : bool) (server port pool : string) (props : pydict)
  (w : world) (resp : response) :
  behaviour w (calls w) (get_request server port pool) = Ok resp ->
  StingrayPool.__init__ check server port pool props w =
    (match json_loads (text resp) with
     | Ok v =>
         Return (StingrayPool.Self check pool (non_empty_props props)
                   (pool_url server port pool)
                   (negb (status_code resp =? 404)) v (MsgStr "") false)
     | Raise e => Exit (FailJson (MsgExn e))
     end,
     logged w [get_request server port pool]).
Proof.
  intros Hget. unfold StingrayPool.__init__, bind, try_except, http, lift, ret, fail_json.
  unfold get_request in Hget. rewrite Hget. simpl.
  destruct (text resp) as [v|b]; simpl; [|reflexivity].
  destruct (status_code resp =? 404); reflexivity.
Qed.

Lemma node_init_run (check : bool) (server port pool node : string)
  (weight priority lb_state : json) (w : world) (resp : response) :
  behaviour w (calls w) (get_request server port pool) = Ok resp ->
  StingrayNode.__init__ check server port pool node weight priority lb_state w =
    (if status_code resp =? 404 then Exit (FailJson (MsgPoolNotFound pool))
     else match json_loads (text resp) with
          | Ok v =>
              Return (StingrayNode.Self check pool node weight priority lb_state
                        (pool_url server port pool) v (MsgStr "") false)
          | Raise e => Exit (FailJson (MsgExn e))
          end,
     logged w [get_request server port pool]).
Proof.
  intros Hget.
  unfold StingrayNode.__init__, bind, try_except, http, lift, ret, fail_json.
  unfold get_request in Hget. rewrite Hget. simpl.
  destruct (status_code resp =? 404); [reflexivity|].
  destruct (text resp) as [v|b]; reflexivity.
Qed.

(** ** Fetching *)

(** C9.  When the GET of the pool module answers 404, the body is still
    decoded: a JSON body becomes the pool data of an object that records
    the pool as missing, any other body ends the run with the decoding
    error. *)
Theorem pool_404_body_decoded (check : bool) (server port pool : string)
  (props : pydict) (w : world) (resp : response) :
  behaviour w (calls w) (get_request server port pool) = Ok resp ->
  status_code resp = 404 ->
  (forall v, text resp = Json v ->
     exists s, StingrayPool.__init__ check server port pool props w =
                 (Return s, logged w [get_request server port pool]) /\
               StingrayPool.exists_ s = false /\
               StingrayPool.pool_data s = v) /\
  (forall b, text resp = NotJson b ->
     StingrayPool.__init__ check server port pool props w =
       (Exit (FailJson (MsgExn ValueError)), logged w [get_request server port pool]) /\
     forall state,
       StingrayPool.main check state server port pool props w =
         (Exit (FailJson (MsgExn ValueError)), logged w [get_request server port pool])).
Proof.
  intros Hget H404. split.
  - intros v Hv. rewrite (pool_init_run check server port pool props w resp Hget).
    rewrite Hv, H404. simpl. eexists. split; [reflexivity|]. split; reflexivity.
  - intros b Hb.
    assert (StingrayPool.__init__ check server port pool props w =
            (Exit (FailJson (MsgExn ValueError)), logged w [get_request server port pool])) as Hi.
    { rewrite (pool_init_run check server port pool props w resp Hget).
      rewrite Hb. reflexivity. }
    split; [exact Hi|]. intros state. unfold StingrayPool.main, bind. rewrite Hi. reflexivity.
Qed.

Lemma pool_404_body_decoded_witness :
  (exists s, StingrayPool.__init__ false "lb" "9070" "web" [] (answers_404 not_found_body) =
               (Return s, logged (answers_404 not_found_body) [get_request "lb" "9070" "web"]) /\
             StingrayPool.exists_ s = false /\
             StingrayPool.pool_data s = JDict [("error_id", JStr "resource.not_found")]) /\
  StingrayPool.__init__ false "lb" "9070" "web" [] (answers_404 (NotJson "<html>")) =
    (Exit (FailJson (MsgExn ValueError)),
     logged (answers_404 (NotJson "<html>")) [get_request "lb" "9070" "web"]).
Proof.
  split.
  - apply (proj1 (pool_404_body_decoded false "lb" "9070" "web" []
                    (answers_404 not_found_body) (Response 404 not_found_body)
                    eq_refl eq_refl)).
    reflexivity.
  - apply (proj2 (pool_404_body_decoded false "lb" "9070" "web" []
                    (answers_404 (NotJson "<html>")) (Response 404 (NotJson "<html>"))
                    eq_refl eq_refl) "<html>").
    reflexivity.
Defined.

(** ** Nothing to remove *)

(** C7.  [state=absent] on a pool that the GET reports missing, or on a
    node whose address no entry of the node table carries, exits with
    [changed=False] and the fetched document as data; the GET is the
    only request issued. *)
Theorem absent_of_absent :
  (forall (check : bool) (server port name : string) (props : pydict)
          (w : world) (resp : response) (v : json),
     behaviour w (calls w) (get_request server port name) = Ok resp ->
     status_code resp = 404 -> text resp = Json v ->
     StingrayPool.main check absent server port name props w =
       (Exit (ExitJson false (MsgDict [("pool", MJson (JStr name))]) v),
        logged w [get_request server port name]))
  /\
  (forall (check : bool) (server port pool name : string) (weight priority lb_state : json)
          (w : world) (resp : response) (v tbl : json) (nodes : list json),
     behaviour w (calls w) (get_request server port pool) = Ok resp ->
     status_code resp <> 404 -> text resp = Json v ->
     StingrayNode.nodes_table v = Ok tbl ->
     StingrayNode.iterate tbl = Ok nodes ->
     StingrayNode.select true name nodes = Ok [] ->
     StingrayNode.main check absent server port pool name weight priority lb_state w =
       (Exit (ExitJson false (MsgDict [("node", MJson (JStr name));
                                       ("pool", MJson (JStr pool))]) v),
        logged w [get_request server port pool])).
Proof.
  split.
  - intros check server port name props w resp v Hget H404 Hv.
    unfold StingrayPool.main, bind.
    rewrite (pool_init_run check server port name props w resp Hget).
    rewrite Hv, H404. reflexivity.
  - intros check server port pool name weight priority lb_state w resp v tbl nodes
           Hget H404 Hv Htbl Hit Hsel.
    unfold StingrayNode.main, bind.
    rewrite (node_init_run check server port pool name weight priority lb_state w resp Hget).
    apply Z.eqb_neq in H404. rewrite H404, Hv. simpl json_loads. cbv iota.
    unfold try_except, StingrayNode.set_absent, bind, lift, StingrayNode._node_exists,
      StingrayNode._get_current_node, StingrayNode._nodes.
    simpl StingrayNode.pool_data. rewrite Htbl. simpl rbind. rewrite Hit. simpl rbind.
    simpl StingrayNode.node. rewrite Hsel. reflexivity.
Qed.

Lemma absent_of_absent_witness :
  StingrayPool.main false absent "lb" "9070" "web" [] (answers_404 not_found_body) =
    (Exit (ExitJson false (MsgDict [("pool", MJson (JStr "web"))])
             (JDict [("error_id", JStr "resource.not_found")])),
     logged (answers_404 not_found_body) [get_request "lb" "9070" "web"])
  /\
  StingrayNode.main false absent "lb" "9070" "web" "10.0.0.1:80" JNull JNull JNull
      (World (faithful (Some c7_doc)) []) =
    (Exit (ExitJson false (MsgDict [("node", MJson (JStr "10.0.0.1:80"));
                                    ("pool", MJson (JStr "web"))]) c7_doc),
     logged (World (faithful (Some c7_doc)) []) [get_request "lb" "9070" "web"]).
Proof.
  split.
  - apply (proj1 absent_of_absent false "lb" "9070" "web" [] (answers_404 not_found_body)
             (Response 404 not_found_body)); reflexivity.
  - apply (proj2 absent_of_absent false "lb" "9070" "web" "10.0.0.1:80" JNull JNull JNull
             (World (faithful (Some c7_doc)) []) (Response 200 (Json c7_doc)) c7_doc
             (JList [JDict [("node", JStr "10.0.0.2:80"); ("state", JStr "active");
                            ("weight", JNum 1); ("priority", JNum 1)]])
             [JDict [("node", JStr "10.0.0.2:80"); ("state", JStr "active");
                     ("weight", JNum 1); ("priority", JNum 1)]]);
      try reflexivity.
    simpl. lia.
Defined.

Ltac run_method :=
  repeat match goal with
         | |- context [match ?x with _ => _ end] =>
             match x with
             | context [match _ with _ => _ end] => fail 1
             | _ => destruct x eqn:?; simpl in *; try congruence
             end
         end.
Lemma pool_set_absent_dry (s : StingrayPool.self) (w : world) :
  dry_run_ok StingrayPool.set_check_mode StingrayPool.changed StingrayPool.msg
    StingrayPool.set_absent s w.
Proof.
  destruct s as [c p props u e pd m ch]. destruct w as [beh cs].
  unfold dry_run_ok, issued, StingrayPool.set_absent, bind, try_except, http, ret, fail_json.
  simpl. destruct e; simpl.
  - split; [reflexivity|]. intros _. eexists. split; [reflexivity|]. split; [reflexivity|].
    intros s2. run_method. intros H; inversion H; subst; split; reflexivity.
  - split; [reflexivity|]. rewrite skipn_all. congruence.
Qed.

Lemma pool_set_present_dry (s : StingrayPool.self) (w : world) :
  dry_run_ok StingrayPool.set_check_mode StingrayPool.changed StingrayPool.msg
    StingrayPool.set_present s w.
Proof.
  destruct s as [c p props u e pd m ch]. destruct w as [beh cs].
  unfold dry_run_ok, issued, StingrayPool.set_present, bind, try_except, http, ret, fail_json, lift.
  simpl. destruct e; simpl.
  - destruct (rbind (getitem pd "properties") (fun current => _pool_changes props current ""))
      as [changes|ex]; simpl.
    + destruct changes as [|e0 changes]; simpl.
      * split; [reflexivity|]. rewrite skipn_all. congruence.
      * split; [reflexivity|]. intros _. eexists. split; [reflexivity|]. split; [reflexivity|].
        intros s2. run_method. intros H; inversion H; subst; split; reflexivity.
    + split; [reflexivity|]. rewrite skipn_all. congruence.
  - split; [reflexivity|]. intros _. eexists. split; [reflexivity|]. split; [reflexivity|].
    intros s2. run_method; intros H; inversion H; subst; split; reflexivity.
Qed.

Lemma node_set_absent_dry (s : StingrayNode.self) (w : world) :
  dry_run_ok StingrayNode.set_check_mode StingrayNode.changed StingrayNode.msg
    StingrayNode.set_absent s w.
Proof.
  destruct s as [c p n dw dp dl u pd m ch]. destruct w as [beh cs].
  unfold dry_run_ok, issued, StingrayNode.set_absent, StingrayNode.after_put,
    StingrayNode.set_nodes, bind, try_except, http, ret, fail_json, lift.
  unfold StingrayNode._node_exists, StingrayNode.other_nodes, StingrayNode._get_current_node, StingrayNode._nodes.
  simpl.
  destruct (rbind (StingrayNode.nodes_table pd) (fun tbl => rbind (StingrayNode.iterate tbl)
             (fun nodes => StingrayNode.select true n nodes))) as [l|ex]; simpl.
  - destruct l as [|x l]; simpl.
    + split; [reflexivity|]. rewrite skipn_all. congruence.
    + split; [reflexivity|]. intros _. eexists. split; [reflexivity|]. split; [reflexivity|].
      intros s2. run_method; intros H; inversion H; subst; split; reflexivity.
  - split; [reflexivity|]. rewrite skipn_all. congruence.
Qed.

Lemma compare_field_check (b : bool) (key : string) (d : json) (s : StingrayNode.self)
  (cn : json) (ch : list (string * mvalue)) :
  StingrayNode.compare_field key d (StingrayNode.set_check_mode b s, cn, ch) =
  with_check b (StingrayNode.compare_field key d (s, cn, ch)).
Proof.
  destruct s as [c p n dw dp dl u pd m chg].
  unfold StingrayNode.compare_field, with_check. simpl.
  destruct (truthy d); [|reflexivity].
  destruct (getitem cn key) as [cur|e]; simpl; [|reflexivity].
  destruct (negb (py_eq d cur)); [|reflexivity].
  unfold StingrayNode.store_current_node, StingrayNode._nodes. simpl.
  destruct (StingrayNode.nodes_table pd) as [[]|]; reflexivity.
Qed.

Lemma compare_fields_check (b : bool) (s : StingrayNode.self)
  (cn : json) (ch : list (string * mvalue)) :
  StingrayNode.compare_fields (StingrayNode.set_check_mode b s) cn ch = with_check b (StingrayNode.compare_fields s cn ch).
Proof.
  unfold StingrayNode.compare_fields.
  assert (StingrayNode.desired_lb_state (StingrayNode.set_check_mode b s)
          = StingrayNode.desired_lb_state s) as -> by (destruct s; reflexivity).
  assert (StingrayNode.desired_weight (StingrayNode.set_check_mode b s)
          = StingrayNode.desired_weight s) as -> by (destruct s; reflexivity).
  assert (StingrayNode.desired_priority (StingrayNode.set_check_mode b s)
          = StingrayNode.desired_priority s) as -> by (destruct s; reflexivity).
  rewrite compare_field_check.
  destruct (StingrayNode.compare_field "state" _ (s, cn, ch)) as [[[s1 cn1] ch1]|e];
    cbv beta iota delta [with_check rbind]; [|reflexivity].
  rewrite compare_field_check.
  destruct (StingrayNode.compare_field "weight" _ (s1, cn1, ch1)) as [[[s2 cn2] ch2]|e];
    cbv beta iota delta [with_check rbind]; [|reflexivity].
  apply compare_field_check.
Qed.

Lemma node_set_present_dry (s : StingrayNode.self) (w : world) :
  dry_run_ok StingrayNode.set_check_mode StingrayNode.changed StingrayNode.msg
    StingrayNode.set_present s w.
Proof.
  destruct s as [c p n dw dp dl u pd m ch]. destruct w as [beh cs].
  unfold dry_run_ok, issued, StingrayNode.set_present, StingrayNode.after_put,
    StingrayNode.set_nodes, bind, try_except, http, ret, fail_json, lift.
  unfold StingrayNode._node_exists, StingrayNode.other_nodes, StingrayNode._get_current_node, StingrayNode._nodes.
  simpl.
  destruct (rbind (StingrayNode.nodes_table pd) (fun tbl => rbind (StingrayNode.iterate tbl)
             (fun nodes => StingrayNode.select true n nodes))) as [l|ex]; simpl.
  - destruct l as [|x l]; simpl.
    + split; [reflexivity|]. intros _. eexists. split; [reflexivity|]. split; [reflexivity|].
      intros s2. run_method; intros H; inversion H; subst; split; reflexivity.
    + set (s0 := StingrayNode.Self false p n dw dp dl u pd m false).
      change (StingrayNode.set_changed false (StingrayNode.set_check_mode true _))
        with (StingrayNode.set_check_mode true s0).
      change (StingrayNode.set_changed false (StingrayNode.set_check_mode false _))
        with (StingrayNode.set_check_mode false s0).
      rewrite !compare_fields_check.
      destruct (StingrayNode.compare_fields s0 x _) as [[[s1 cn1] ch1]|e]; simpl.
      * destruct s1 as [c1 p1 n1 dw1 dp1 dl1 u1 pd1 m1 chg1]. simpl.
        destruct chg1; simpl.
        -- split; [reflexivity|]. intros _. eexists. split; [reflexivity|]. split; [reflexivity|].
           intros s2. run_method; intros H; inversion H; subst; split; reflexivity.
        -- split; [reflexivity|]. rewrite skipn_all. congruence.
      * split; [reflexivity|]. rewrite skipn_all. congruence.
  - split; [reflexivity|]. rewrite skipn_all. congruence.
Qed.

Lemma pool_set_absent_snapshot (s : StingrayPool.self) (w : world) :
  snapshot_kept StingrayPool.set_check_mode StingrayPool.pool_data
    StingrayPool.set_absent s w.
Proof.
  destruct s as [c p props u e pd m ch]. destruct w as [beh cs].
  unfold snapshot_kept, StingrayPool.set_absent, ret. simpl.
  intros s1. destruct e; simpl; intros H; inversion H; reflexivity.
Qed.

Lemma pool_set_present_snapshot (s : StingrayPool.self) (w : world) :
  snapshot_kept StingrayPool.set_check_mode StingrayPool.pool_data
    StingrayPool.set_present s w.
Proof.
  destruct s as [c p props u e pd m ch]. destruct w as [beh cs].
  unfold snapshot_kept, StingrayPool.set_present, bind, ret, lift. simpl.
  intros s1. destruct e; simpl.
  - destruct (rbind (getitem pd "properties") _) as [changes|ex]; simpl.
    + destruct changes; simpl; intros H; inversion H; reflexivity.
    + discriminate.
  - intros H; inversion H; reflexivity.
Qed.

Lemma node_set_absent_snapshot (s : StingrayNode.self) (w : world) :
  snapshot_kept StingrayNode.set_check_mode StingrayNode.pool_data
    StingrayNode.set_absent s w.
Proof.
  destruct s as [c p n dw dp dl u pd m ch]. destruct w as [beh cs].
  unfold snapshot_kept, StingrayNode.set_absent, bind, ret, lift. simpl.
  intros s1. destruct (StingrayNode._node_exists _) as [[|]|ex]; simpl;
    intros H; inversion H; reflexivity.
Qed.

Lemma node_add_snapshot (s : StingrayNode.self) (w : world) :
  StingrayNode._get_current_node s = Ok [] ->
  snapshot_kept StingrayNode.set_check_mode StingrayNode.pool_data
    StingrayNode.set_present s w.
Proof.
  destruct s as [c p n dw dp dl u pd m ch]. destruct w as [beh cs].
  unfold snapshot_kept, StingrayNode.set_present, bind, ret, lift,
    StingrayNode._node_exists, StingrayNode._get_current_node, StingrayNode._nodes.
  simpl. intros Hcur. rewrite Hcur. simpl.
  intros s1 H; inversion H; reflexivity.
Qed.

(** C8, as amended.  In check mode no method issues a request; whenever
    the same call outside check mode would issue a write, the check-mode
    call returns with [changed=True], and a real call that returns
    reports the same message.  The pool data is left as fetched by both
    pool methods, by the removal of a node and by the addition of a
    node. *)
Theorem dry_run_no_write :
  (forall (s : StingrayPool.self) (w : world),
     dry_run_ok StingrayPool.set_check_mode StingrayPool.changed StingrayPool.msg
       StingrayPool.set_absent s w /\
     snapshot_kept StingrayPool.set_check_mode StingrayPool.pool_data
       StingrayPool.set_absent s w) /\
  (forall (s : StingrayPool.self) (w : world),
     dry_run_ok StingrayPool.set_check_mode StingrayPool.changed StingrayPool.msg
       StingrayPool.set_present s w /\
     snapshot_kept StingrayPool.set_check_mode StingrayPool.pool_data
       StingrayPool.set_present s w) /\
  (forall (s : StingrayNode.self) (w : world),
     dry_run_ok StingrayNode.set_check_mode StingrayNode.changed StingrayNode.msg
       StingrayNode.set_absent s w /\
     snapshot_kept StingrayNode.set_check_mode StingrayNode.pool_data
       StingrayNode.set_absent s w) /\
  (forall (s : StingrayNode.self) (w : world),
     dry_run_ok StingrayNode.set_check_mode StingrayNode.changed StingrayNode.msg
       StingrayNode.set_present s w /\
     (StingrayNode._get_current_node s = Ok [] ->
      snapshot_kept StingrayNode.set_check_mode StingrayNode.pool_data
        StingrayNode.set_present s w)).
Proof.
  split; [|split; [|split]]; intros s w; split.
  - apply pool_set_absent_dry.
  - apply pool_set_absent_snapshot.
  - apply pool_set_present_dry.
  - apply pool_set_present_snapshot.
  - apply node_set_absent_dry.
  - apply node_set_absent_snapshot.
  - apply node_set_present_dry.
  - apply node_add_snapshot.
Qed.


Lemma non_empty_props_no_null (props : pydict) :
  no_null_values (non_empty_props props) = true.
Proof.
  unfold no_null_values, non_empty_props. apply forallb_forall.
  intros kv Hin. apply filter_In in Hin. apply Hin.
Qed.

Lemma non_empty_props_drop (pre post : pydict) (k : string) :
  non_empty_props (pre ++ (k, JNull) :: post) = non_empty_props (pre ++ post).
Proof. unfold non_empty_props. rewrite !filter_app. reflexivity. Qed.

Lemma pool_set_present_writes (s : StingrayPool.self) (w : world) :
  exists o rqs, StingrayPool.set_present s w = (o, logged w rqs) /\
                Forall (fun rq => pool_write_body s (data rq)) rqs.
Proof.
  destruct s as [c p props u e pd m ch]. destruct w as [beh cs].
  unfold StingrayPool.set_present, bind, try_except, http, ret, fail_json, lift, logged,
    pool_write_body.
  simpl.
  run_method;
    try (eexists; exists []; simpl; rewrite app_nil_r; split; [reflexivity|constructor]);
    try (eexists; eexists; split; [reflexivity|]; constructor; [simpl; subst; auto|constructor]).
Qed.

Lemma pool_set_absent_writes (s : StingrayPool.self) (w : world) :
  exists o rqs, StingrayPool.set_absent s w = (o, logged w rqs) /\
                Forall (fun rq => pool_write_body s (data rq)) rqs.
Proof.
  destruct s as [c p props u e pd m ch]. destruct w as [beh cs].
  unfold StingrayPool.set_absent, bind, try_except, http, ret, fail_json, lift, logged,
    pool_write_body.
  simpl.
  run_method;
    try (eexists; exists []; simpl; rewrite app_nil_r; split; [reflexivity|constructor]);
    try (eexists; eexists; split; [reflexivity|]; constructor; [simpl; subst; auto|constructor]).
Qed.

Lemma logged_logged (w : world) (l1 l2 : list request) :
  logged (logged w l1) l2 = logged w (l1 ++ l2).
Proof. unfold logged. simpl. rewrite app_assoc. reflexivity. Qed.

Lemma pool_main_writes (check : bool) (state : presence) (server port name : string)
  (props : pydict) (w : world) :
  exists o rqs,
    StingrayPool.main check state server port name props w = (o, logged w rqs) /\
    Forall (fun rq => forall P, data rq = Some (put_body P) -> no_null_values P = true) rqs.
Proof.
  unfold StingrayPool.main, bind.
  destruct (behaviour w (calls w) (get_request server port name)) as [resp|e] eqn:Hget.
  - rewrite (pool_init_run check server port name props w resp Hget).
    destruct (json_loads (text resp)) as [v|e].
    + set (s := StingrayPool.Self _ _ _ _ _ _ _ _).
      set (w1 := logged w _).
      assert (exists o rqs,
                match state with
                | present => StingrayPool.set_present s
                | absent => StingrayPool.set_absent s
                end w1 = (o, logged w1 rqs) /\
                Forall (fun rq => pool_write_body s (data rq)) rqs) as [o [rqs [Hrun Hall]]].
      { destruct state; [apply pool_set_present_writes|apply pool_set_absent_writes]. }
      unfold try_except, bind. rewrite Hrun.
      assert (Forall (fun rq => forall P, data rq = Some (put_body P) ->
                                          no_null_values P = true)
                ([get_request server port name] ++ rqs)) as Hall'.
      { apply Forall_app. split.
        - constructor; [|constructor]. intros P HP. discriminate.
        - eapply Forall_impl; [|exact Hall]. intros rq Hrq P HP.
          destruct Hrq as [Hn|[Hp|Hb]]; rewrite HP in *.
          + discriminate.
          + inversion Hp; subst. apply non_empty_props_no_null.
          + inversion Hb; subst. reflexivity. }
      unfold w1. rewrite logged_logged.
      destruct o as [s'|r|e]; simpl; unfold exit_json, fail_json; eexists; eexists;
        (split; [reflexivity|exact Hall']).
    + eexists. eexists. split; [reflexivity|].
      constructor; [|constructor]. intros P HP. discriminate.
  - unfold StingrayPool.__init__, bind, try_except, http, lift, fail_json.
    unfold get_request in Hget. rewrite Hget.
    destruct e; simpl; eexists; exists [get_request server port name];
      (split; [reflexivity|]); constructor; try constructor; intros P HP; discriminate.
Qed.

(** ** Null in the desired tree *)

(** C2, as amended.  A key of the desired tree, at its top level, whose
    value is null changes nothing: the run is the run of the tree
    without that key, and no body that the pool module writes holds a
    null under a top-level key of [properties]. *)
Theorem top_level_null_is_unset :
  (forall (check : bool) (state : presence) (server port name : string)
          (pre post : pydict) (k : string) (w : world),
     StingrayPool.main check state server port name (pre ++ (k, JNull) :: post) w =
     StingrayPool.main check state server port name (pre ++ post) w)
  /\
  (forall (check : bool) (state : presence) (server port name : string)
          (props : pydict) (w : world) (rq : request) (P : pydict),
     In rq (issued (StingrayPool.main check state server port name props) w) ->
     data rq = Some (put_body P) ->
     no_null_values P = true).
Proof.
  split.
  - intros check state server port name pre post k w.
    unfold StingrayPool.main, StingrayPool.__init__.
    rewrite non_empty_props_drop. reflexivity.
  - intros check state server port name props w rq P Hin Hdata.
    destruct (pool_main_writes check state server port name props w) as [o [rqs [Hrun Hall]]].
    rewrite (issued_logged _ w o rqs Hrun) in Hin.
    rewrite Forall_forall in Hall. apply (Hall rq Hin P Hdata).
Qed.

Lemma top_level_null_is_unset_witness :
  no_null_values [("basic", JDict [("note", JStr "y")])] = true.
Proof.
  apply (proj2 top_level_null_is_unset false present "lb" "9070" "web"
           [("basic", JDict [("note", JStr "y")]); ("connection", JNull)] web_world
           (Request PUT (pool_url "lb" "9070" "web")
              (Some (put_body [("basic", JDict [("note", JStr "y")])])))).
  - vm_compute. right. left. reflexivity.
  - reflexivity.
Defined.

(** C2 as stated fails below the top level: a null under [basic] is
    reported as a change and is part of the body of the PUT. *)
Lemma nested_null_reported_and_written :
  let run := StingrayPool.main false present "lb" "9070" "web"
               [("basic", JDict [("note", JNull)])] web_world in
  (exists data,
     fst run = Exit (ExitJson true (MsgChanges [Change "basic.note" (JStr "x") JNull]) data))
  /\
  calls (snd run) =
    [get_request "lb" "9070" "web";
     Request PUT (pool_url "lb" "9070" "web")
       (Some (put_body [("basic", JDict [("note", JNull)])]))].
Proof.
  split.
  - eexists. vm_compute. reflexivity.
  - vm_compute. reflexivity.
Qed.

(** ** Failed writes *)

(** C3 fails on the code.  With a server that answers every write with
    500: the deletion and the creation of a pool fail with the change
    record and the body; the update of a pool fails with the list of
    changes and no body; the three node writes fail with the text of an
    [IndexError], neither the record nor the body. *)
Lemma write_failure_messages :
  fst (StingrayPool.main false absent "lb" "9070" "web" [] failing_world) =
    Exit (FailJson (MsgDict [("pool", MJson (JStr "web"));
                             ("action", MJson (JStr "destroy_pool"));
                             ("error", MText (NotJson "internal error"))]))
  /\
  fst (StingrayPool.main false present "lb" "9070" "web"
         [("basic", JDict [("note", JStr "y")])] failing_world) =
    Exit (FailJson (MsgChanges [Change "basic.note" (JStr "x") (JStr "y")]))
  /\
  fst (StingrayNode.main false present "lb" "9070" "web" "10.0.0.1:80"
         (JNum 5) JNull JNull failing_world) =
    Exit (FailJson (MsgExn IndexError))
  /\
  fst (StingrayNode.main false present "lb" "9070" "web" "10.0.0.9:80"
         JNull JNull JNull failing_world) =
    Exit (FailJson (MsgExn IndexError))
  /\
  fst (StingrayNode.main false absent "lb" "9070" "web" "10.0.0.1:80"
         JNull JNull JNull failing_world) =
    Exit (FailJson (MsgExn IndexError)).
Proof. repeat split; vm_compute; reflexivity. Qed.

Lemma dry_run_no_write_witness :
  snd (StingrayPool.set_present (StingrayPool.set_check_mode true web_pool_object) web_world)
    = web_world /\
  exists s1,
    fst (StingrayPool.set_present (StingrayPool.set_check_mode true web_pool_object) web_world)
      = Return s1 /\
    StingrayPool.changed s1 = true /\
    forall s2,
      fst (StingrayPool.set_present (StingrayPool.set_check_mode false web_pool_object)
             web_world) = Return s2 ->
      StingrayPool.changed s2 = true /\ StingrayPool.msg s2 = StingrayPool.msg s1.
Proof.
  destruct (proj1 (proj1 (proj2 dry_run_no_write) web_pool_object web_world)) as [Hw Hrun].
  split; [exact Hw|]. apply Hrun. vm_compute. discriminate.
Defined.

(** C8 as stated fails for the update of a node: in check mode the
    fields of the entry are assigned inside the fetched document, which
    is reported as data, while no request but the GET is issued. *)
Lemma dry_run_node_update_mutates_snapshot :
  let run := StingrayNode.main true present "lb" "9070" "web" "10.0.0.1:80"
               (JNum 5) JNull JNull web_world in
  (exists msg data,
     fst run = Exit (ExitJson true msg data) /\
     StingrayNode.nodes_table data =
       Ok (JList [node_entry "10.0.0.1:80" "active" 5 1;
                  node_entry "10.0.0.2:80" "active" 1 1;
                  node_entry "10.0.0.3:80" "draining" 2 1]) /\
     data <> web_doc)
  /\ calls (snd run) = [get_request "lb" "9070" "web"].
Proof.
  split.
  - eexists. eexists. split; [vm_compute; reflexivity|].
    split; [vm_compute; reflexivity|]. intros H. vm_compute in H. discriminate H.
  - vm_compute. reflexivity.
Qed.
(** ** The node table *)

Lemma select_cons (same : bool) (name : string) (n : json) (rest : list json) :
  select same name (n :: rest) =
  rbind (getitem n "node") (fun a =>
  rbind (select same name rest) (fun tl =>
  Ok (if Bool.eqb (py_eq a (JStr name)) same then n :: tl else tl))).
Proof. reflexivity. Qed.

Lemma getitem_ok (x : json) (k : string) (v : json) :
  getitem x k = Ok v -> exists d, x = JDict d /\ lookup k d = Some v.
Proof.
  destruct x; simpl; try discriminate. destruct (lookup k d) eqn:E; [|discriminate].
  intros H; inversion H; subst. eauto.
Qed.

Lemma select_true_head (name : string) (tbl : list json) (x : json) (dup : list json) :
  select true name tbl = Ok (x :: dup) -> has_address name x.
Proof.
  revert x dup. induction tbl as [|n rest IH]; intros x dup H; [discriminate|].
  rewrite select_cons in H.
  destruct (getitem n "node") as [a|e] eqn:Ha; simpl in H; [|discriminate].
  destruct (select true name rest) as [tl|e]; simpl in H; [|discriminate].
  destruct (py_eq a (JStr name)) eqn:E; simpl in H.
  - inversion H; subst. apply getitem_ok in Ha. destruct Ha as [d [-> Hl]].
    exists d, a. auto.
  - inversion H; subst. eapply IH. reflexivity.
Qed.

Lemma select_false_replace_first (name : string) (x' : json) (tbl others : list json) :
  has_address name x' ->
  select false name tbl = Ok others ->
  select false name (replace_first name x' tbl) = Ok others.
Proof.
  intros [d [a [-> [Hl Ha]]]]. revert others.
  induction tbl as [|n rest IH]; intros others H; [exact H|].
  rewrite select_cons in H. simpl replace_first.
  destruct (getitem n "node") as [a0|e] eqn:Hn; simpl in H; [|discriminate].
  destruct (select false name rest) as [tl|e] eqn:Hrest; simpl in H; [|discriminate].
  destruct (py_eq a0 (JStr name)) eqn:E; simpl in H.
  - rewrite select_cons. simpl getitem. rewrite Hl. simpl. rewrite Hrest. simpl.
    rewrite Ha. simpl. exact H.
  - rewrite select_cons, Hn. simpl. rewrite (IH tl eq_refl). simpl. rewrite E. exact H.
Qed.

Lemma select_app (same : bool) (name : string) (l1 l2 r1 r2 : list json) :
  select same name l1 = Ok r1 -> select same name l2 = Ok r2 ->
  select same name (l1 ++ l2) = Ok (r1 ++ r2).
Proof.
  revert r1. induction l1 as [|n rest IH]; intros r1 H1 H2.
  - inversion H1; subst. exact H2.
  - simpl app. rewrite select_cons in *.
    destruct (getitem n "node") as [a|e]; simpl in *; [|discriminate].
    destruct (select same name rest) as [tl|e]; simpl in *; [|discriminate].
    rewrite (IH tl eq_refl H2). simpl.
    destruct (Bool.eqb (py_eq a (JStr name)) same); inversion H1; reflexivity.
Qed.

(** The entries kept by one selection are dropped by the other. *)
Lemma select_select (same : bool) (name : string) (tbl kept : list json) :
  select same name tbl = Ok kept ->
  select (negb same) name kept = Ok [] /\ select same name kept = Ok kept.
Proof.
  revert kept. induction tbl as [|n rest IH]; intros kept H.
  - inversion H; subst. split; reflexivity.
  - rewrite select_cons in H.
    destruct (getitem n "node") as [a|e] eqn:Hn; simpl in H; [|discriminate].
    destruct (select same name rest) as [tl|e]; simpl in H; [|discriminate].
    destruct (IH tl eq_refl) as [IH1 IH2].
    destruct (Bool.eqb (py_eq a (JStr name)) same) eqn:E; inversion H; subst; [|auto].
    rewrite !select_cons, Hn, IH1, IH2. simpl. rewrite E.
    destruct (py_eq a (JStr name)), same; simpl in *; try discriminate; auto.
Qed.

Lemma nodes_table_with_nodes (pd t : json) (tbl : list json) :
  nodes_table pd = Ok t ->
  nodes_table (with_nodes pd tbl) = Ok (JList tbl).
Proof.
  unfold nodes_table, with_nodes. intros H.
  destruct pd as [| | | | |d]; try discriminate. simpl in H.
  destruct (lookup "properties" d) as [[| | | | |p]|] eqn:Hp; try discriminate. simpl in H.
  destruct (lookup "basic" p) as [[| | | | |b]|] eqn:Hb; try discriminate.
  simpl. rewrite lookup_dict_set_eq. simpl. rewrite lookup_dict_set_eq. simpl.
  rewrite lookup_dict_set_eq. reflexivity.
Qed.

Lemma has_address_setitem (name key : string) (d x : json) :
  String.eqb key "node" = false ->
  has_address name x -> has_address name (setitem x key d).
Proof.
  intros Hk [dx [a [-> [Hl Ha]]]]. exists (dict_set key d dx), a.
  split; [reflexivity|]. split; [|assumption].
  rewrite lookup_dict_set_ne; assumption.
Qed.

Lemma getitem_setitem_eq (x : json) (key : string) (d cur : json) :
  getitem x key = Ok cur -> getitem (setitem x key d) key = Ok d.
Proof.
  intros H. apply getitem_ok in H. destruct H as [dx [-> _]].
  simpl. rewrite lookup_dict_set_eq. reflexivity.
Qed.

Lemma getitem_setitem_ne (x : json) (key key' : string) (d : json) :
  String.eqb key key' = false ->
  getitem (setitem x key d) key' = getitem x key'.
Proof.
  intros Hk. destruct x; try reflexivity. simpl. rewrite lookup_dict_set_ne; auto.
Qed.

Lemma getitem_apply_field_eq (key : string) (d cur x : json) :
  getitem x key = Ok cur ->
  getitem (apply_field key d cur x) key = Ok (updated_field d cur).
Proof.
  intros H. unfold apply_field, updated_field. destruct (needs_update d cur); [|exact H].
  eapply getitem_setitem_eq. exact H.
Qed.

Lemma getitem_apply_field_ne (key key' : string) (d cur x : json) :
  String.eqb key key' = false ->
  getitem (apply_field key d cur x) key' = getitem x key'.
Proof.
  intros H. unfold apply_field. destruct (needs_update d cur); [|reflexivity].
  apply getitem_setitem_ne. exact H.
Qed.

Lemma has_address_apply_field (name key : string) (d cur x : json) :
  String.eqb key "node" = false ->
  has_address name x -> has_address name (apply_field key d cur x).
Proof.
  intros Hk Hx. unfold apply_field. destruct (needs_update d cur); [|exact Hx].
  apply has_address_setitem; assumption.
Qed.

Lemma compare_field_step (s0 s : self) (others : list json) (key : string)
  (d cur cn : json) (ch : list (string * mvalue)) :
  String.eqb key "node" = false ->
  tracks s0 s others ->
  has_address (node s0) cn ->
  getitem cn key = Ok cur ->
  exists s' ch',
    compare_field key d (s, cn, ch) = Ok (s', apply_field key d cur cn, ch') /\
    tracks s0 s' others /\
    changed s' = changed s || needs_update d cur.
Proof.
  intros Hkey Htr Hcn Hcur. unfold compare_field, apply_field, needs_update.
  destruct (truthy d); simpl.
  - rewrite Hcur. simpl. destruct (negb (py_eq d cur)); simpl.
    + destruct Htr as [Hc [Hn [Hu [tbl [Htbl Hsel]]]]].
      eexists. eexists. split; [reflexivity|].
      unfold store_current_node, _nodes. rewrite Htbl.
      destruct s as [c p n dw dp dl u pd m chg]. simpl in *. split.
      * repeat (split; [assumption|]).
        exists (replace_first n (setitem cn key d) tbl). split.
        -- eapply nodes_table_with_nodes. exact Htbl.
        -- subst n. apply select_false_replace_first; [|assumption].
           apply has_address_setitem; assumption.
      * rewrite orb_true_r. reflexivity.
    + exists s, ch. split; [reflexivity|]. split; [assumption|]. rewrite orb_false_r. reflexivity.
  - exists s, ch. split; [reflexivity|]. split; [assumption|]. rewrite orb_false_r. reflexivity.
Qed.

Lemma compare_fields_run (s : self) (others : list json) (x st wt pr : json)
  (ch : list (string * mvalue)) :
  tracks s s others ->
  has_address (node s) x ->
  getitem x "state" = Ok st -> getitem x "weight" = Ok wt -> getitem x "priority" = Ok pr ->
  exists s' ch',
    compare_fields s x ch = Ok (s', updated_node s st wt pr x, ch') /\
    tracks s s' others /\
    changed s' = changed s || needs_update (desired_lb_state s) st
                           || needs_update (desired_weight s) wt
                           || needs_update (desired_priority s) pr.
Proof.
  intros Htr Hx Hst Hwt Hpr. unfold compare_fields, updated_node.
  destruct (compare_field_step s s others "state" (desired_lb_state s) st x ch
              eq_refl Htr Hx Hst) as [s1 [ch1 [E1 [T1 C1]]]].
  rewrite E1. cbn [rbind].
  set (x1 := apply_field "state" (desired_lb_state s) st x) in *.
  assert (has_address (node s) x1) as Hx1 by (apply has_address_apply_field; auto).
  assert (getitem x1 "weight" = Ok wt) as Hwt1.
  { unfold x1. rewrite getitem_apply_field_ne by reflexivity. exact Hwt. }
  destruct (compare_field_step s s1 others "weight" (desired_weight s) wt x1 ch1
              eq_refl T1 Hx1 Hwt1) as [s2 [ch2 [E2 [T2 C2]]]].
  rewrite E2. cbn [rbind].
  set (x2 := apply_field "weight" (desired_weight s) wt x1) in *.
  assert (has_address (node s) x2) as Hx2 by (apply has_address_apply_field; auto).
  assert (getitem x2 "priority" = Ok pr) as Hpr2.
  { unfold x2, x1. rewrite !getitem_apply_field_ne by reflexivity. exact Hpr. }
  destruct (compare_field_step s s2 others "priority" (desired_priority s) pr x2 ch2
              eq_refl T2 Hx2 Hpr2) as [s3 [ch3 [E3 [T3 C3]]]].
  exists s3, ch3. split; [exact E3|]. split; [exact T3|].
  rewrite C3, C2, C1. reflexivity.
Qed.

(** C5.  When the table holds an entry [x] for the node, [others] are
    the entries with another address in their order, and some desired
    field differs from the one of [x], the only request of [set_present]
    is a PUT whose table is [others] followed by the updated [x]; that
    table holds one entry for the node, the last one, with each field
    equal to its desired value where one was asked and it differed, and
    as it was otherwise. *)
Theorem node_update_rewrites_table (s : self) (w : world)
  (tbl others dup : list json) (x st wt pr : json) :
  check_mode s = false ->
  nodes_table (pool_data s) = Ok (JList tbl) ->
  select true (node s) tbl = Ok (x :: dup) ->
  select false (node s) tbl = Ok others ->
  getitem x "state" = Ok st -> getitem x "weight" = Ok wt -> getitem x "priority" = Ok pr ->
  needs_update (desired_lb_state s) st || needs_update (desired_weight s) wt
    || needs_update (desired_priority s) pr = true ->
  let x' := updated_node s st wt pr x in
  issued (set_present s) w =
    [Request PUT (_url s) (Some (nodes_body (others ++ [x'])))] /\
  select false (node s) (others ++ [x']) = Ok others /\
  select true (node s) (others ++ [x']) = Ok [x'] /\
  getitem x' "node" = getitem x "node" /\
  getitem x' "state" = Ok (updated_field (desired_lb_state s) st) /\
  getitem x' "weight" = Ok (updated_field (desired_weight s) wt) /\
  getitem x' "priority" = Ok (updated_field (desired_priority s) pr).
Proof.
  intros Hcheck Htbl Hsel Hoth Hst Hwt Hpr Hneed x'.
  pose proof (select_true_head _ _ _ _ Hsel) as Hx.
  assert (has_address (node s) x') as Hx'.
  { unfold x', updated_node. repeat apply has_address_apply_field; auto. }
  assert (select true (node s) [x'] = Ok [x'] /\ select false (node s) [x'] = Ok []) as [Ht Hf].
  { destruct Hx' as [d [a [-> [Hl Ha]]]]. rewrite !select_cons. simpl getitem. rewrite Hl.
    simpl. rewrite Ha. split; reflexivity. }
  destruct (select_select false (node s) tbl others Hoth) as [Hoth_t Hoth_f].
  split; [|split; [|split; [|split; [|split; [|split]]]]].
  - clear Ht Hf Hoth_t Hoth_f Hx'.
    destruct s as [c p n dw dp dl u pd m chg]. simpl in *. subst c.
    set (s0 := Self false p n dw dp dl u pd m false).
    assert (tracks s0 s0 others) as Htr.
    { unfold tracks, s0. simpl. repeat (split; [reflexivity|]). exists tbl. auto. }
    destruct (compare_fields_run s0 others x st wt pr
                [("node", MJson (JStr n)); ("pool", MJson (JStr p))]
                Htr Hx Hst Hwt Hpr) as [s3 [ch3 [Hrun [T3 C3]]]].
    assert (changed s3 = true) as Hch by (rewrite C3; exact Hneed).
    change (updated_node s0 st wt pr x) with x' in Hrun.
    destruct T3 as [Tc [Tn [Tu [tbl3 [Htbl3 Hsel3]]]]].
    assert (exists o, set_present (Self false p n dw dp dl u pd m chg) w =
              (o, logged w [Request PUT u (Some (nodes_body (others ++ [x'])))]))
      as [o Ho].
    { unfold set_present, bind, lift, _node_exists, _get_current_node, _nodes.
      simpl. rewrite Htbl. cbn [rbind iterate]. rewrite Hsel. simpl.
      change (set_changed false _) with s0. rewrite Hrun. cbv beta iota. rewrite Hch.
      destruct s3 as [c3 p3 n3 dw3 dp3 dl3 u3 pd3 m3 chg3]. simpl in *. subst c3 n3 u3.
      unfold other_nodes, _nodes. simpl. rewrite Htbl3. cbn [rbind iterate]. rewrite Hsel3.
      cbn [rbind]. unfold set_nodes, after_put, http, nodes_body, logged, bind, lift,
        ret, fail_json. simpl.
      destruct (behaviour w (calls w) _) as [resp|e]; simpl.
      - destruct (status_code resp =? 200); simpl.
        + destruct (json_loads (text resp)); eexists; reflexivity.
        + eexists; reflexivity.
      - eexists; reflexivity. }
    apply (issued_logged _ w o _ Ho).
  - rewrite <- (app_nil_r others) at 2. apply select_app; assumption.
  - change [x'] with ([] ++ [x']) at 2. apply select_app; assumption.
  - unfold x', updated_node. rewrite !getitem_apply_field_ne by reflexivity. reflexivity.
  - unfold x', updated_node. rewrite !getitem_apply_field_ne by reflexivity.
    apply getitem_apply_field_eq. exact Hst.
  - unfold x', updated_node. rewrite getitem_apply_field_ne by reflexivity.
    apply getitem_apply_field_eq. rewrite getitem_apply_field_ne by reflexivity. exact Hwt.
  - unfold x', updated_node. apply getitem_apply_field_eq.
    rewrite !getitem_apply_field_ne by reflexivity. exact Hpr.
Qed.

Lemma node_update_rewrites_table_witness :
  issued (set_present web_node_object) web_world =
    [Request PUT (pool_url "lb" "9070" "web")
       (Some (nodes_body [node_entry "10.0.0.2:80" "active" 1 1;
                          node_entry "10.0.0.3:80" "draining" 2 1;
                          node_entry "10.0.0.1:80" "active" 5 1]))].
Proof.
  apply (proj1 (node_update_rewrites_table web_node_object web_world web_nodes
                  [node_entry "10.0.0.2:80" "active" 1 1;
                   node_entry "10.0.0.3:80" "draining" 2 1] []
                  (node_entry "10.0.0.1:80" "active" 1 1) (JStr "active") (JNum 1) (JNum 1)
                  eq_refl eq_refl eq_refl eq_refl eq_refl eq_refl eq_refl eq_refl)).
Defined.
(** ** Reconciling twice *)

Lemma merge_dict (items c : pydict) :
  merge (JDict items) (JDict c) = JDict (merge_into items c).
Proof.
  reflexivity.
Qed.

Lemma merge_leaf (new cur : json) : is_dict new = false -> merge new cur = new.
Proof. destruct new; simpl; intros H; try reflexivity. discriminate. Qed.

Lemma merge_not_dict (new cur : json) : is_dict cur = false -> merge new cur = new.
Proof. destruct new; try reflexivity. destruct cur; simpl; intros H; try reflexivity. discriminate. Qed.

Lemma merge_into_lookup_notin {k : string} (items acc : pydict) :
  ~ In k (map fst items) ->
  lookup k (merge_into items acc) = lookup k acc.
Proof.
  revert acc. induction items as [|[k0 v0] rest IH]; intros acc Hnin; [reflexivity|].
  simpl. rewrite IH.
  - apply lookup_dict_set_ne. apply String.eqb_neq. intros ->. apply Hnin. left. reflexivity.
  - intros Hin. apply Hnin. right. exact Hin.
Qed.

Lemma merge_into_lookup (items acc : pydict) (k : string) (v : json) :
  NoDup (map fst items) -> In (k, v) items ->
  lookup k (merge_into items acc) =
    Some (match lookup k acc with Some cv => merge v cv | None => v end).
Proof.
  revert acc. induction items as [|[k0 v0] rest IH]; intros acc Hnd Hin; [contradiction|].
  simpl in Hnd. inversion Hnd as [|? ? Hk0 Hrest]; subst.
  destruct Hin as [Heq|Hin].
  - inversion Heq; subst. simpl. rewrite merge_into_lookup_notin by assumption.
    apply lookup_dict_set_eq.
  - simpl. rewrite (IH _ Hrest Hin). rewrite lookup_dict_set_ne; [reflexivity|].
    apply String.eqb_neq. intros ->. apply Hk0. apply in_map_iff. exists (k, v). auto.
Qed.

Lemma agrees_merge (new : json) : wf new = true -> forall cur, agrees new (merge new cur).
Proof.
  induction new as [| b | n | s | l IH | d IH] using json_induction;
    intros Hwf cur; try exact I.
  destruct (is_dict cur) eqn:Hc.
  - destruct cur as [| | | | |c]; try discriminate. rewrite merge_dict.
    apply agrees_items. intros k v Hin.
    simpl in Hwf. apply andb_true_iff in Hwf. destruct Hwf as [Hnd Hall].
    rewrite (merge_into_lookup d c k v) by (try apply nodup_keys_NoDup; assumption).
    right. rewrite forallb_forall in Hall. pose proof (Hall (k, v) Hin) as Hwfv.
    rewrite Forall_forall in IH. pose proof (IH (k, v) Hin) as IHv. simpl in Hwfv, IHv.
    destruct (is_dict v) eqn:Hd.
    + destruct (lookup k c); [apply IHv; assumption|apply agrees_self; assumption].
    + destruct (lookup k c); [apply merge_leaf; assumption|reflexivity].
  - rewrite merge_not_dict by assumption. apply agrees_self. assumption.
Qed.

Arguments merge : simpl never.

Lemma api_state_app (init : option json) (h1 h2 : list request) :
  api_state init (h1 ++ h2) = api_state (api_state init h1) h2.
Proof. unfold api_state. apply fold_left_app. Qed.

Lemma wf_non_empty_props (props : pydict) :
  wf (JDict props) = true -> wf (JDict (non_empty_props props)) = true.
Proof.
  simpl. intros H. apply andb_true_iff in H. destruct H as [Hnd Hall].
  apply andb_true_iff. split.
  - apply nodup_keys_NoDup. apply nodup_keys_NoDup in Hnd.
    unfold non_empty_props. clear Hall.
    induction props as [|[k v] rest IH]; simpl; [constructor|].
    simpl in Hnd. inversion Hnd as [|? ? Hk Hrest]; subst.
    destruct (negb (is_none v)); simpl; [|auto].
    constructor; [|auto]. intros Hin. apply Hk.
    apply in_map_iff in Hin. destruct Hin as [kv [Hkv Hin]].
    apply filter_In in Hin. apply in_map_iff. exists kv. tauto.
  - apply forallb_forall. intros kv Hin. apply filter_In in Hin.
    rewrite forallb_forall in Hall. apply Hall. apply Hin.
Qed.

Lemma faithful_get (init : option json) (history : list request) (rq : request) :
  meth rq = GET ->
  behaviour (faithful_world init history) (calls (faithful_world init history)) rq =
    Ok (match api_state init history with
        | Some doc => Response 200 (Json doc)
        | None => Response 404 not_found_body
        end).
Proof.
  intros Hm. simpl. unfold faithful, api_step. rewrite Hm.
  destruct (api_state init history); reflexivity.
Qed.

Lemma logged_faithful (init : option json) (history rqs : list request) :
  logged (faithful_world init history) rqs = faithful_world init (history ++ rqs).
Proof. reflexivity. Qed.

Lemma api_state_get (init : option json) (history : list request) (rq : request) :
  meth rq = GET -> api_state init (history ++ [rq]) = api_state init history.
Proof.
  intros Hm. rewrite api_state_app. simpl. unfold api_step. rewrite Hm.
  destruct (api_state init history); reflexivity.
Qed.

Lemma pool_run_absent (server port name : string) (props : pydict)
  (init : option json) (history : list request) :
  StingrayPool.main false absent server port name props (faithful_world init history) =
  match api_state init history with
  | Some doc =>
      (Exit (ExitJson true
               (MsgDict [("pool", MJson (JStr name)); ("action", MJson (JStr "destroy_pool"))])
               doc),
       faithful_world init (history ++ [get_request server port name;
                                        Request DELETE (pool_url server port name) None]))
  | None =>
      (Exit (ExitJson false (MsgDict [("pool", MJson (JStr name))])
               (JDict [("error_id", JStr "resource.not_found")])),
       faithful_world init (history ++ [get_request server port name]))
  end.
Proof.
  unfold StingrayPool.main, bind.
  rewrite (pool_init_run false server port name props (faithful_world init history) _
             (faithful_get init history (get_request server port name) eq_refl)).
  destruct (api_state init history) as [doc|] eqn:Hst; simpl; [|reflexivity].
  unfold try_except, StingrayPool.set_absent, bind, http, try_except. simpl.
  unfold faithful at 1. rewrite api_state_app, Hst. simpl.
  unfold faithful_world. rewrite <- app_assoc. reflexivity.
Qed.

Lemma pool_run_present (server port name : string) (props : pydict)
  (init : option json) (history : list request) :
  StingrayPool.main false present server port name props (faithful_world init history) =
  match api_state init history with
  | None =>
      (Exit (ExitJson true
               (MsgDict [("pool", MJson (JStr name)); ("action", MJson (JStr "create_pool"))])
               (JDict [("properties", JDict (created_props (non_empty_props props)))])),
       faithful_world init
         (history ++ [get_request server port name;
                      Request PUT (pool_url server port name)
                        (Some (put_body (created_props (non_empty_props props))))]))
  | Some doc =>
      match rbind (getitem doc "properties")
                  (fun cur => StingrayPool._pool_changes (non_empty_props props) cur "") with
      | Raise e =>
          (Exit (FailJson (MsgExn e)),
           faithful_world init (history ++ [get_request server port name]))
      | Ok [] =>
          (Exit (ExitJson false (MsgChanges []) doc),
           faithful_world init (history ++ [get_request server port name]))
      | Ok changes =>
          (Exit (ExitJson true (MsgChanges changes)
                   (merge (JDict [("properties", JDict (non_empty_props props))]) doc)),
           faithful_world init
             (history ++ [get_request server port name;
                          Request PUT (pool_url server port name)
                            (Some (put_body (non_empty_props props)))]))
      end
  end.
Proof.
  unfold StingrayPool.main, bind.
  rewrite (pool_init_run false server port name props (faithful_world init history) _
             (faithful_get init history (get_request server port name) eq_refl)).
  destruct (api_state init history) as [doc|] eqn:Hst; simpl.
  - unfold try_except, StingrayPool.set_present, bind, lift. simpl.
    destruct (rbind (getitem doc "properties") _) as [[|c cs]|e]; simpl; try reflexivity.
    unfold http, try_except, logged, faithful_world. simpl.
    unfold faithful at 1. rewrite api_state_app, Hst. simpl.
    rewrite <- app_assoc. reflexivity.
  - unfold try_except, StingrayPool.set_present, bind, lift, http, created_props,
      logged, faithful_world.
    unfold try_except.
    destruct (non_empty_props props) as [|kv P]; simpl;
      unfold faithful at 1; rewrite api_state_app, Hst; simpl;
      rewrite <- app_assoc; reflexivity.
Qed.

Lemma issued_faithful {A} (m : M A) (init : option json) (history rqs : list request)
  (o : outcome A) :
  m (faithful_world init history) = (o, faithful_world init (history ++ rqs)) ->
  issued m (faithful_world init history) = rqs.
Proof. intros H. apply (issued_logged m _ o rqs). exact H. Qed.

Lemma getitem_merge_properties (P : pydict) (doc cp : json) :
  getitem doc "properties" = Ok cp ->
  getitem (merge (JDict [("properties", JDict P)]) doc) "properties" = Ok (merge (JDict P) cp).
Proof.
  intros H. apply getitem_ok in H. destruct H as [d [-> Hl]].
  rewrite merge_dict. simpl. rewrite Hl, lookup_dict_set_eq. reflexivity.
Qed.

Lemma pool_twice (state : presence) (server port name : string) (props : pydict)
  (init : option json) (history : list request)
  (c1 : bool) (m1 : message) (d1 : json) (w1 : world) :
  wf (JDict props) = true ->
  StingrayPool.main false state server port name props (faithful_world init history)
    = (Exit (ExitJson c1 m1 d1), w1) ->
  c1 = existsb is_write
         (issued (StingrayPool.main false state server port name props)
                 (faithful_world init history)) /\
  exists m2 d2,
    StingrayPool.main false state server port name props w1
      = (Exit (ExitJson false m2 d2), logged w1 [get_request server port name]).
Proof.
  intros Hwf Hrun. apply wf_non_empty_props in Hwf.
  destruct state.
  - pose proof (pool_run_present server port name props init history) as R1.
    destruct (api_state init history) as [doc|] eqn:Hst.
    + destruct (getitem doc "properties") as [cp|e] eqn:Hcp; simpl in R1;
        [|rewrite R1 in Hrun; discriminate].
      destruct (StingrayPool._pool_changes (non_empty_props props) cp "")
        as [[|c cs]|e] eqn:Hch; [| |rewrite R1 in Hrun; discriminate].
      * rewrite (issued_faithful _ _ _ _ _ R1). rewrite R1 in Hrun.
        inversion Hrun; subst. split; [reflexivity|].
        rewrite pool_run_present, api_state_get, Hst, Hcp by reflexivity. simpl.
        rewrite Hch. eexists. eexists. reflexivity.
      * rewrite (issued_faithful _ _ _ _ _ R1). rewrite R1 in Hrun.
        inversion Hrun; subst. split; [reflexivity|].
        rewrite pool_run_present.
        change [get_request server port name;
                Request PUT (pool_url server port name)
                  (Some (put_body (non_empty_props props)))]
          with ([get_request server port name] ++
                [Request PUT (pool_url server port name)
                   (Some (put_body (non_empty_props props)))]).
        rewrite app_assoc, api_state_app, api_state_get, Hst by reflexivity.
        simpl api_state. cbv beta iota.
        rewrite (getitem_merge_properties _ _ _ Hcp). simpl rbind.
        rewrite <- pool_changes_of_dict.
        rewrite (agrees_no_changes _ Hwf _ "" (agrees_merge _ Hwf cp)).
        eexists. eexists. reflexivity.
    + rewrite (issued_faithful _ _ _ _ _ R1). rewrite R1 in Hrun.
      inversion Hrun; subst. split; [reflexivity|].
      rewrite pool_run_present.
      change [get_request server port name;
              Request PUT (pool_url server port name)
                (Some (put_body (created_props (non_empty_props props))))]
        with ([get_request server port name] ++
              [Request PUT (pool_url server port name)
                 (Some (put_body (created_props (non_empty_props props))))]).
      rewrite app_assoc, api_state_app, api_state_get, Hst by reflexivity.
      simpl.
      assert (StingrayPool._pool_changes (non_empty_props props)
                (JDict (created_props (non_empty_props props))) "" = Ok []) as ->.
      { unfold created_props. destruct (non_empty_props props) as [|kv P] eqn:HP.
        - apply pool_changes_nil.
        - simpl truthy. cbv iota. rewrite <- pool_changes_of_dict.
          apply agrees_no_changes; [assumption|]. apply agrees_self. assumption. }
      eexists. eexists. reflexivity.
  - pose proof (pool_run_absent server port name props init history) as R1.
    destruct (api_state init history) as [doc|] eqn:Hst.
    + rewrite (issued_faithful _ _ _ _ _ R1). rewrite R1 in Hrun.
      inversion Hrun; subst. split; [reflexivity|].
      rewrite pool_run_absent.
      change [get_request server port name; Request DELETE (pool_url server port name) None]
        with ([get_request server port name] ++
              [Request DELETE (pool_url server port name) None]).
      rewrite app_assoc, api_state_app, api_state_get, Hst by reflexivity.
      simpl. eexists. eexists. reflexivity.
    + rewrite (issued_faithful _ _ _ _ _ R1). rewrite R1 in Hrun.
      inversion Hrun; subst. split; [reflexivity|].
      rewrite pool_run_absent, api_state_get, Hst by reflexivity.
      eexists. eexists. reflexivity.
Qed.

Lemma compare_field_settled (key : string) (d cn : json) (s : self)
  (ch : list (string * mvalue)) :
  field_settled key d cn -> compare_field key d (s, cn, ch) = Ok (s, cn, ch).
Proof.
  intros [Hf|[v [Hv He]]]; unfold compare_field.
  - rewrite Hf. reflexivity.
  - destruct (truthy d); [|reflexivity]. rewrite Hv. simpl. rewrite He. reflexivity.
Qed.

Lemma compare_field_inv (key : string) (d : json) (s0 s s' : self) (cn cn' : json)
  (ch ch' : list (string * mvalue)) (others : list json) :
  String.eqb key "node" = false -> wf d = true ->
  tracks s0 s others -> has_address (node s0) cn ->
  compare_field key d (s, cn, ch) = Ok (s', cn', ch') ->
  tracks s0 s' others /\ has_address (node s0) cn' /\ field_settled key d cn' /\
  (changed s' = false -> changed s = false /\ cn' = cn) /\
  (changed s = true -> changed s' = true) /\
  (forall key' d', String.eqb key key' = false ->
                   field_settled key' d' cn -> field_settled key' d' cn').
Proof.
  intros Hkey Hwf Htr Hcn Hrun. unfold compare_field in Hrun.
  destruct (truthy d) eqn:Ht.
  - destruct (getitem cn key) as [cur|e] eqn:Hcur; simpl in Hrun; [|discriminate].
    destruct (py_eq d cur) eqn:He; simpl in Hrun; inversion Hrun; subst; clear Hrun.
    + split; [assumption|]. split; [assumption|].
      split; [right; exists cur; auto|]. split; [intros H; split; auto|]. split; auto.
    + destruct Htr as [Hc [Hn [Hu [tbl [Htbl Hsel]]]]].
      unfold store_current_node, _nodes. rewrite Htbl.
      destruct s as [c p n dw dp dl u pd m chg]. simpl in *.
      split; [|split; [|split; [|split; [|split]]]].
      * repeat (split; [assumption|]).
        exists (replace_first n (setitem cn key d) tbl). split.
        -- eapply nodes_table_with_nodes. exact Htbl.
        -- subst n. apply select_false_replace_first; [|assumption].
           apply has_address_setitem; assumption.
      * apply has_address_setitem; assumption.
      * right. exists d. split; [eapply getitem_setitem_eq; eassumption|].
        apply py_eq_refl. assumption.
      * discriminate.
      * reflexivity.
      * intros key' d' Hne [Hf|[v [Hv Hev]]]; [left; assumption|].
        right. exists v. split; [|assumption]. rewrite getitem_setitem_ne; assumption.
  - inversion Hrun; subst. split; [assumption|]. split; [assumption|].
    split; [left; assumption|]. split; [intros H; split; auto|]. split; auto.
Qed.

Lemma compare_fields_inv (s0 s3 : self) (x x3 : json) (ch ch3 : list (string * mvalue))
  (others : list json) :
  wf (desired_lb_state s0) = true -> wf (desired_weight s0) = true ->
  wf (desired_priority s0) = true ->
  tracks s0 s0 others -> has_address (node s0) x ->
  compare_fields s0 x ch = Ok (s3, x3, ch3) ->
  tracks s0 s3 others /\ has_address (node s0) x3 /\
  field_settled "state" (desired_lb_state s0) x3 /\
  field_settled "weight" (desired_weight s0) x3 /\
  field_settled "priority" (desired_priority s0) x3 /\
  (changed s3 = false -> changed s0 = false /\ x3 = x).
Proof.
  intros Wl Ww Wp Htr Hx Hrun. unfold compare_fields in Hrun.
  destruct (compare_field "state" _ _) as [[[s1 x1] ch1]|e] eqn:E1; [|discriminate].
  cbn [rbind] in Hrun.
  destruct (compare_field "weight" _ _) as [[[s2 x2] ch2]|e] eqn:E2; [|discriminate].
  cbn [rbind] in Hrun.
  destruct (compare_field_inv "state" _ s0 s0 s1 x x1 ch ch1 others eq_refl Wl Htr Hx E1)
    as [T1 [A1 [F1 [C1 [U1 P1]]]]].
  destruct (compare_field_inv "weight" _ s0 s1 s2 x1 x2 ch1 ch2 others eq_refl Ww T1 A1 E2)
    as [T2 [A2 [F2 [C2 [U2 P2]]]]].
  destruct (compare_field_inv "priority" _ s0 s2 s3 x2 x3 ch2 ch3 others eq_refl Wp T2 A2 Hrun)
    as [T3 [A3 [F3 [C3 [U3 P3]]]]].
  split; [exact T3|]. split; [exact A3|].
  split; [apply P3; [reflexivity|]; apply P2; [reflexivity|]; exact F1|].
  split; [apply P3; [reflexivity|]; exact F2|].
  split; [exact F3|].
  intros Hch. destruct (C3 Hch) as [Hc2 ->]. destruct (C2 Hc2) as [Hc1 ->].
  destruct (C1 Hc1) as [Hc0 ->]. auto.
Qed.

Lemma select_total (same : bool) (name : string) (l r : list json) :
  select same name l = Ok r -> exists r', select (negb same) name l = Ok r'.
Proof.
  revert r. induction l as [|n rest IH]; intros r H; [exists []; reflexivity|].
  rewrite select_cons in *.
  destruct (getitem n "node") as [a|e]; simpl in *; [|discriminate].
  destruct (select same name rest) as [tl|e]; simpl in *; [|discriminate].
  destruct (IH tl eq_refl) as [r' ->]. simpl. eexists. reflexivity.
Qed.

Lemma iterate_is_list (tblv : json) (nodes : list json) (same : bool) (name : string)
  (x : json) (r : list json) :
  iterate tblv = Ok nodes -> select same name nodes = Ok (x :: r) -> tblv = JList nodes.
Proof.
  destruct tblv; simpl; intros Hi Hs; try discriminate.
  - inversion Hi; subst. destruct (list_ascii_of_string s); [discriminate|]. discriminate.
  - inversion Hi; reflexivity.
  - inversion Hi; subst. destruct d; [discriminate|]. discriminate.
Qed.

Lemma nodes_table_merge (doc t : json) (T : list json) :
  nodes_table doc = Ok t ->
  nodes_table
    (merge (JDict [("properties", JDict [("basic", JDict [("nodes_table", JList T)])])]) doc)
  = Ok (JList T).
Proof.
  unfold nodes_table. intros H.
  destruct (getitem doc "properties") as [p|] eqn:Hp; [|discriminate]. simpl in H.
  destruct (getitem p "basic") as [b|] eqn:Hb; [|discriminate]. simpl in H.
  apply getitem_ok in Hp. destruct Hp as [d [-> Hp]].
  apply getitem_ok in Hb. destruct Hb as [dp [-> Hb]].
  apply getitem_ok in H. destruct H as [db [-> Ht]].
  rewrite merge_dict. simpl. rewrite Hp, lookup_dict_set_eq. simpl.
  rewrite Hb, lookup_dict_set_eq. simpl.
  rewrite Ht, lookup_dict_set_eq. reflexivity.
Qed.

(** One write of the table against the faithful API. *)
Lemma node_put_faithful (s : self) (nodes : list json) (ch : list (string * mvalue))
  (init : option json) (h : list request) (doc : json) :
  api_state init h = Some doc ->
  (response <- set_nodes s nodes ;; after_put s ch response) (faithful_world init h) =
  (Return (set_pool_data
             (merge (JDict [("properties",
                             JDict [("basic", JDict [("nodes_table", JList nodes)])])]) doc) s),
   faithful_world init (h ++ [Request PUT (_url s) (Some (nodes_body nodes))])).
Proof.
  intros Hst. unfold bind, set_nodes, after_put, http, faithful_world. simpl.
  unfold faithful at 1. rewrite Hst. simpl. reflexivity.
Qed.

Lemma api_state_put (init : option json) (h : list request) (doc v : json) (u : string) :
  api_state init h = Some doc ->
  api_state init (h ++ [Request PUT u (Some (Json v))]) = Some (merge v doc).
Proof. intros Hst. rewrite api_state_app, Hst. reflexivity. Qed.

Lemma node_main_faithful (st : presence) (server port pool name : string)
  (dw dp dl : json) (init : option json) (history : list request) (doc : json) :
  api_state init history = Some doc ->
  main false st server port pool name dw dp dl (faithful_world init history) =
  try_except
    (s' <- node_method st
             (Self false pool name dw dp dl (pool_url server port pool) doc (MsgStr "") false) ;;
     exit_json (changed s') (msg s') (pool_data s'))
    (fun e => fail_json (MsgExn e))
    (faithful_world init (history ++ [get_request server port pool])).
Proof.
  intros Hst. unfold main. unfold bind at 1.
  rewrite (node_init_run false server port pool name dw dp dl (faithful_world init history) _
             (faithful_get init history (get_request server port pool) eq_refl)).
  rewrite Hst. simpl. destruct st; reflexivity.
Qed.

Lemma node_main_no_pool (st : presence) (server port pool name : string)
  (dw dp dl : json) (init : option json) (history : list request) :
  api_state init history = None ->
  fst (main false st server port pool name dw dp dl (faithful_world init history)) =
    Exit (FailJson (MsgPoolNotFound pool)).
Proof.
  intros Hst. unfold main. unfold bind at 1.
  rewrite (node_init_run false server port pool name dw dp dl (faithful_world init history) _
             (faithful_get init history (get_request server port pool) eq_refl)).
  rewrite Hst. reflexivity.
Qed.

(** On a settled document the method returns at once, unchanged. *)
Lemma node_method_settled (st : presence) (s : self) (w : world) :
  settled st (node s) (desired_weight s) (desired_priority s) (desired_lb_state s)
          (pool_data s) ->
  exists s', node_method st s w = (Return s', w) /\ changed s' = false /\
             pool_data s' = pool_data s.
Proof.
  intros [tblv [nodes [Htbl [Hit Hst]]]].
  destruct s as [c p n dw dp dl u pd m chg]. simpl in *.
  destruct st.
  - destruct Hst as [x [dup [Hsel [Fs [Fw Fp]]]]].
    unfold node_method, set_present, bind, lift, ret, _node_exists, _get_current_node, _nodes.
    simpl. rewrite Htbl. cbn [rbind]. rewrite Hit. cbn [rbind]. rewrite Hsel. simpl.
    unfold compare_fields. cbn [desired_lb_state desired_weight desired_priority].
    rewrite (compare_field_settled "state" dl x _ _ Fs). cbn [rbind].
    rewrite (compare_field_settled "weight" dw x _ _ Fw). cbn [rbind].
    rewrite (compare_field_settled "priority" dp x _ _ Fp). simpl.
    eexists. split; [reflexivity|]. split; reflexivity.
  - unfold node_method, set_absent, bind, lift, ret, _node_exists, _get_current_node, _nodes.
    simpl. rewrite Htbl. cbn [rbind]. rewrite Hit. cbn [rbind]. rewrite Hst. simpl.
    eexists. split; [reflexivity|]. split; reflexivity.
Qed.

Lemma has_address_new (name : string) (st wt pr : json) :
  has_address name (JDict [("node", JStr name); ("state", st); ("weight", wt); ("priority", pr)]).
Proof.
  eexists. exists (JStr name). split; [reflexivity|]. split; [reflexivity|].
  simpl. apply String.eqb_refl.
Qed.

Lemma select_single (name : string) (x : json) :
  has_address name x ->
  select true name [x] = Ok [x] /\ select false name [x] = Ok [].
Proof.
  intros [d [a [-> [Hl Ha]]]]. rewrite !select_cons. simpl getitem. rewrite Hl.
  simpl. rewrite Ha. split; reflexivity.
Qed.

Lemma field_settled_or (d default : json) (key : string) (x : json) :
  wf d = true ->
  getitem x key = Ok (py_or d default) -> field_settled key d x.
Proof.
  intros Hwf Hx. unfold field_settled, py_or in *.
  destruct (truthy d); [right|left; reflexivity].
  exists d. split; [assumption|]. apply py_eq_refl. assumption.
Qed.

Lemma bind_lift {A B} (r : result A) (f : A -> M B) (w : world) :
  bind (lift r) f w = match r with Ok a => f a w | Raise e => (Throw e, w) end.
Proof. destruct r; reflexivity. Qed.

Ltac node_fields :=
  cbn [check_mode pool node desired_weight desired_priority desired_lb_state _url pool_data
       msg changed set_changed set_msg set_pool_data] in *.

Lemma faithful_world_nil (init : option json) (h : list request) :
  faithful_world init h = faithful_world init (h ++ []).
Proof. rewrite app_nil_r. reflexivity. Qed.

(** The first run against the faithful API leaves a settled document. *)
Lemma node_method_first (st : presence) (s s' : self) (init : option json)
  (h : list request) (w1 : world) :
  check_mode s = false ->
  api_state init h = Some (pool_data s) ->
  wf (desired_lb_state s) = true -> wf (desired_weight s) = true ->
  wf (desired_priority s) = true ->
  node_method st s (faithful_world init h) = (Return s', w1) ->
  exists rqs,
    w1 = faithful_world init (h ++ rqs) /\
    changed s' = existsb is_write rqs /\
    exists doc', api_state init (h ++ rqs) = Some doc' /\
                 settled st (node s) (desired_weight s) (desired_priority s)
                         (desired_lb_state s) doc'.
Proof.
  intros Hcheck Hst Wl Ww Wp Hrun.
  destruct s as [c p n dw dp dl u doc m chg]. node_fields. subst c.
  destruct st; unfold node_method in Hrun.
  - (* present *)
    unfold set_present in Hrun. rewrite bind_lift in Hrun.
    unfold _node_exists, _get_current_node, _nodes in Hrun. node_fields.
    destruct (nodes_table doc) as [tblv|e] eqn:Htbl; [|discriminate]. cbn [rbind] in Hrun.
    destruct (iterate tblv) as [nodes|e] eqn:Hit; [|discriminate]. cbn [rbind] in Hrun.
    destruct (select true n nodes) as [[|x dup]|e] eqn:Hsel; [| |discriminate].
    + (* the node is added *)
      cbn [rbind truthy negb] in Hrun. cbv iota in Hrun. node_fields.
      rewrite bind_lift in Hrun. unfold _nodes in Hrun. node_fields. try rewrite Htbl in Hrun.
      cbn [rbind] in Hrun.
      destruct tblv as [| | | | l0 |]; try discriminate.
      simpl in Hit. inversion Hit; subst nodes. cbn [list_add] in Hrun.
      rewrite (node_put_faithful _ _ _ init h doc Hst) in Hrun.
      inversion Hrun; subst; clear Hrun. node_fields.
      eexists. split; [reflexivity|]. split; [reflexivity|].
      eexists. split; [apply api_state_put; exact Hst|].
      exists (JList (l0 ++ [JDict [("node", JStr n); ("state", py_or dl (JStr "active"));
                                   ("weight", py_or dw (JNum 1));
                                   ("priority", py_or dp (JNum 1))]])).
      eexists. split; [eapply nodes_table_merge; exact Htbl|]. split; [reflexivity|].
      eexists. exists []. split.
      * exact (select_app true n l0 [_] [] [_] Hsel
                 (proj1 (select_single n _ (has_address_new n _ _ _)))).
      * split; [|split]; eapply field_settled_or; try assumption; reflexivity.
    + (* the node is there *)
      pose proof (iterate_is_list _ _ _ _ _ _ Hit Hsel) as ->.
      cbn [rbind truthy negb first_node] in Hrun. cbv iota in Hrun.
      rewrite bind_lift in Hrun. unfold _get_current_node, _nodes in Hrun. node_fields.
      try rewrite Htbl in Hrun. cbn [rbind] in Hrun. try rewrite Hit in Hrun. cbn [rbind] in Hrun.
      try rewrite Hsel in Hrun. cbn [rbind first_node] in Hrun.
      rewrite bind_lift in Hrun.
      set (s0 := Self false p n dw dp dl u doc m false) in *.
      change (set_changed false _) with s0 in Hrun.
      destruct (select_total _ _ _ _ Hsel) as [others Hoth]. simpl negb in Hoth.
      assert (tracks s0 s0 others) as Htr.
      { unfold tracks, s0. simpl. repeat (split; [reflexivity|]). exists nodes. auto. }
      destruct (compare_fields s0 x _) as [[[s3 x3] ch3]|e] eqn:Hcmp; [|discriminate].
      destruct (compare_fields_inv s0 s3 x x3
                  [("node", MJson (JStr n)); ("pool", MJson (JStr p))] ch3 others Wl Ww Wp Htr
                  (select_true_head _ _ _ _ Hsel) Hcmp)
        as [[Tc [Tn [Tu [tbl3 [Htbl3 Hsel3]]]]] [A3 [Fs [Fw [Fp Hsame]]]]].
      unfold s0 in Tc, Tn, Tu, Hsel3, A3, Fs, Fw, Fp. node_fields.
      destruct s3 as [c3 p3 n3 dw3 dp3 dl3 u3 pd3 m3 chg3]. node_fields. subst c3 n3 u3.
      destruct chg3.
      * rewrite bind_lift in Hrun. unfold other_nodes, _nodes in Hrun. node_fields.
        rewrite Htbl3 in Hrun. cbn [rbind iterate] in Hrun. rewrite Hsel3 in Hrun.
        cbn [rbind] in Hrun.
        rewrite (node_put_faithful _ _ _ init h doc Hst) in Hrun.
        inversion Hrun; subst; clear Hrun. node_fields.
        eexists. split; [reflexivity|]. split; [reflexivity|].
        eexists. split; [apply api_state_put; exact Hst|].
        exists (JList (others ++ [x3])).
        eexists. split; [eapply nodes_table_merge; exact Htbl|]. split; [reflexivity|].
        exists x3, []. split; [|auto].
        exact (select_app true n others [x3] [] [x3]
                 (proj1 (select_select false n nodes others Hoth))
                 (proj1 (select_single n x3 A3))).
      * unfold ret in Hrun. inversion Hrun; subst; clear Hrun. node_fields.
        destruct (Hsame eq_refl) as [_ ->].
        exists []. split; [apply faithful_world_nil|]. split; [reflexivity|].
        exists doc. split; [rewrite app_nil_r; exact Hst|].
        exists (JList nodes), nodes. split; [assumption|]. split; [reflexivity|].
        exists x, dup. auto.
  - (* absent *)
    unfold set_absent in Hrun. rewrite bind_lift in Hrun.
    unfold _node_exists, _get_current_node, _nodes in Hrun. node_fields.
    destruct (nodes_table doc) as [tblv|e] eqn:Htbl; [|discriminate]. cbn [rbind] in Hrun.
    destruct (iterate tblv) as [nodes|e] eqn:Hit; [|discriminate]. cbn [rbind] in Hrun.
    destruct (select true n nodes) as [[|x dup]|e] eqn:Hsel; [| |discriminate].
    + cbn [rbind truthy] in Hrun. cbv iota in Hrun. unfold ret in Hrun.
      inversion Hrun; subst; clear Hrun. node_fields.
      exists []. split; [apply faithful_world_nil|]. split; [reflexivity|].
      exists doc. split; [rewrite app_nil_r; exact Hst|].
      exists tblv, nodes. auto.
    + pose proof (iterate_is_list _ _ _ _ _ _ Hit Hsel) as ->.
      cbn [rbind truthy] in Hrun. cbv iota in Hrun. node_fields.
      rewrite bind_lift in Hrun. unfold other_nodes, _nodes in Hrun. node_fields.
      try rewrite Htbl in Hrun. cbn [rbind iterate] in Hrun.
      destruct (select false n nodes) as [others|e] eqn:Hoth; [|discriminate].
      rewrite (node_put_faithful _ _ _ init h doc Hst) in Hrun.
      inversion Hrun; subst; clear Hrun. node_fields.
      eexists. split; [reflexivity|]. split; [reflexivity|].
      eexists. split; [apply api_state_put; exact Hst|].
      exists (JList others), others. split; [eapply nodes_table_merge; exact Htbl|].
      split; [reflexivity|]. apply (select_select false n nodes others Hoth).
Qed.

Lemma node_method_exit (st : presence) (s : self) (w w' : world) (r : report) :
  node_method st s w = (Exit r, w') -> exists m, r = FailJson m.
Proof.
  destruct s as [c p n dw dp dl u pd m chg]. destruct w as [beh cs].
  destruct st; unfold node_method, set_present, set_absent, after_put, set_nodes,
    bind, http, ret, fail_json, lift; simpl.
  - destruct (_node_exists _) as [[|]|e]; simpl.
    + destruct (rbind (_get_current_node _) first_node) as [x|e]; simpl; [|discriminate].
      destruct (compare_fields _ _ _) as [[[s3 x3] ch3]|e]; simpl; [|discriminate].
      destruct (changed s3); [|discriminate].
      destruct (check_mode s3); [discriminate|].
      destruct (rbind (other_nodes _) _) as [l|e]; simpl; [|discriminate].
      destruct (beh cs _) as [resp|e]; simpl; [|discriminate].
      destruct (status_code resp =? 200); simpl.
      * destruct (json_loads (text resp)); discriminate.
      * discriminate.
    + destruct c; [discriminate|].
      destruct (rbind (_nodes _) _) as [l|e]; simpl; [|discriminate].
      destruct (beh cs _) as [resp|e]; simpl; [|discriminate].
      destruct (status_code resp =? 200); simpl.
      * destruct (json_loads (text resp)); discriminate.
      * discriminate.
    + discriminate.
  - destruct (_node_exists _) as [[|]|e]; simpl; try discriminate.
    destruct c; [discriminate|].
    destruct (other_nodes _) as [l|e]; simpl; [|discriminate].
    destruct (beh cs _) as [resp|e]; simpl; [|discriminate].
    destruct (status_code resp =? 200); simpl.
    + destruct (json_loads (text resp)); discriminate.
    + discriminate.
Qed.

Lemma node_twice (st : presence) (server port pool name : string) (dw dp dl : json)
  (init : option json) (history : list request)
  (c1 : bool) (m1 : message) (d1 : json) (w1 : world) :
  wf dw = true -> wf dp = true -> wf dl = true ->
  main false st server port pool name dw dp dl (faithful_world init history)
    = (Exit (ExitJson c1 m1 d1), w1) ->
  c1 = existsb is_write
         (issued (main false st server port pool name dw dp dl)
                 (faithful_world init history)) /\
  exists m2 d2,
    main false st server port pool name dw dp dl w1
      = (Exit (ExitJson false m2 d2), logged w1 [get_request server port pool]).
Proof.
  intros Ww Wp Wl Hrun.
  destruct (api_state init history) as [doc|] eqn:Hst.
  - pose proof Hrun as Hrun0.
    rewrite (node_main_faithful st server port pool name dw dp dl init history doc Hst) in Hrun.
    set (s := Self false pool name dw dp dl (pool_url server port pool) doc (MsgStr "") false)
      in *.
    unfold try_except, bind in Hrun.
    destruct (node_method st s (faithful_world init (history ++ [get_request server port pool])))
      as [[s'|r|e] w'] eqn:Hm.
    + unfold exit_json in Hrun. inversion Hrun; subst; clear Hrun.
      assert (api_state init (history ++ [get_request server port pool]) = Some (pool_data s))
        as Hst' by (rewrite api_state_get by reflexivity; exact Hst).
      destruct (node_method_first st s s' init _ _ eq_refl Hst' Wl Ww Wp Hm)
        as [rqs [-> [Hch [doc' [Hdoc' Hset]]]]].
      rewrite <- app_assoc in Hrun0.
      rewrite (issued_faithful _ _ _ _ _ Hrun0).
      split; [simpl; exact Hch|].
      rewrite (node_main_faithful st server port pool name dw dp dl init _ doc' Hdoc').
      set (s2 := Self false pool name dw dp dl (pool_url server port pool) doc' (MsgStr "") false).
      destruct (node_method_settled st s2
                  (faithful_world init (((history ++ [get_request server port pool]) ++ rqs)
                                          ++ [get_request server port pool])) Hset)
        as [s2' [Hm2 [Hc2 _]]].
      unfold try_except, bind. rewrite Hm2. unfold exit_json. rewrite Hc2.
      eexists. eexists. reflexivity.
    + destruct (node_method_exit _ _ _ _ _ Hm) as [m ->]. discriminate.
    + discriminate.
  - pose proof (node_main_no_pool st server port pool name dw dp dl init history Hst) as Hf.
    rewrite Hrun in Hf. discriminate.
Qed.

(** *** What the first run finds and leaves *)

Lemma differs_cons (k : string) (v : json) (rest : pydict) (cur : json) :
  differs (JDict ((k, v) :: rest)) cur =
  match cur with
  | JDict c =>
      match lookup k c with
      | Some cv =>
          if is_none cv then false
          else if is_dict v then differs v cv else negb (py_eq v cv)
      | None => false
      end
  | _ => false
  end || differs (JDict rest) cur.
Proof. reflexivity. Qed.

Lemma nonempty_app {A} (l1 l2 : list A) : nonempty (l1 ++ l2) = nonempty l1 || nonempty l2.
Proof. destruct l1; reflexivity. Qed.

(** The diff is not empty exactly when the trees differ. *)
Lemma differs_spec (new : json) :
  forall cur parent changes,
    pool_changes_of new cur parent = Ok changes -> differs new cur = nonempty changes.
Proof.
  induction new as [| b | n | s | l IH | d IH] using json_induction;
    intros cur parent changes H; try (inversion H; reflexivity).
  rewrite pool_changes_of_dict in H. revert changes H.
  induction IH as [|[k v] items Hv Hitems IHitems]; intros changes H.
  - rewrite pool_changes_nil in H. inversion H. reflexivity.
  - rewrite pool_changes_cons in H. rewrite differs_cons.
    destruct cur as [| | | | |c]; simpl in H; try discriminate.
    destruct (lookup k c) as [cv|]; simpl in H.
    + destruct (is_none cv) eqn:Hnone; [apply IHitems; assumption|].
      destruct (is_dict v) eqn:Hd.
      * destruct (pool_changes_of v cv k) as [sub|e] eqn:Hsub; simpl in H; [|discriminate].
        destruct (StingrayPool._pool_changes items (JDict c) parent) as [tl|e] eqn:Htl;
          simpl in H; [|discriminate].
        inversion H; subst. rewrite nonempty_app.
        simpl in Hv. rewrite (Hv cv k sub Hsub). rewrite (IHitems tl eq_refl). reflexivity.
      * destruct (py_eq v cv) eqn:He; simpl in H; [simpl; apply IHitems; assumption|].
        destruct (StingrayPool._pool_changes items (JDict c) parent) as [tl|e] eqn:Htl;
          simpl in H; [|discriminate].
        inversion H; subst. reflexivity.
    + apply IHitems. assumption.
Qed.

Lemma holds_items (items c : pydict) :
  (forall k v, In (k, v) items ->
     exists cv, lookup k c = Some cv /\ (if is_dict v then holds v cv else cv = v)) ->
  holds (JDict items) (JDict c).
Proof.
  induction items as [|[k v] items IH]; intros H; simpl; [exact I|].
  split.
  - destruct (H k v (or_introl eq_refl)) as [cv [Hl Hv]]. exists c, cv. auto.
  - apply IH. intros k' v' Hin. apply H. right. assumption.
Qed.

Lemma holds_self (v : json) : wf v = true -> holds v v.
Proof.
  induction v as [| b | n | s | l IH | d IH] using json_induction;
    intros Hwf; try exact I.
  apply holds_items. intros k v Hin.
  simpl in Hwf. apply andb_true_iff in Hwf. destruct Hwf as [Hnd Hall].
  exists v. split; [apply lookup_In_nodup; assumption|].
  destruct (is_dict v) eqn:Hd; [|reflexivity].
  rewrite Forall_forall in IH. apply (IH (k, v) Hin).
  rewrite forallb_forall in Hall. apply (Hall (k, v) Hin).
Qed.

Lemma holds_merge (new : json) : wf new = true -> forall cur, holds new (merge new cur).
Proof.
  induction new as [| b | n | s | l IH | d IH] using json_induction;
    intros Hwf cur; try exact I.
  destruct (is_dict cur) eqn:Hc.
  - destruct cur as [| | | | |c]; try discriminate. rewrite merge_dict.
    apply holds_items. intros k v Hin.
    simpl in Hwf. apply andb_true_iff in Hwf. destruct Hwf as [Hnd Hall].
    rewrite (merge_into_lookup d c k v) by (try apply nodup_keys_NoDup; assumption).
    eexists. split; [reflexivity|].
    rewrite forallb_forall in Hall. pose proof (Hall (k, v) Hin) as Hwfv.
    rewrite Forall_forall in IH. pose proof (IH (k, v) Hin) as IHv. simpl in Hwfv, IHv.
    destruct (is_dict v) eqn:Hd.
    + destruct (lookup k c); [apply IHv; assumption|apply holds_self; assumption].
    + destruct (lookup k c); [apply merge_leaf; assumption|reflexivity].
  - rewrite merge_not_dict by assumption. apply holds_self. assumption.
Qed.

Lemma calls_faithful (init : option json) (h : list request) :
  calls (faithful_world init h) = h.
Proof. reflexivity. Qed.

(** The first run of the pool module against the faithful API: its
    [changed] flag is whether the stored pool differed, and what it
    leaves stored does not differ any more. *)
Lemma pool_first (state : presence) (server port name : string) (props : pydict)
  (init : option json) (history : list request)
  (c1 : bool) (m1 : message) (d1 : json) (w1 : world) :
  wf (JDict props) = true ->
  StingrayPool.main false state server port name props (faithful_world init history)
    = (Exit (ExitJson c1 m1 d1), w1) ->
  c1 = pool_needs_change state props (api_state init history) /\
  pool_needs_change state props (api_state init (calls w1)) = false /\
  (c1 = true -> pool_as_desired state props (api_state init (calls w1))).
Proof.
  intros Hwf Hrun. apply wf_non_empty_props in Hwf.
  destruct state.
  - rewrite pool_run_present in Hrun. unfold pool_needs_change.
    destruct (api_state init history) as [doc|] eqn:Hst.
    + destruct (getitem doc "properties") as [cp|e] eqn:Hcp; simpl in Hrun; [|discriminate].
      destruct (StingrayPool._pool_changes (non_empty_props props) cp "")
        as [[|c cs]|e] eqn:Hch; [| |discriminate].
      * rewrite <- pool_changes_of_dict in Hch.
        pose proof (differs_spec _ _ _ _ Hch) as Hd. simpl nonempty in Hd.
        inversion Hrun; subst; clear Hrun.
        rewrite calls_faithful, api_state_get, Hst, Hcp by reflexivity.
        split; [symmetry; exact Hd|]. split; [exact Hd|]. discriminate.
      * rewrite <- pool_changes_of_dict in Hch.
        pose proof (differs_spec _ _ _ _ Hch) as Hd. simpl nonempty in Hd.
        inversion Hrun; subst; clear Hrun.
        rewrite calls_faithful.
        change [get_request server port name;
                Request PUT (pool_url server port name)
                  (Some (put_body (non_empty_props props)))]
          with ([get_request server port name] ++
                [Request PUT (pool_url server port name)
                   (Some (put_body (non_empty_props props)))]).
        rewrite app_assoc, api_state_app, api_state_get, Hst by reflexivity.
        simpl api_state. cbv beta iota. rewrite (getitem_merge_properties _ _ _ Hcp).
        split; [symmetry; exact Hd|]. split.
        -- rewrite (differs_spec _ _ "" []); [reflexivity|].
           apply agrees_no_changes; [assumption|]. apply agrees_merge. assumption.
        -- intros _. eexists. eexists. split; [reflexivity|].
           split; [apply (getitem_merge_properties _ _ _ Hcp)|].
           apply holds_merge. assumption.
    + inversion Hrun; subst; clear Hrun. rewrite calls_faithful.
      change [get_request server port name;
              Request PUT (pool_url server port name)
                (Some (put_body (created_props (non_empty_props props))))]
        with ([get_request server port name] ++
              [Request PUT (pool_url server port name)
                 (Some (put_body (created_props (non_empty_props props))))]).
      rewrite app_assoc, api_state_app, api_state_get, Hst by reflexivity.
      simpl api_state. cbv beta iota.
      change (getitem (JDict [("properties",
                               JDict (created_props (non_empty_props props)))]) "properties")
        with (Ok (JDict (created_props (non_empty_props props)))).
      cbv beta iota.
      assert (wf (JDict (created_props (non_empty_props props))) = true /\
              agrees (JDict (non_empty_props props))
                     (JDict (created_props (non_empty_props props))) /\
              holds (JDict (non_empty_props props))
                    (JDict (created_props (non_empty_props props)))) as [_ [Hag Hh]].
      { unfold created_props. destruct (non_empty_props props) as [|kv P] eqn:HP.
        - split; [reflexivity|]. split; exact I.
        - simpl truthy. cbv iota. split; [assumption|].
          split; [apply agrees_self|apply holds_self]; assumption. }
      split; [reflexivity|]. split.
      * rewrite (differs_spec _ _ "" []); [reflexivity|].
        apply agrees_no_changes; assumption.
      * intros _. eexists. eexists. split; [reflexivity|]. split; [reflexivity|]. exact Hh.
  - rewrite pool_run_absent in Hrun. unfold pool_needs_change, pool_as_desired.
    destruct (api_state init history) as [doc|] eqn:Hst.
    + inversion Hrun; subst; clear Hrun. rewrite calls_faithful.
      change [get_request server port name; Request DELETE (pool_url server port name) None]
        with ([get_request server port name] ++
              [Request DELETE (pool_url server port name) None]).
      rewrite app_assoc, api_state_app, api_state_get, Hst by reflexivity.
      simpl. auto.
    + inversion Hrun; subst; clear Hrun.
      rewrite calls_faithful, api_state_get, Hst by reflexivity.
      split; [reflexivity|]. split; [reflexivity|]. discriminate.
Qed.

Lemma select_find (name : string) (l r : list json) :
  select true name l = Ok r ->
  find (has_name name) l = hd_error r /\ existsb (has_name name) l = nonempty r.
Proof.
  revert r. induction l as [|n rest IH]; intros r H.
  - inversion H. split; reflexivity.
  - rewrite select_cons in H.
    destruct (getitem n "node") as [a|e] eqn:Ha; [|discriminate]. cbn [rbind] in H.
    destruct (select true name rest) as [tl|e]; [|discriminate]. cbn [rbind] in H.
    destruct (IH tl eq_refl) as [Hf He].
    assert (has_name name n = py_eq a (JStr name)) as Hn
      by (unfold has_name; rewrite Ha; reflexivity).
    simpl find. simpl existsb. rewrite Hn.
    destruct (py_eq a (JStr name)); simpl in H; inversion H; subst; simpl; auto.
Qed.

Lemma field_settled_needs (key : string) (d x : json) :
  field_settled key d x -> field_needs key d x = false.
Proof.
  intros [Hf|[v [Hv He]]]; unfold field_needs.
  - rewrite Hf. reflexivity.
  - rewrite Hv, He. apply andb_false_r.
Qed.

(** A settled document is as desired, and needs no change. *)
Lemma settled_as_desired (st : presence) (name : string) (dw dp dl doc : json) :
  settled st name dw dp dl doc ->
  node_as_desired st name dw dp dl (Some doc) /\
  node_needs_change st name dw dp dl (Some doc) = false.
Proof.
  intros [tblv [nodes [Htbl [Hit Hst]]]].
  assert (rbind (nodes_table doc) iterate = Ok nodes) as Hn
    by (rewrite Htbl; exact Hit).
  unfold node_as_desired, node_needs_change. rewrite Hn.
  destruct st.
  - destruct Hst as [x [dup [Hsel [Fs [Fw Fp]]]]].
    destruct (select_find _ _ _ Hsel) as [Hf _]. simpl in Hf.
    assert (entry_needs dw dp dl x = false) as He.
    { unfold entry_needs.
      rewrite (field_settled_needs _ _ _ Fs), (field_settled_needs _ _ _ Fw),
        (field_settled_needs _ _ _ Fp). reflexivity. }
    split.
    + exists doc, nodes. split; [reflexivity|]. split; [exact Hn|]. exists x. auto.
    + rewrite Hf. exact He.
  - destruct (select_find _ _ _ Hst) as [_ He]. simpl in He.
    split; [|exact He].
    exists doc, nodes. auto.
Qed.

Lemma compare_field_changed (key : string) (d : json) (s s' : self) (cn cn' : json)
  (ch ch' : list (string * mvalue)) :
  compare_field key d (s, cn, ch) = Ok (s', cn', ch') ->
  changed s' = changed s || field_needs key d cn /\
  (forall key', String.eqb key key' = false -> getitem cn' key' = getitem cn key').
Proof.
  unfold compare_field, field_needs. intros H.
  destruct (truthy d).
  - destruct (getitem cn key) as [cur|e]; simpl in H; [|discriminate].
    destruct (py_eq d cur); simpl in H; inversion H; subst; clear H.
    + split; [rewrite orb_false_r; reflexivity|]. reflexivity.
    + split.
      * simpl. rewrite orb_true_r.
        destruct (store_current_node s (setitem cn key d)); reflexivity.
      * intros key' Hne. apply getitem_setitem_ne. assumption.
  - inversion H; subst. split; [rewrite orb_false_r; reflexivity|]. reflexivity.
Qed.

(** The three comparisons set [changed] exactly when a field of the
    entry they start from is to be updated. *)
Lemma compare_fields_changed (s s3 : self) (x x3 : json) (ch ch3 : list (string * mvalue)) :
  compare_fields s x ch = Ok (s3, x3, ch3) ->
  changed s3 =
    changed s || entry_needs (desired_weight s) (desired_priority s) (desired_lb_state s) x.
Proof.
  unfold compare_fields. intros H.
  destruct (compare_field "state" _ _) as [[[s1 x1] ch1]|e] eqn:E1; [|discriminate].
  cbn [rbind] in H.
  destruct (compare_field "weight" _ _) as [[[s2 x2] ch2]|e] eqn:E2; [|discriminate].
  cbn [rbind] in H.
  destruct (compare_field_changed _ _ _ _ _ _ _ _ E1) as [C1 G1].
  destruct (compare_field_changed _ _ _ _ _ _ _ _ E2) as [C2 G2].
  destruct (compare_field_changed _ _ _ _ _ _ _ _ H) as [C3 _].
  assert (field_needs "weight" (desired_weight s) x1 = field_needs "weight" (desired_weight s) x)
    as Hw by (unfold field_needs; rewrite (G1 "weight" eq_refl); reflexivity).
  assert (field_needs "priority" (desired_priority s) x2 =
          field_needs "priority" (desired_priority s) x)
    as Hp by (unfold field_needs; rewrite (G2 "priority" eq_refl), (G1 "priority" eq_refl);
              reflexivity).
  rewrite C3, C2, C1, Hw, Hp. unfold entry_needs. rewrite !orb_assoc. reflexivity.
Qed.

(** What a method that returns reports as [changed]: whether the
    document it started from needed the change. *)
Lemma node_method_need (st : presence) (s s' : self) (init : option json)
  (h : list request) (w1 : world) :
  check_mode s = false ->
  api_state init h = Some (pool_data s) ->
  node_method st s (faithful_world init h) = (Return s', w1) ->
  changed s' = node_needs_change st (node s) (desired_weight s) (desired_priority s)
                 (desired_lb_state s) (Some (pool_data s)).
Proof.
  intros Hcheck Hst Hrun.
  destruct s as [c p n dw dp dl u doc m chg]. node_fields. subst c.
  unfold node_needs_change.
  destruct st; unfold node_method in Hrun.
  - unfold set_present in Hrun. rewrite bind_lift in Hrun.
    unfold _node_exists, _get_current_node, _nodes in Hrun. node_fields.
    destruct (nodes_table doc) as [tblv|e] eqn:Htbl; [|discriminate]. cbn [rbind] in Hrun |- *.
    destruct (iterate tblv) as [nodes|e] eqn:Hit; [|discriminate]. cbn [rbind] in Hrun.
    destruct (select true n nodes) as [[|x dup]|e] eqn:Hsel; [| |discriminate];
      destruct (select_find _ _ _ Hsel) as [Hf _]; simpl hd_error in Hf; rewrite Hf.
    + cbn [rbind truthy negb] in Hrun. cbv iota in Hrun. node_fields.
      rewrite bind_lift in Hrun.
      destruct (list_add tblv _) as [l|e]; [|discriminate].
      rewrite (node_put_faithful _ _ _ init h doc Hst) in Hrun.
      inversion Hrun; subst; clear Hrun. reflexivity.
    + cbn [rbind truthy negb first_node] in Hrun. cbv iota in Hrun.
      rewrite bind_lift in Hrun. unfold _get_current_node, _nodes in Hrun. node_fields.
      try rewrite Htbl in Hrun. cbn [rbind] in Hrun. try rewrite Hit in Hrun.
      cbn [rbind] in Hrun. try rewrite Hsel in Hrun. cbn [rbind first_node] in Hrun.
      rewrite bind_lift in Hrun.
      set (s0 := Self false p n dw dp dl u doc m false) in *.
      change (set_changed false _) with s0 in Hrun.
      destruct (compare_fields s0 x _) as [[[s3 x3] ch3]|e] eqn:Hcmp; [|discriminate].
      pose proof (compare_fields_changed _ _ _ _ _ _ Hcmp) as Hc.
      unfold s0 in Hc. node_fields. cbn [orb] in Hc. rewrite <- Hc.
      destruct s3 as [c3 p3 n3 dw3 dp3 dl3 u3 pd3 m3 chg3]. node_fields.
      destruct chg3.
      * destruct c3; [inversion Hrun; reflexivity|].
        rewrite bind_lift in Hrun.
        destruct (rbind (other_nodes _) _) as [l|e]; [|discriminate].
        rewrite (node_put_faithful _ _ _ init h doc Hst) in Hrun.
        inversion Hrun; subst; clear Hrun. reflexivity.
      * inversion Hrun; subst; clear Hrun. reflexivity.
  - unfold set_absent in Hrun. rewrite bind_lift in Hrun.
    unfold _node_exists, _get_current_node, _nodes in Hrun. node_fields.
    destruct (nodes_table doc) as [tblv|e] eqn:Htbl; [|discriminate]. cbn [rbind] in Hrun |- *.
    destruct (iterate tblv) as [nodes|e] eqn:Hit; [|discriminate]. cbn [rbind] in Hrun.
    destruct (select true n nodes) as [[|x dup]|e] eqn:Hsel; [| |discriminate];
      destruct (select_find _ _ _ Hsel) as [_ He]; simpl nonempty in He; rewrite He.
    + cbn [rbind truthy] in Hrun. cbv iota in Hrun. unfold ret in Hrun.
      inversion Hrun; subst; clear Hrun. reflexivity.
    + cbn [rbind truthy] in Hrun. cbv iota in Hrun. node_fields.
      rewrite bind_lift in Hrun.
      destruct (other_nodes _) as [l|e]; [|discriminate].
      rewrite (node_put_faithful _ _ _ init h doc Hst) in Hrun.
      inversion Hrun; subst; clear Hrun. reflexivity.
Qed.

(** The first run of the node module against the faithful API: its
    [changed] flag is whether the stored table needed the change, and
    what it leaves stored is as desired. *)
Lemma node_first (st : presence) (server port pool name : string) (dw dp dl : json)
  (init : option json) (history : list request)
  (c1 : bool) (m1 : message) (d1 : json) (w1 : world) :
  wf dw = true -> wf dp = true -> wf dl = true ->
  main false st server port pool name dw dp dl (faithful_world init history)
    = (Exit (ExitJson c1 m1 d1), w1) ->
  c1 = node_needs_change st name dw dp dl (api_state init history) /\
  node_needs_change st name dw dp dl (api_state init (calls w1)) = false /\
  node_as_desired st name dw dp dl (api_state init (calls w1)).
Proof.
  intros Ww Wp Wl Hrun.
  destruct (api_state init history) as [doc|] eqn:Hst.
  - rewrite (node_main_faithful st server port pool name dw dp dl init history doc Hst) in Hrun.
    set (s := Self false pool name dw dp dl (pool_url server port pool) doc (MsgStr "") false)
      in *.
    unfold try_except, bind in Hrun.
    destruct (node_method st s (faithful_world init (history ++ [get_request server port pool])))
      as [[s'|r|e] w'] eqn:Hm.
    + unfold exit_json in Hrun. inversion Hrun; subst; clear Hrun.
      assert (api_state init (history ++ [get_request server port pool]) = Some (pool_data s))
        as Hst' by (rewrite api_state_get by reflexivity; exact Hst).
      pose proof (node_method_need st s s' init _ _ eq_refl Hst' Hm) as Hneed.
      destruct (node_method_first st s s' init _ _ eq_refl Hst' Wl Ww Wp Hm)
        as [rqs [-> [_ [doc' [Hdoc' Hset]]]]].
      rewrite calls_faithful, Hdoc'.
      destruct (settled_as_desired _ _ _ _ _ _ Hset) as [Had Hno].
      split; [exact Hneed|]. split; assumption.
    + destruct (node_method_exit _ _ _ _ _ Hm) as [m ->]. discriminate.
    + discriminate.
  - pose proof (node_main_no_pool st server port pool name dw dp dl init history Hst) as Hf.
    rewrite Hrun in Hf. discriminate.
Qed.

(** *** The first run exits normally on a readable document *)

Lemma pool_exits (state : presence) (server port name : string) (props : pydict)
  (init : option json) (history : list request) :
  pool_readable state props (api_state init history) = true ->
  exists c1 m1 d1 w1,
    StingrayPool.main false state server port name props (faithful_world init history)
      = (Exit (ExitJson c1 m1 d1), w1).
Proof.
  intros Hr. destruct state.
  - rewrite pool_run_present. unfold pool_readable in Hr.
    destruct (api_state init history) as [doc|]; [|do 4 eexists; reflexivity].
    destruct (getitem doc "properties") as [cp|e]; [|discriminate]. cbn [rbind].
    destruct (pool_changes_total _ cp "" Hr) as [changes Hch].
    rewrite pool_changes_of_dict in Hch. rewrite Hch.
    destruct changes; do 4 eexists; reflexivity.
  - rewrite pool_run_absent.
    destruct (api_state init history); do 4 eexists; reflexivity.
Qed.

Lemma select_ok (same : bool) (name : string) (l : list json) :
  forallb (has_key "node") l = true -> exists r, select same name l = Ok r.
Proof.
  induction l as [|n rest IH]; intros H; [exists []; reflexivity|].
  simpl in H. apply andb_true_iff in H. destruct H as [Hn Hr].
  destruct (IH Hr) as [r Hs]. rewrite select_cons, Hs.
  unfold has_key in Hn. destruct (getitem n "node") as [a|e]; [|discriminate].
  simpl. eexists. reflexivity.
Qed.

Lemma compare_field_ok (key : string) (d : json) (s : self) (cn : json)
  (ch : list (string * mvalue)) :
  field_readable key d cn = true ->
  exists s' cn' ch', compare_field key d (s, cn, ch) = Ok (s', cn', ch').
Proof.
  unfold field_readable, has_key, compare_field. intros H.
  destruct (truthy d); [|do 3 eexists; reflexivity].
  destruct (getitem cn key) as [cur|e]; [|discriminate]. simpl.
  destruct (py_eq d cur); simpl; do 3 eexists; reflexivity.
Qed.

Lemma compare_fields_ok (s : self) (x : json) (ch : list (string * mvalue)) :
  field_readable "state" (desired_lb_state s) x = true ->
  field_readable "weight" (desired_weight s) x = true ->
  field_readable "priority" (desired_priority s) x = true ->
  exists s3 x3 ch3, compare_fields s x ch = Ok (s3, x3, ch3).
Proof.
  intros Rs Rw Rp. unfold compare_fields.
  destruct (compare_field_ok "state" _ s x ch Rs) as [s1 [x1 [ch1 E1]]].
  rewrite E1. cbn [rbind].
  destruct (compare_field_changed _ _ _ _ _ _ _ _ E1) as [_ G1].
  assert (field_readable "weight" (desired_weight s) x1 = true) as Rw1
    by (unfold field_readable, has_key in *; rewrite (G1 "weight" eq_refl); exact Rw).
  destruct (compare_field_ok "weight" _ s1 x1 ch1 Rw1) as [s2 [x2 [ch2 E2]]].
  rewrite E2. cbn [rbind].
  destruct (compare_field_changed _ _ _ _ _ _ _ _ E2) as [_ G2].
  assert (field_readable "priority" (desired_priority s) x2 = true) as Rp2
    by (unfold field_readable, has_key in *;
        rewrite (G2 "priority" eq_refl), (G1 "priority" eq_refl); exact Rp).
  apply compare_field_ok. exact Rp2.
Qed.

Lemma node_method_returns (st : presence) (s : self) (init : option json)
  (h : list request) :
  check_mode s = false ->
  api_state init h = Some (pool_data s) ->
  wf (desired_lb_state s) = true -> wf (desired_weight s) = true ->
  wf (desired_priority s) = true ->
  node_readable st (node s) (desired_weight s) (desired_priority s) (desired_lb_state s)
    (Some (pool_data s)) = true ->
  exists s' w1, node_method st s (faithful_world init h) = (Return s', w1).
Proof.
  intros Hcheck Hst Wl Ww Wp Hr.
  destruct s as [c p n dw dp dl u doc m chg]. node_fields. subst c.
  unfold node_readable in Hr.
  destruct (nodes_table doc) as [[| | | | nodes |]|e] eqn:Htbl; try discriminate.
  apply andb_true_iff in Hr. destruct Hr as [Hkeys Hr].
  destruct (select_ok true n nodes Hkeys) as [r Hsel].
  destruct (select_ok false n nodes Hkeys) as [others Hoth].
  destruct st; unfold node_method.
  - unfold set_present. rewrite bind_lift.
    unfold _node_exists, _get_current_node, _nodes. node_fields.
    try rewrite Htbl. cbn [rbind iterate]. try rewrite Hsel. cbn [rbind].
    destruct r as [|x dup].
    + cbn [truthy negb]. cbv iota. node_fields.
      rewrite bind_lift. unfold _nodes. node_fields. try rewrite Htbl. cbn [rbind list_add].
      rewrite (node_put_faithful _ _ _ init h doc Hst). do 2 eexists. reflexivity.
    + cbn [truthy negb]. cbv iota.
      rewrite bind_lift. unfold _get_current_node, _nodes. node_fields.
      try rewrite Htbl. cbn [rbind iterate]. try rewrite Hsel. cbn [rbind first_node].
      rewrite bind_lift.
      set (s0 := Self false p n dw dp dl u doc m false) in *.
      change (set_changed false _) with s0.
      destruct (select_find _ _ _ Hsel) as [Hf _]. simpl hd_error in Hf. rewrite Hf in Hr.
      apply andb_true_iff in Hr. destruct Hr as [Hr Rp].
      apply andb_true_iff in Hr. destruct Hr as [Rs Rw].
      destruct (compare_fields_ok s0 x
                  [("node", MJson (JStr n)); ("pool", MJson (JStr p))] Rs Rw Rp)
        as [s3 [x3 [ch3 Hcmp]]].
      rewrite Hcmp.
      assert (tracks s0 s0 others) as Htr.
      { unfold tracks, s0. simpl. repeat (split; [reflexivity|]). exists nodes. auto. }
      destruct (compare_fields_inv s0 s3 x x3
                  [("node", MJson (JStr n)); ("pool", MJson (JStr p))] ch3 others Wl Ww Wp Htr
                  (select_true_head _ _ _ _ Hsel) Hcmp)
        as [[Tc [Tn [Tu [tbl3 [Htbl3 Hsel3]]]]] _].
      unfold s0 in Tc, Tn, Tu, Hsel3. node_fields.
      destruct s3 as [c3 p3 n3 dw3 dp3 dl3 u3 pd3 m3 chg3]. node_fields. subst c3 n3 u3.
      destruct chg3.
      * rewrite bind_lift. unfold other_nodes, _nodes. node_fields.
        rewrite Htbl3. cbn [rbind iterate]. rewrite Hsel3. cbn [rbind].
        rewrite (node_put_faithful _ _ _ init h doc Hst). do 2 eexists. reflexivity.
      * do 2 eexists. reflexivity.
  - unfold set_absent. rewrite bind_lift.
    unfold _node_exists, _get_current_node, _nodes. node_fields.
    try rewrite Htbl. cbn [rbind iterate]. try rewrite Hsel. cbn [rbind].
    destruct r as [|x dup].
    + cbn [truthy]. cbv iota. do 2 eexists. reflexivity.
    + cbn [truthy]. cbv iota. node_fields.
      rewrite bind_lift. unfold other_nodes, _nodes. node_fields.
      try rewrite Htbl. cbn [rbind iterate]. rewrite Hoth.
      rewrite (node_put_faithful _ _ _ init h doc Hst). do 2 eexists. reflexivity.
Qed.

Lemma node_exits (st : presence) (server port pool name : string) (dw dp dl : json)
  (init : option json) (history : list request) :
  wf dw = true -> wf dp = true -> wf dl = true ->
  node_readable st name dw dp dl (api_state init history) = true ->
  exists c1 m1 d1 w1,
    main false st server port pool name dw dp dl (faithful_world init history)
      = (Exit (ExitJson c1 m1 d1), w1).
Proof.
  intros Ww Wp Wl Hr.
  destruct (api_state init history) as [doc|] eqn:Hst; [|discriminate].
  rewrite (node_main_faithful st server port pool name dw dp dl init history doc Hst).
  set (s := Self false pool name dw dp dl (pool_url server port pool) doc (MsgStr "") false).
  assert (api_state init (history ++ [get_request server port pool]) = Some (pool_data s))
    as Hst' by (rewrite api_state_get by reflexivity; exact Hst).
  destruct (node_method_returns st s init _ eq_refl Hst' Wl Ww Wp Hr) as [s' [w1 Hm]].
  unfold try_except, bind. rewrite Hm. unfold exit_json. do 4 eexists. reflexivity.
Qed.

(** *** A stored state that is as desired needs no change *)

Lemma holds_agrees (new : json) : forall cur, holds new cur -> agrees new cur.
Proof.
  induction new as [| b | n | s | l IH | d IH] using json_induction;
    intros cur H; try exact I.
  induction IH as [|[k v] items Hv Hitems IHitems]; [exact I|].
  destruct H as [[c [cv [-> [Hl Hk]]]] Hrest].
  split; [|apply IHitems; exact Hrest].
  exists c. split; [reflexivity|]. rewrite Hl. right.
  destruct (is_dict v); [apply Hv; exact Hk|exact Hk].
Qed.

Lemma pool_as_desired_no_need (state : presence) (props : pydict) (stored : option json) :
  wf (JDict props) = true ->
  pool_as_desired state props stored -> pool_needs_change state props stored = false.
Proof.
  intros Hwf H. apply wf_non_empty_props in Hwf. destruct state.
  - destruct H as [doc [cur [-> [Hc Hh]]]]. unfold pool_needs_change. rewrite Hc.
    rewrite (differs_spec _ _ "" []); [reflexivity|].
    apply agrees_no_changes; [assumption|]. apply holds_agrees. assumption.
  - simpl in H. subst stored. reflexivity.
Qed.

Lemma node_as_desired_no_need (st : presence) (name : string) (dw dp dl : json)
  (stored : option json) :
  node_as_desired st name dw dp dl stored -> node_needs_change st name dw dp dl stored = false.
Proof.
  intros [doc [nodes [-> [Hn H]]]]. unfold node_needs_change. rewrite Hn.
  destruct st; [|exact H].
  destruct H as [x [-> He]]. exact He.
Qed.

(** C4.  Against an API that stores what is written, with check mode
    off and well-formed desired values.  Whether a change is needed is
    read off the stored document and the desired state, not off the
    run: for a pool, [absent] needs one when the pool is stored,
    [present] when it is not or when a desired leaf differs from its
    stored counterpart that is not null; for a node, [absent] needs one
    when the table has an entry with the address, [present] when it
    has none or when a given field of the first such entry is another.
    On a stored document that the module can read the first run exits
    normally.  A first run that exits normally answers [changed] as the
    change was needed, and that is when it issued a write; what is
    stored after it needs no change, and is the desired state (for a
    pool, whenever the run changed it); the same run started again
    exits with [changed=False] after its GET alone.  A stored state
    that is the desired one never needs a change. *)
Theorem reconcile_twice :
  (forall (state : presence) (server port name : string) (props : pydict)
          (init : option json) (history : list request),
     wf (JDict props) = true ->
     (pool_readable state props (api_state init history) = true ->
      exists c1 m1 d1 w1,
        StingrayPool.main false state server port name props (faithful_world init history)
          = (Exit (ExitJson c1 m1 d1), w1))
     /\
     (forall (c1 : bool) (m1 : message) (d1 : json) (w1 : world),
        StingrayPool.main false state server port name props (faithful_world init history)
          = (Exit (ExitJson c1 m1 d1), w1) ->
        c1 = pool_needs_change state props (api_state init history) /\
        c1 = existsb is_write
               (issued (StingrayPool.main false state server port name props)
                       (faithful_world init history)) /\
        pool_needs_change state props (api_state init (calls w1)) = false /\
        (c1 = true -> pool_as_desired state props (api_state init (calls w1))) /\
        exists m2 d2,
          StingrayPool.main false state server port name props w1
            = (Exit (ExitJson false m2 d2), logged w1 [get_request server port name])))
  /\
  (forall (state : presence) (server port pool name : string) (weight priority lb_state : json)
          (init : option json) (history : list request),
     wf weight = true -> wf priority = true -> wf lb_state = true ->
     (node_readable state name weight priority lb_state (api_state init history) = true ->
      exists c1 m1 d1 w1,
        StingrayNode.main false state server port pool name weight priority lb_state
          (faithful_world init history) = (Exit (ExitJson c1 m1 d1), w1))
     /\
     (forall (c1 : bool) (m1 : message) (d1 : json) (w1 : world),
        StingrayNode.main false state server port pool name weight priority lb_state
          (faithful_world init history) = (Exit (ExitJson c1 m1 d1), w1) ->
        c1 = node_needs_change state name weight priority lb_state (api_state init history) /\
        c1 = existsb is_write
               (issued (StingrayNode.main false state server port pool name
                          weight priority lb_state)
                       (faithful_world init history)) /\
        node_needs_change state name weight priority lb_state
          (api_state init (calls w1)) = false /\
        node_as_desired state name weight priority lb_state (api_state init (calls w1)) /\
        exists m2 d2,
          StingrayNode.main false state server port pool name weight priority lb_state w1
            = (Exit (ExitJson false m2 d2), logged w1 [get_request server port pool])))
  /\
  (forall (state : presence) (props : pydict) (stored : option json),
     wf (JDict props) = true ->
     pool_as_desired state props stored -> pool_needs_change state props stored = false)
  /\
  (forall (state : presence) (name : string) (weight priority lb_state : json)
          (stored : option json),
     node_as_desired state name weight priority lb_state stored ->
     node_needs_change state name weight priority lb_state stored = false).
Proof.
  split; [|split; [|split]].
  - intros state server port name props init history Hwf. split.
    + apply pool_exits.
    + intros c1 m1 d1 w1 Hrun.
      destruct (pool_first _ _ _ _ _ _ _ _ _ _ _ Hwf Hrun) as [Hneed [Hafter Hdes]].
      destruct (pool_twice _ _ _ _ _ _ _ _ _ _ _ Hwf Hrun) as [Hwrite Hsecond].
      auto.
  - intros state server port pool name weight priority lb_state init history Ww Wp Wl. split.
    + apply node_exits; assumption.
    + intros c1 m1 d1 w1 Hrun.
      destruct (node_first _ _ _ _ _ _ _ _ _ _ _ _ _ _ Ww Wp Wl Hrun) as [Hneed [Hafter Hdes]].
      destruct (node_twice _ _ _ _ _ _ _ _ _ _ _ _ _ _ Ww Wp Wl Hrun) as [Hwrite Hsecond].
      auto.
  - apply pool_as_desired_no_need.
  - apply node_as_desired_no_need.
Qed.

Lemma reconcile_twice_witness :
  (exists c1 m1 d1 w1,
     StingrayPool.main false present "lb" "9070" "web" [("basic", JDict [("note", JStr "y")])]
       (faithful_world (Some web_doc) []) = (Exit (ExitJson c1 m1 d1), w1))
  /\
  (exists c1 m1 d1 w1,
     StingrayNode.main false present "lb" "9070" "web" "10.0.0.1:80" (JNum 5) JNull JNull
       (faithful_world (Some web_doc) []) = (Exit (ExitJson c1 m1 d1), w1))
  /\
  pool_needs_change absent [] None = false
  /\
  node_needs_change absent "10.0.0.9:80" JNull JNull JNull (Some web_doc) = false
  /\
  (pool_needs_change present [("basic", JDict [("note", JStr "y")])] (Some web_doc) = true /\
   pool_needs_change present [("basic", JDict [("note", JStr "y")])]
     (api_state (Some web_doc)
        [get_request "lb" "9070" "web";
         Request PUT (pool_url "lb" "9070" "web")
           (Some (put_body [("basic", JDict [("note", JStr "y")])]))]) = false /\
   exists m2 d2,
     StingrayPool.main false present "lb" "9070" "web" [("basic", JDict [("note", JStr "y")])]
       (faithful_world (Some web_doc)
          [get_request "lb" "9070" "web";
           Request PUT (pool_url "lb" "9070" "web")
             (Some (put_body [("basic", JDict [("note", JStr "y")])]))])
     = (Exit (ExitJson false m2 d2),
        logged (faithful_world (Some web_doc)
                  [get_request "lb" "9070" "web";
                   Request PUT (pool_url "lb" "9070" "web")
                     (Some (put_body [("basic", JDict [("note", JStr "y")])]))])
               [get_request "lb" "9070" "web"]))
  /\
  (node_needs_change present "10.0.0.1:80" (JNum 5) JNull JNull (Some web_doc) = true /\
   node_needs_change present "10.0.0.1:80" (JNum 5) JNull JNull
     (api_state (Some web_doc)
        [get_request "lb" "9070" "web";
         Request PUT (pool_url "lb" "9070" "web")
           (Some (nodes_body [node_entry "10.0.0.2:80" "active" 1 1;
                              node_entry "10.0.0.3:80" "draining" 2 1;
                              node_entry "10.0.0.1:80" "active" 5 1]))]) = false /\
   exists m2 d2,
     StingrayNode.main false present "lb" "9070" "web" "10.0.0.1:80" (JNum 5) JNull JNull
       (faithful_world (Some web_doc)
          [get_request "lb" "9070" "web";
           Request PUT (pool_url "lb" "9070" "web")
             (Some (nodes_body [node_entry "10.0.0.2:80" "active" 1 1;
                                node_entry "10.0.0.3:80" "draining" 2 1;
                                node_entry "10.0.0.1:80" "active" 5 1]))])
     = (Exit (ExitJson false m2 d2),
        logged (faithful_world (Some web_doc)
                  [get_request "lb" "9070" "web";
                   Request PUT (pool_url "lb" "9070" "web")
                     (Some (nodes_body [node_entry "10.0.0.2:80" "active" 1 1;
                                        node_entry "10.0.0.3:80" "draining" 2 1;
                                        node_entry "10.0.0.1:80" "active" 5 1]))])
               [get_request "lb" "9070" "web"])).
Proof.
  split; [|split; [|split; [|split; [|split]]]].
  - apply (proj1 (proj1 reconcile_twice present "lb" "9070" "web"
                    [("basic", JDict [("note", JStr "y")])] (Some web_doc) [] eq_refl)).
    reflexivity.
  - apply (proj1 (proj1 (proj2 reconcile_twice) present "lb" "9070" "web" "10.0.0.1:80"
                    (JNum 5) JNull JNull (Some web_doc) [] eq_refl eq_refl eq_refl)).
    reflexivity.
  - apply (proj1 (proj2 (proj2 reconcile_twice)) absent [] None eq_refl). reflexivity.
  - apply (proj2 (proj2 (proj2 reconcile_twice)) absent "10.0.0.9:80" JNull JNull JNull
             (Some web_doc)).
    exists web_doc, web_nodes. split; [reflexivity|]. split; reflexivity.
  - pose proof (proj2 (proj1 reconcile_twice present "lb" "9070" "web"
                         [("basic", JDict [("note", JStr "y")])] (Some web_doc) [] eq_refl)
                  true (MsgChanges [Change "basic.note" (JStr "x") (JStr "y")])
                  (JDict [("properties",
                           JDict [("basic", JDict [("note", JStr "y");
                                                   ("nodes_table", JList web_nodes)])])])
                  _ eq_refl) as H.
    exact (conj (eq_sym (proj1 H))
             (conj (proj1 (proj2 (proj2 H))) (proj2 (proj2 (proj2 (proj2 H)))))).
  - pose proof (proj2 (proj1 (proj2 reconcile_twice) present "lb" "9070" "web" "10.0.0.1:80"
                         (JNum 5) JNull JNull (Some web_doc) [] eq_refl eq_refl eq_refl)
                  true
                  (MsgDict [("node", MJson (JStr "10.0.0.1:80"));
                            ("pool", MJson (JStr "web"));
                            ("weight", MJson (JDict [("before", JNum 1);
                                                     ("after", JNum 5)]))])
                  (JDict [("properties",
                           JDict [("basic",
                                   JDict [("note", JStr "x");
                                          ("nodes_table",
                                           JList [node_entry "10.0.0.2:80" "active" 1 1;
                                                  node_entry "10.0.0.3:80" "draining" 2 1;
                                                  node_entry "10.0.0.1:80" "active" 5 1])])])])
                  _ eq_refl) as H.
    exact (conj (eq_sym (proj1 H))
             (conj (proj1 (proj2 (proj2 H))) (proj2 (proj2 (proj2 (proj2 H)))))).
Defined.


(** ** Further properties of the pool module *)

Lemma pool_absent_run (check : bool) (server port name : string) (props : pydict)
  (w : world) (resp : response) (v : json) :
  behaviour w (calls w) (get_request server port name) = Ok resp ->
  status_code resp = 404 -> text resp = Json v ->
  StingrayPool.main check present server port name props w =
  if check then
    (Exit (ExitJson true (MsgDict (pool_record name (Some "create_pool"))) v),
     logged w [get_request server port name])
  else
    (match behaviour w (calls w ++ [get_request server port name])
             (put_request server port name
                (put_body (created_props (non_empty_props props)))) with
     | Ok r2 =>
         if status_code r2 =? 201 then
           match json_loads (text r2) with
           | Ok v2 => Exit (ExitJson true (MsgDict (pool_record name (Some "create_pool"))) v2)
           | Raise e => Exit (FailJson (MsgExn e))
           end
         else Exit (FailJson (MsgDict (pool_record name (Some "create_pool")
                                         ++ [("error", MText (text r2))])))
     | Raise e => Exit (FailJson (MsgExn e))
     end,
     logged w [get_request server port name;
               put_request server port name
                 (put_body (created_props (non_empty_props props)))]).
Proof.
  intros Hget H404 Hv. unfold StingrayPool.main, bind.
  rewrite (pool_init_run check server port name props w resp Hget).
  rewrite Hv, H404. simpl json_loads. cbv iota.
  unfold try_except, StingrayPool.set_present, bind, lift, http, created_props,
    put_request, logged, fail_json, exit_json, ret.
  destruct check; [reflexivity|].
  unfold try_except.
  destruct (non_empty_props props) as [|kv P]; simpl;
    rewrite <- app_assoc; simpl;
    (destruct (behaviour w (calls w ++ _) _) as [r2|e]; simpl; [|reflexivity]);
    (destruct (status_code r2 =? 201); simpl; [|reflexivity]);
    destruct (text r2); reflexivity.
Qed.

Lemma pool_delete_run (check : bool) (server port name : string) (props : pydict)
  (w : world) (resp : response) (v : json) :
  behaviour w (calls w) (get_request server port name) = Ok resp ->
  status_code resp <> 404 -> text resp = Json v ->
  StingrayPool.main check absent server port name props w =
  if check then
    (Exit (ExitJson true (MsgDict (pool_record name (Some "destroy_pool"))) v),
     logged w [get_request server port name])
  else
    (match behaviour w (calls w ++ [get_request server port name])
             (delete_request server port name) with
     | Ok r2 =>
         if status_code r2 =? 204 then
           Exit (ExitJson true (MsgDict (pool_record name (Some "destroy_pool"))) v)
         else Exit (FailJson (MsgDict (pool_record name (Some "destroy_pool")
                                         ++ [("error", MText (text r2))])))
     | Raise e => Exit (FailJson (MsgExn e))
     end,
     logged w [get_request server port name; delete_request server port name]).
Proof.
  intros Hget H404 Hv. unfold StingrayPool.main, bind.
  rewrite (pool_init_run check server port name props w resp Hget).
  apply Z.eqb_neq in H404. rewrite Hv, H404. simpl json_loads. cbv iota.
  unfold try_except, StingrayPool.set_absent, bind, lift, http,
    delete_request, logged, fail_json, exit_json, ret.
  destruct check; [reflexivity|]. unfold try_except. simpl. rewrite <- app_assoc. simpl.
  destruct (behaviour w (calls w ++ _) _) as [r2|e]; simpl; try reflexivity.
  destruct (status_code r2 =? 204); reflexivity.
Qed.

Lemma pool_update_run (check : bool) (server port name : string) (props : pydict)
  (w : world) (resp : response) (v : json) :
  behaviour w (calls w) (get_request server port name) = Ok resp ->
  status_code resp <> 404 -> text resp = Json v ->
  StingrayPool.main check present server port name props w =
  match rbind (getitem v "properties")
              (fun cur => StingrayPool._pool_changes (non_empty_props props) cur "") with
  | Raise e => (Exit (FailJson (MsgExn e)), logged w [get_request server port name])
  | Ok [] => (Exit (ExitJson false (MsgChanges []) v), logged w [get_request server port name])
  | Ok changes =>
      if check then
        (Exit (ExitJson true (MsgChanges changes) v), logged w [get_request server port name])
      else
        (match behaviour w (calls w ++ [get_request server port name])
                 (put_request server port name (put_body (non_empty_props props))) with
         | Ok r2 =>
             if status_code r2 =? 200 then
               match json_loads (text r2) with
               | Ok v2 => Exit (ExitJson true (MsgChanges changes) v2)
               | Raise e => Exit (FailJson (MsgExn e))
               end
             else Exit (FailJson (MsgChanges changes))
         | Raise e => Exit (FailJson (MsgExn e))
         end,
         logged w [get_request server port name;
                   put_request server port name (put_body (non_empty_props props))])
  end.
Proof.
  intros Hget H404 Hv. unfold StingrayPool.main, bind.
  rewrite (pool_init_run check server port name props w resp Hget).
  apply Z.eqb_neq in H404. rewrite Hv, H404. simpl json_loads. cbv iota.
  unfold try_except, StingrayPool.set_present, bind, lift. simpl.
  destruct (rbind (getitem v "properties") _) as [[|c cs]|e]; simpl; try reflexivity.
  - destruct check; reflexivity.
  - destruct check; [reflexivity|].
    unfold http, try_except, put_request, logged, fail_json, exit_json, ret. simpl.
    rewrite <- app_assoc. simpl.
    destruct (behaviour w (calls w ++ _) _) as [r2|e]; simpl; try reflexivity.
    destruct (status_code r2 =? 200); simpl; try reflexivity.
    destruct (text r2); reflexivity.
Qed.

(** X1.  Creating a pool: when the GET answers 404 and the PUT answers
    201 with a JSON body, the run exits with [changed=True], the
    [create_pool] record and the decoded response as data; the body of
    the PUT holds the desired properties without their null entries, or
    [{'basic': {}}] when none is left. *)
Theorem pool_create_sends_desired (server port name : string) (props : pydict)
  (w : world) (resp r2 : response) (v v2 : json) :
  behaviour w (calls w) (get_request server port name) = Ok resp ->
  status_code resp = 404 -> text resp = Json v ->
  behaviour w (calls w ++ [get_request server port name])
    (put_request server port name
       (put_body (match non_empty_props props with
                  | [] => [("basic", JDict [])]
                  | kept => kept
                  end))) = Ok r2 ->
  status_code r2 = 201 -> text r2 = Json v2 ->
  StingrayPool.main false present server port name props w =
    (Exit (ExitJson true (MsgDict (pool_record name (Some "create_pool"))) v2),
     logged w [get_request server port name;
               put_request server port name
                 (put_body (match non_empty_props props with
                            | [] => [("basic", JDict [])]
                            | kept => kept
                            end))]).
Proof.
  intros Hget H404 Hv Hput H201 Hv2.
  rewrite (pool_absent_run false server port name props w resp v Hget H404 Hv).
  assert (created_props (non_empty_props props) =
          match non_empty_props props with [] => [("basic", JDict [])] | kept => kept end) as ->.
  { unfold created_props. destruct (non_empty_props props); reflexivity. }
  cbv iota. rewrite Hput, H201, Hv2. reflexivity.
Qed.

Lemma pool_create_sends_desired_witness :
  StingrayPool.main false present "lb" "9070" "web" [("basic", JNull)]
    (absent_world (Response 201 (Json web_doc))) =
    (Exit (ExitJson true (MsgDict (pool_record "web" (Some "create_pool"))) web_doc),
     logged (absent_world (Response 201 (Json web_doc)))
       [get_request "lb" "9070" "web";
        put_request "lb" "9070" "web" (put_body [("basic", JDict [])])]).
Proof.
  apply (pool_create_sends_desired "lb" "9070" "web" [("basic", JNull)]
           (absent_world (Response 201 (Json web_doc)))
           (Response 404 not_found_body) (Response 201 (Json web_doc))
           (JDict [("error_id", JStr "resource.not_found")]) web_doc);
    reflexivity.
Defined.

(** X2.  A write that the server accepts but answers with a body that is
    not JSON ends the run as a failure carrying the decoding error, after
    the PUT has been issued: for the creation (201) and for the update
    (200) of a pool. *)
Theorem pool_write_undecodable_response (server port name : string) (props : pydict)
  (w : world) (resp r2 : response) (v : json) (garbage : string) :
  behaviour w (calls w) (get_request server port name) = Ok resp ->
  text resp = Json v -> text r2 = NotJson garbage ->
  (status_code resp = 404 ->
   behaviour w (calls w ++ [get_request server port name])
     (put_request server port name (put_body (created_props (non_empty_props props)))) = Ok r2 ->
   status_code r2 = 201 ->
   StingrayPool.main false present server port name props w =
     (Exit (FailJson (MsgExn ValueError)),
      logged w [get_request server port name;
                put_request server port name
                  (put_body (created_props (non_empty_props props)))]))
  /\
  (status_code resp <> 404 ->
   forall c cs,
     rbind (getitem v "properties")
           (fun cur => StingrayPool._pool_changes (non_empty_props props) cur "")
       = Ok (c :: cs) ->
     behaviour w (calls w ++ [get_request server port name])
       (put_request server port name (put_body (non_empty_props props))) = Ok r2 ->
     status_code r2 = 200 ->
     StingrayPool.main false present server port name props w =
       (Exit (FailJson (MsgExn ValueError)),
        logged w [get_request server port name;
                  put_request server port name (put_body (non_empty_props props))])).
Proof.
  intros Hget Hv Hbad. split.
  - intros H404 Hput H201.
    rewrite (pool_absent_run false server port name props w resp v Hget H404 Hv).
    cbv iota. rewrite Hput, H201, Hbad. reflexivity.
  - intros H404 c cs Hdiff Hput H200.
    rewrite (pool_update_run false server port name props w resp v Hget H404 Hv).
    rewrite Hdiff. cbv iota. rewrite Hput, H200, Hbad. reflexivity.
Qed.

Lemma pool_write_undecodable_response_witness :
  StingrayPool.main false present "lb" "9070" "web" [("basic", JDict [("note", JStr "y")])]
    (answering_world (Response 200 (NotJson "OK"))) =
    (Exit (FailJson (MsgExn ValueError)),
     logged (answering_world (Response 200 (NotJson "OK")))
       [get_request "lb" "9070" "web";
        put_request "lb" "9070" "web" (put_body [("basic", JDict [("note", JStr "y")])])]).
Proof.
  apply (proj2 (pool_write_undecodable_response "lb" "9070" "web"
                  [("basic", JDict [("note", JStr "y")])]
                  (answering_world (Response 200 (NotJson "OK")))
                  (Response 200 (Json web_doc)) (Response 200 (NotJson "OK"))
                  web_doc "OK" eq_refl eq_refl eq_refl)
           ltac:(simpl; lia)
           (Change "basic.note" (JStr "x") (JStr "y")) []);
    reflexivity.
Defined.

(** X3.  A pool creation answered with a status other than 201, and a
    pool deletion answered with a status other than 204, fail with the
    change record extended by the response body under ['error']; a write
    whose request raises fails with the text of the exception. *)
Theorem pool_write_rejected_report (server port name : string) (props : pydict)
  (w : world) (resp : response) (v : json) :
  behaviour w (calls w) (get_request server port name) = Ok resp ->
  text resp = Json v ->
  (status_code resp = 404 ->
   forall reply,
     behaviour w (calls w ++ [get_request server port name])
       (put_request server port name (put_body (created_props (non_empty_props props))))
       = reply ->
     (forall r2, reply = Ok r2 -> status_code r2 <> 201 ->
        fst (StingrayPool.main false present server port name props w) =
          Exit (FailJson (MsgDict [("pool", MJson (JStr name));
                                   ("action", MJson (JStr "create_pool"));
                                   ("error", MText (text r2))]))) /\
     (forall e, reply = Raise e ->
        fst (StingrayPool.main false present server port name props w) =
          Exit (FailJson (MsgExn e))))
  /\
  (status_code resp <> 404 ->
   forall reply,
     behaviour w (calls w ++ [get_request server port name])
       (delete_request server port name) = reply ->
     (forall r2, reply = Ok r2 -> status_code r2 <> 204 ->
        fst (StingrayPool.main false absent server port name props w) =
          Exit (FailJson (MsgDict [("pool", MJson (JStr name));
                                   ("action", MJson (JStr "destroy_pool"));
                                   ("error", MText (text r2))]))) /\
     (forall e, reply = Raise e ->
        fst (StingrayPool.main false absent server port name props w) =
          Exit (FailJson (MsgExn e)))).
Proof.
  intros Hget Hv. split; intros H404 reply Hreply.
  - rewrite (pool_absent_run false server port name props w resp v Hget H404 Hv).
    cbv iota. rewrite Hreply. split.
    + intros r2 -> Hst. apply Z.eqb_neq in Hst. simpl. rewrite Hst. reflexivity.
    + intros e ->. reflexivity.
  - rewrite (pool_delete_run false server port name props w resp v Hget H404 Hv).
    cbv iota. rewrite Hreply. split.
    + intros r2 -> Hst. apply Z.eqb_neq in Hst. simpl. rewrite Hst. reflexivity.
    + intros e ->. reflexivity.
Qed.

Lemma pool_write_rejected_report_witness :
  fst (StingrayPool.main false absent "lb" "9070" "web" []
         (answering_world (Response 403 (NotJson "forbidden")))) =
    Exit (FailJson (MsgDict [("pool", MJson (JStr "web"));
                             ("action", MJson (JStr "destroy_pool"));
                             ("error", MText (NotJson "forbidden"))])).
Proof.
  apply (proj1 (proj2 (pool_write_rejected_report "lb" "9070" "web" []
                         (answering_world (Response 403 (NotJson "forbidden")))
                         (Response 200 (Json web_doc)) web_doc eq_refl eq_refl)
                  ltac:(simpl; lia) _ eq_refl)
           (Response 403 (NotJson "forbidden")) eq_refl).
  simpl. lia.
Defined.

(** X4.  Deleting a pool: when the pool exists and the DELETE answers
    204, the run exits with [changed=True], the [destroy_pool] record
    and, as data, the document fetched before the deletion. *)
Theorem pool_delete_keeps_snapshot (server port name : string) (props : pydict)
  (w : world) (resp r2 : response) (v : json) :
  behaviour w (calls w) (get_request server port name) = Ok resp ->
  status_code resp <> 404 -> text resp = Json v ->
  behaviour w (calls w ++ [get_request server port name])
    (delete_request server port name) = Ok r2 ->
  status_code r2 = 204 ->
  StingrayPool.main false absent server port name props w =
    (Exit (ExitJson true (MsgDict (pool_record name (Some "destroy_pool"))) v),
     logged w [get_request server port name; delete_request server port name]).
Proof.
  intros Hget H404 Hv Hdel H204.
  rewrite (pool_delete_run false server port name props w resp v Hget H404 Hv).
  cbv iota. rewrite Hdel, H204. reflexivity.
Qed.

Lemma pool_delete_keeps_snapshot_witness :
  StingrayPool.main false absent "lb" "9070" "web" []
    (answering_world (Response 204 (NotJson ""))) =
    (Exit (ExitJson true (MsgDict (pool_record "web" (Some "destroy_pool"))) web_doc),
     logged (answering_world (Response 204 (NotJson "")))
       [get_request "lb" "9070" "web"; delete_request "lb" "9070" "web"]).
Proof.
  apply (pool_delete_keeps_snapshot "lb" "9070" "web" []
           (answering_world (Response 204 (NotJson "")))
           (Response 200 (Json web_doc)) (Response 204 (NotJson "")) web_doc);
    try reflexivity.
  simpl. lia.
Defined.

(** X5.  Updating a pool: when the diff is not empty and the PUT answers
    200 with a JSON body, the body sent holds the desired properties
    (without top-level nulls) and nothing of the current document, and
    the data reported is the decoded response, not a local merge. *)
Theorem pool_update_sends_desired_only (server port name : string) (props : pydict)
  (w : world) (resp r2 : response) (v v2 : json) (c : change) (cs : list change) :
  behaviour w (calls w) (get_request server port name) = Ok resp ->
  status_code resp <> 404 -> text resp = Json v ->
  rbind (getitem v "properties")
        (fun cur => StingrayPool._pool_changes (non_empty_props props) cur "") = Ok (c :: cs) ->
  behaviour w (calls w ++ [get_request server port name])
    (put_request server port name (put_body (non_empty_props props))) = Ok r2 ->
  status_code r2 = 200 -> text r2 = Json v2 ->
  StingrayPool.main false present server port name props w =
    (Exit (ExitJson true (MsgChanges (c :: cs)) v2),
     logged w [get_request server port name;
               put_request server port name (put_body (non_empty_props props))]).
Proof.
  intros Hget H404 Hv Hdiff Hput H200 Hv2.
  rewrite (pool_update_run false server port name props w resp v Hget H404 Hv).
  rewrite Hdiff. cbv iota. rewrite Hput, H200, Hv2. reflexivity.
Qed.

Lemma pool_update_sends_desired_only_witness :
  StingrayPool.main false present "lb" "9070" "web"
    [("basic", JDict [("note", JStr "y")]); ("connection", JNull)]
    (answering_world (Response 200 (Json (JDict [("properties", JDict [])])))) =
    (Exit (ExitJson true (MsgChanges [Change "basic.note" (JStr "x") (JStr "y")])
             (JDict [("properties", JDict [])])),
     logged (answering_world (Response 200 (Json (JDict [("properties", JDict [])]))))
       [get_request "lb" "9070" "web";
        put_request "lb" "9070" "web" (put_body [("basic", JDict [("note", JStr "y")])])]).
Proof.
  apply (pool_update_sends_desired_only "lb" "9070" "web"
           [("basic", JDict [("note", JStr "y")]); ("connection", JNull)]
           (answering_world (Response 200 (Json (JDict [("properties", JDict [])]))))
           (Response 200 (Json web_doc))
           (Response 200 (Json (JDict [("properties", JDict [])])))
           web_doc (JDict [("properties", JDict [])]));
    try reflexivity.
  simpl. lia.
Defined.

(** X6.  When the diff of an existing pool is empty, [state=present]
    exits with [changed=False], an empty list of changes and the fetched
    document, and the GET is the only request, in check mode or not. *)
Theorem pool_no_change_no_write (check : bool) (server port name : string)
  (props : pydict) (w : world) (resp : response) (v : json) :
  behaviour w (calls w) (get_request server port name) = Ok resp ->
  status_code resp <> 404 -> text resp = Json v ->
  rbind (getitem v "properties")
        (fun cur => StingrayPool._pool_changes (non_empty_props props) cur "") = Ok [] ->
  StingrayPool.main check present server port name props w =
    (Exit (ExitJson false (MsgChanges []) v), logged w [get_request server port name]).
Proof.
  intros Hget H404 Hv Hdiff.
  rewrite (pool_update_run check server port name props w resp v Hget H404 Hv).
  rewrite Hdiff. reflexivity.
Qed.

Lemma pool_no_change_no_write_witness :
  StingrayPool.main false present "lb" "9070" "web"
    [("basic", JDict [("note", JStr "x")]); ("web_cache", JDict [("enabled", JBool true)])]
    failing_world =
    (Exit (ExitJson false (MsgChanges []) web_doc),
     logged failing_world [get_request "lb" "9070" "web"]).
Proof.
  apply (pool_no_change_no_write false "lb" "9070" "web"
           [("basic", JDict [("note", JStr "x")]); ("web_cache", JDict [("enabled", JBool true)])]
           failing_world (Response 200 (Json web_doc)) web_doc);
    try reflexivity.
  simpl. lia.
Defined.

(** X7.  When the fetched document of an existing pool has no
    ['properties'] entry, or the diff raises, [state=present] fails with
    the text of the exception and issues no write. *)
Theorem pool_diff_failure_is_fatal (check : bool) (server port name : string)
  (props : pydict) (w : world) (resp : response) (v : json) (e : exn) :
  behaviour w (calls w) (get_request server port name) = Ok resp ->
  status_code resp <> 404 -> text resp = Json v ->
  rbind (getitem v "properties")
        (fun cur => StingrayPool._pool_changes (non_empty_props props) cur "") = Raise e ->
  StingrayPool.main check present server port name props w =
    (Exit (FailJson (MsgExn e)), logged w [get_request server port name]).
Proof.
  intros Hget H404 Hv Hdiff.
  rewrite (pool_update_run check server port name props w resp v Hget H404 Hv).
  rewrite Hdiff. reflexivity.
Qed.

Lemma pool_diff_failure_is_fatal_witness :
  StingrayPool.main false present "lb" "9070" "web" [("basic", JDict [("note", JStr "y")])]
    (World (fun _ _ => Ok (Response 200 (Json (JDict [("error_id", JStr "x")])))) []) =
    (Exit (FailJson (MsgExn (KeyError "properties"))),
     logged (World (fun _ _ => Ok (Response 200 (Json (JDict [("error_id", JStr "x")])))) [])
       [get_request "lb" "9070" "web"]).
Proof.
  apply (pool_diff_failure_is_fatal false "lb" "9070" "web"
           [("basic", JDict [("note", JStr "y")])]
           (World (fun _ _ => Ok (Response 200 (Json (JDict [("error_id", JStr "x")])))) [])
           (Response 200 (Json (JDict [("error_id", JStr "x")])))
           (JDict [("error_id", JStr "x")]) (KeyError "properties"));
    try reflexivity.
  simpl. lia.
Defined.

(** ** Fetch errors *)

Lemma pool_init_raise (check : bool) (server port pool : string) (props : pydict)
  (w : world) (e : exn) :
  behaviour w (calls w) (get_request server port pool) = Raise e ->
  StingrayPool.__init__ check server port pool props w =
    (match e with
     | ConnectionError _ => Exit (FailJson (MsgUnableToConnect (pool_url server port pool) e))
     | _ => Throw e
     end, logged w [get_request server port pool]).
Proof.
  intros Hget. unfold StingrayPool.__init__, bind, try_except, http, lift, fail_json.
  unfold get_request in Hget. rewrite Hget. destruct e; reflexivity.
Qed.

Lemma node_init_raise (check : bool) (server port pool node : string)
  (weight priority lb_state : json) (w : world) (e : exn) :
  behaviour w (calls w) (get_request server port pool) = Raise e ->
  StingrayNode.__init__ check server port pool node weight priority lb_state w =
    (match e with
     | ConnectionError _ => Exit (FailJson (MsgUnableToConnect (pool_url server port pool) e))
     | _ => Throw e
     end, logged w [get_request server port pool]).
Proof.
  intros Hget. unfold StingrayNode.__init__, bind, try_except, http, lift, fail_json.
  unfold get_request in Hget. rewrite Hget. destruct e; reflexivity.
Qed.

(** X8.  When the GET raises, both modules stop after it: a
    [ConnectionError] becomes a failure naming the URL and the error;
    any other exception of the transport is not caught and leaves [main]
    as an exception. *)
Theorem fetch_error_ends_run (check : bool) (state : presence) (server port pool name : string)
  (props : pydict) (weight priority lb_state : json) (w : world) (e : exn) :
  behaviour w (calls w) (get_request server port pool) = Raise e ->
  StingrayPool.main check state server port pool props w =
    (match e with
     | ConnectionError _ => Exit (FailJson (MsgUnableToConnect (pool_url server port pool) e))
     | _ => Throw e
     end, logged w [get_request server port pool])
  /\
  StingrayNode.main check state server port pool name weight priority lb_state w =
    (match e with
     | ConnectionError _ => Exit (FailJson (MsgUnableToConnect (pool_url server port pool) e))
     | _ => Throw e
     end, logged w [get_request server port pool]).
Proof.
  intros Hget. split.
  - unfold StingrayPool.main, bind. rewrite (pool_init_raise _ _ _ _ _ _ _ Hget).
    destruct e; reflexivity.
  - unfold StingrayNode.main, bind. rewrite (node_init_raise _ _ _ _ _ _ _ _ _ _ Hget).
    destruct e; reflexivity.
Qed.

Lemma fetch_error_ends_run_witness :
  fst (StingrayPool.main false present "lb" "9070" "web" []
         (unreachable_world (RequestException "read timed out"))) =
    Throw (RequestException "read timed out")
  /\
  fst (StingrayNode.main false present "lb" "9070" "web" "10.0.0.1:80" JNull JNull JNull
         (unreachable_world (ConnectionError "refused"))) =
    Exit (FailJson (MsgUnableToConnect (pool_url "lb" "9070" "web")
                      (ConnectionError "refused"))).
Proof.
  split.
  - exact (f_equal fst (proj1 (fetch_error_ends_run false present "lb" "9070" "web" "" []
                                 JNull JNull JNull
                                 (unreachable_world (RequestException "read timed out"))
                                 (RequestException "read timed out") eq_refl))).
  - exact (f_equal fst (proj2 (fetch_error_ends_run false present "lb" "9070" "web"
                                 "10.0.0.1:80" [] JNull JNull JNull
                                 (unreachable_world (ConnectionError "refused"))
                                 (ConnectionError "refused") eq_refl))).
Defined.

(** ** Further properties of the node module *)

Lemma node_main_run (check : bool) (st : presence) (server port pool name : string)
  (dw dp dl : json) (w : world) (resp : response) (v : json) :
  behaviour w (calls w) (get_request server port pool) = Ok resp ->
  status_code resp <> 404 -> text resp = Json v ->
  StingrayNode.main check st server port pool name dw dp dl w =
  try_except
    (s' <- node_method st
             (Self check pool name dw dp dl (pool_url server port pool) v (MsgStr "") false) ;;
     exit_json (changed s') (msg s') (pool_data s'))
    (fun e => fail_json (MsgExn e))
    (logged w [get_request server port pool]).
Proof.
  intros Hget H404 Hv. unfold StingrayNode.main. unfold bind at 1.
  rewrite (node_init_run check server port pool name dw dp dl w resp Hget).
  apply Z.eqb_neq in H404. rewrite H404, Hv. simpl. destruct st; reflexivity.
Qed.

(** One write of the table, whatever the server answers. *)
Lemma node_put_run (s : self) (nodes : list json) (ch : list (string * mvalue)) (w : world) :
  (response <- set_nodes s nodes ;; after_put s ch response) w =
  (match behaviour w (calls w) (Request PUT (_url s) (Some (nodes_body nodes))) with
   | Ok r2 =>
       if status_code r2 =? 200 then
         match json_loads (text r2) with
         | Ok v2 => Return (set_pool_data v2 s)
         | Raise e => Throw e
         end
       else Throw IndexError
   | Raise e => Throw e
   end,
   logged w [Request PUT (_url s) (Some (nodes_body nodes))]).
Proof.
  unfold bind, set_nodes, after_put, http, nodes_body, logged, lift, ret, fail_json. simpl.
  destruct (behaviour w (calls w) _) as [r2|e]; simpl; [|reflexivity].
  destruct (status_code r2 =? 200); simpl; [|reflexivity].
  destruct (json_loads (text r2)); reflexivity.
Qed.

Lemma node_pool_not_found_run (check : bool) (state : presence)
  (server port pool name : string) (weight priority lb_state : json)
  (w : world) (resp : response) :
  behaviour w (calls w) (get_request server port pool) = Ok resp ->
  status_code resp = 404 ->
  StingrayNode.main check state server port pool name weight priority lb_state w =
    (Exit (FailJson (MsgPoolNotFound pool)), logged w [get_request server port pool]).
Proof.
  intros Hget H404. unfold StingrayNode.main, bind.
  rewrite (node_init_run check server port pool name weight priority lb_state w resp Hget).
  rewrite H404. reflexivity.
Qed.

(** X9.  In the node module a GET answered with 404 is fatal: the run
    fails with "Pool ... not found" whatever the body, the requested
    state and the mode, and issues nothing else. *)
Theorem node_pool_not_found (check : bool) (state : presence)
  (server port pool name : string) (weight priority lb_state : json)
  (w : world) (resp : response) :
  behaviour w (calls w) (get_request server port pool) = Ok resp ->
  status_code resp = 404 ->
  StingrayNode.main check state server port pool name weight priority lb_state w =
    (Exit (FailJson (MsgPoolNotFound pool)), logged w [get_request server port pool]).
Proof.
  intros Hget H404. apply node_pool_not_found_run with (resp := resp); assumption.
Qed.

Lemma node_pool_not_found_witness :
  StingrayNode.main false absent "lb" "9070" "web" "10.0.0.1:80" JNull JNull JNull
    (answers_404 (NotJson "<html>")) =
    (Exit (FailJson (MsgPoolNotFound "web")),
     logged (answers_404 (NotJson "<html>")) [get_request "lb" "9070" "web"]).
Proof.
  apply (node_pool_not_found false absent "lb" "9070" "web" "10.0.0.1:80" JNull JNull JNull
           (answers_404 (NotJson "<html>")) (Response 404 (NotJson "<html>")));
    reflexivity.
Defined.

(** X10.  Adding a node: when no entry of the table carries the address,
    [state=present] sends one PUT whose table is the fetched table
    followed by a new entry with the address, [state] the desired one
    or ['active'], [weight] and [priority] the desired ones or [1]
    (also when the desired value is [0] or the empty string); answered
    with 200 and a JSON body, the run exits with [changed=True], the
    [add_node] record and the decoded response. *)
Theorem node_add_appends_entry (server port pool name : string)
  (weight priority lb_state : json) (w : world) (resp : response) (v : json)
  (table : list json) :
  behaviour w (calls w) (get_request server port pool) = Ok resp ->
  status_code resp <> 404 -> text resp = Json v ->
  nodes_table v = Ok (JList table) ->
  select true name table = Ok [] ->
  let put := put_request server port pool
               (nodes_body (table ++ [new_node_entry name lb_state weight priority])) in
  issued (StingrayNode.main false present server port pool name weight priority lb_state) w
    = [get_request server port pool; put] /\
  forall r2 v2,
    behaviour w (calls w ++ [get_request server port pool]) put = Ok r2 ->
    status_code r2 = 200 -> text r2 = Json v2 ->
    fst (StingrayNode.main false present server port pool name weight priority lb_state w)
      = Exit (ExitJson true
                (MsgDict (node_record name pool ++ [("action", MJson (JStr "add_node"))]))
                v2).
Proof.
  intros Hget H404 Hv Htbl Hsel put.
  pose proof (node_main_run false present server port pool name weight priority lb_state
                w resp v Hget H404 Hv) as Hmain.
  assert (node_method present
            (Self false pool name weight priority lb_state (pool_url server port pool) v
               (MsgStr "") false) (logged w [get_request server port pool]) =
          (match behaviour w (calls w ++ [get_request server port pool]) put with
           | Ok r2 =>
               if status_code r2 =? 200 then
                 match json_loads (text r2) with
                 | Ok v2 =>
                     Return (Self false pool name weight priority lb_state
                               (pool_url server port pool) v2
                               (MsgDict (node_record name pool
                                           ++ [("action", MJson (JStr "add_node"))])) true)
                 | Raise e => Throw e
                 end
               else Throw IndexError
           | Raise e => Throw e
           end,
           logged w [get_request server port pool; put])) as Hm.
  { unfold node_method, set_present. rewrite bind_lift.
    unfold _node_exists, _get_current_node, _nodes. node_fields.
    rewrite Htbl. cbn [rbind iterate]. rewrite Hsel. cbn [rbind truthy negb]. cbv iota.
    node_fields. rewrite bind_lift. unfold _nodes. node_fields. try rewrite Htbl.
    cbn [rbind list_add]. rewrite node_put_run. node_fields.
    unfold put, put_request, new_node_entry, logged. simpl. rewrite <- app_assoc. simpl.
    destruct (behaviour w _ _) as [r2|e]; [|reflexivity].
    destruct (status_code r2 =? 200); [|reflexivity].
    destruct (json_loads (text r2)); reflexivity. }
  split.
  - apply (issued_logged _ w (fst (StingrayNode.main false present server port pool name
                                     weight priority lb_state w))).
    rewrite Hmain. unfold try_except, bind. rewrite Hm.
    destruct (behaviour w _ put) as [r2|e]; [|reflexivity].
    destruct (status_code r2 =? 200); [|reflexivity].
    destruct (json_loads (text r2)); reflexivity.
  - intros r2 v2 Hput H200 Hv2. rewrite Hmain. unfold try_except, bind. rewrite Hm.
    rewrite Hput, H200, Hv2. reflexivity.
Qed.

Lemma node_add_appends_entry_witness :
  issued (StingrayNode.main false present "lb" "9070" "web" "10.0.0.9:80"
            (JNum 0) JNull (JStr "draining")) failing_world
    = [get_request "lb" "9070" "web";
       put_request "lb" "9070" "web"
         (nodes_body (web_nodes ++ [node_entry "10.0.0.9:80" "draining" 1 1]))].
Proof.
  apply (proj1 (node_add_appends_entry "lb" "9070" "web" "10.0.0.9:80"
                  (JNum 0) JNull (JStr "draining") failing_world
                  (Response 200 (Json web_doc)) web_doc web_nodes
                  eq_refl ltac:(simpl; lia) eq_refl eq_refl eq_refl)).
Defined.

Lemma select_filter (same : bool) (name : string) (l r : list json) :
  select same name l = Ok r ->
  r = filter (fun n => Bool.eqb (has_name name n) same) l.
Proof.
  revert r. induction l as [|n rest IH]; intros r H.
  - inversion H. reflexivity.
  - rewrite select_cons in H. simpl filter. unfold has_name at 1.
    destruct (getitem n "node") as [a|e]; simpl in H; [|discriminate].
    destruct (select same name rest) as [tl|e]; simpl in H; [|discriminate].
    rewrite <- (IH tl eq_refl).
    destruct (Bool.eqb (py_eq a (JStr name)) same); inversion H; reflexivity.
Qed.

(** X11.  Removing a node: when some entry of the table carries the
    address, [state=absent] sends one PUT whose table is the fetched
    table without every entry of that address, the others in their
    order; no entry of that address is left in it, duplicates included;
    answered with 200 and a JSON body, the run exits with
    [changed=True], the [remove_node] record and the decoded response. *)
Theorem node_remove_filters_table (server port pool name : string)
  (weight priority lb_state : json) (w : world) (resp : response) (v : json)
  (table : list json) (x : json) (dup : list json) :
  behaviour w (calls w) (get_request server port pool) = Ok resp ->
  status_code resp <> 404 -> text resp = Json v ->
  nodes_table v = Ok (JList table) ->
  select true name table = Ok (x :: dup) ->
  let kept := filter (fun n => negb (has_name name n)) table in
  let put := put_request server port pool (nodes_body kept) in
  issued (StingrayNode.main false absent server port pool name weight priority lb_state) w
    = [get_request server port pool; put] /\
  select true name kept = Ok [] /\
  forall r2 v2,
    behaviour w (calls w ++ [get_request server port pool]) put = Ok r2 ->
    status_code r2 = 200 -> text r2 = Json v2 ->
    fst (StingrayNode.main false absent server port pool name weight priority lb_state w)
      = Exit (ExitJson true
                (MsgDict (node_record name pool ++ [("action", MJson (JStr "remove_node"))]))
                v2).
Proof.
  intros Hget H404 Hv Htbl Hsel kept put.
  destruct (select_total _ _ _ _ Hsel) as [others Hoth]. simpl negb in Hoth.
  assert (others = kept) as Hk.
  { rewrite (select_filter _ _ _ _ Hoth). unfold kept. apply filter_ext.
    intros n. destruct (has_name name n); reflexivity. }
  subst others.
  pose proof (node_main_run false absent server port pool name weight priority lb_state
                w resp v Hget H404 Hv) as Hmain.
  assert (node_method absent
            (Self false pool name weight priority lb_state (pool_url server port pool) v
               (MsgStr "") false) (logged w [get_request server port pool]) =
          (match behaviour w (calls w ++ [get_request server port pool]) put with
           | Ok r2 =>
               if status_code r2 =? 200 then
                 match json_loads (text r2) with
                 | Ok v2 =>
                     Return (Self false pool name weight priority lb_state
                               (pool_url server port pool) v2
                               (MsgDict (node_record name pool
                                           ++ [("action", MJson (JStr "remove_node"))])) true)
                 | Raise e => Throw e
                 end
               else Throw IndexError
           | Raise e => Throw e
           end,
           logged w [get_request server port pool; put])) as Hm.
  { unfold node_method, set_absent. rewrite bind_lift.
    unfold _node_exists, _get_current_node, _nodes. node_fields.
    rewrite Htbl. cbn [rbind iterate]. rewrite Hsel. cbn [rbind truthy]. cbv iota.
    node_fields. rewrite bind_lift. unfold other_nodes, _nodes. node_fields.
    try rewrite Htbl. cbn [rbind iterate]. rewrite Hoth.
    rewrite node_put_run. node_fields.
    unfold put, put_request, logged. simpl. rewrite <- app_assoc. simpl.
    destruct (behaviour w _ _) as [r2|e]; [|reflexivity].
    destruct (status_code r2 =? 200); [|reflexivity].
    destruct (json_loads (text r2)); reflexivity. }
  split; [|split].
  - apply (issued_logged _ w (fst (StingrayNode.main false absent server port pool name
                                     weight priority lb_state w))).
    rewrite Hmain. unfold try_except, bind. rewrite Hm.
    destruct (behaviour w _ put) as [r2|e]; [|reflexivity].
    destruct (status_code r2 =? 200); [|reflexivity].
    destruct (json_loads (text r2)); reflexivity.
  - apply (select_select false name table kept Hoth).
  - intros r2 v2 Hput H200 Hv2. rewrite Hmain. unfold try_except, bind. rewrite Hm.
    rewrite Hput, H200, Hv2. reflexivity.
Qed.

Lemma node_remove_filters_table_witness :
  issued (StingrayNode.main false absent "lb" "9070" "web" "10.0.0.1:80" JNull JNull JNull)
         (serving_world twice_listed)
    = [get_request "lb" "9070" "web";
       put_request "lb" "9070" "web" (nodes_body [node_entry "10.0.0.2:80" "active" 1 1])].
Proof.
  apply (proj1 (node_remove_filters_table "lb" "9070" "web" "10.0.0.1:80" JNull JNull JNull
                  (serving_world twice_listed) (Response 200 (Json twice_listed)) twice_listed
                  [node_entry "10.0.0.1:80" "active" 1 1;
                   node_entry "10.0.0.2:80" "active" 1 1;
                   node_entry "10.0.0.1:80" "disabled" 3 1]
                  (node_entry "10.0.0.1:80" "active" 1 1)
                  [node_entry "10.0.0.1:80" "disabled" 3 1]
                  eq_refl ltac:(simpl; lia) eq_refl eq_refl eq_refl)).
Defined.

(** X12.  A desired field that Python counts as false (not given, [0],
    the empty string) is never compared: when the node is in the table
    and all three desired fields are such, [state=present] exits with
    [changed=False] and issues no write, whatever the entry holds, even
    an entry without those fields. *)
Theorem node_falsy_desired_not_applied (check : bool) (server port pool name : string)
  (weight priority lb_state : json) (w : world) (resp : response) (v : json)
  (table : list json) (x : json) (dup : list json) :
  behaviour w (calls w) (get_request server port pool) = Ok resp ->
  status_code resp <> 404 -> text resp = Json v ->
  nodes_table v = Ok (JList table) ->
  select true name table = Ok (x :: dup) ->
  truthy lb_state = false -> truthy weight = false -> truthy priority = false ->
  StingrayNode.main check present server port pool name weight priority lb_state w =
    (Exit (ExitJson false (MsgDict (node_record name pool)) v),
     logged w [get_request server port pool]).
Proof.
  intros Hget H404 Hv Htbl Hsel Hl Hw Hp.
  rewrite (node_main_run check present server port pool name weight priority lb_state
             w resp v Hget H404 Hv).
  unfold try_except, bind.
  unfold node_method, set_present. rewrite bind_lift.
  unfold _node_exists, _get_current_node, _nodes. node_fields.
  rewrite Htbl. cbn [rbind iterate]. rewrite Hsel. cbn [rbind truthy negb first_node].
  cbv iota. rewrite bind_lift. unfold _get_current_node, _nodes. node_fields.
  try rewrite Htbl. cbn [rbind iterate]. try rewrite Hsel. cbn [rbind first_node].
  rewrite bind_lift. unfold compare_fields. node_fields.
  rewrite (compare_field_settled "state" lb_state x _ _ (or_introl Hl)). cbn [rbind].
  rewrite (compare_field_settled "weight" weight x _ _ (or_introl Hw)). cbn [rbind].
  rewrite (compare_field_settled "priority" priority x _ _ (or_introl Hp)).
  reflexivity.
Qed.

Lemma node_falsy_desired_not_applied_witness :
  StingrayNode.main false present "lb" "9070" "web" "10.0.0.1:80" (JNum 0) JNull (JStr "")
    (serving_world bare_entry_doc) =
    (Exit (ExitJson false (MsgDict (node_record "10.0.0.1:80" "web")) bare_entry_doc),
     logged (serving_world bare_entry_doc) [get_request "lb" "9070" "web"]).
Proof.
  apply (node_falsy_desired_not_applied false "lb" "9070" "web" "10.0.0.1:80"
           (JNum 0) JNull (JStr "") (serving_world bare_entry_doc)
           (Response 200 (Json bare_entry_doc)) bare_entry_doc
           [JDict [("node", JStr "10.0.0.1:80")]] (JDict [("node", JStr "10.0.0.1:80")]) []);
    try reflexivity.
  simpl. lia.
Defined.

(** X13.  When the node is in the table, a load-balancer state is
    desired and the entry of the node has no ['state'] field, the run
    fails with the text of the [KeyError] and issues no write. *)
Theorem node_missing_field_is_fatal (check : bool) (server port pool name : string)
  (weight priority lb_state : json) (w : world) (resp : response) (v : json)
  (table : list json) (x : json) (dup : list json) (e : exn) :
  behaviour w (calls w) (get_request server port pool) = Ok resp ->
  status_code resp <> 404 -> text resp = Json v ->
  nodes_table v = Ok (JList table) ->
  select true name table = Ok (x :: dup) ->
  truthy lb_state = true ->
  getitem x "state" = Raise e ->
  StingrayNode.main check present server port pool name weight priority lb_state w =
    (Exit (FailJson (MsgExn e)), logged w [get_request server port pool]).
Proof.
  intros Hget H404 Hv Htbl Hsel Hl Hx.
  rewrite (node_main_run check present server port pool name weight priority lb_state
             w resp v Hget H404 Hv).
  unfold try_except, bind.
  unfold node_method, set_present. rewrite bind_lift.
  unfold _node_exists, _get_current_node, _nodes. node_fields.
  rewrite Htbl. cbn [rbind iterate]. rewrite Hsel. cbn [rbind truthy negb first_node].
  cbv iota. rewrite bind_lift. unfold _get_current_node, _nodes. node_fields.
  try rewrite Htbl. cbn [rbind iterate]. try rewrite Hsel. cbn [rbind first_node].
  rewrite bind_lift. unfold compare_fields, compare_field. node_fields.
  rewrite Hl, Hx. reflexivity.
Qed.

Lemma node_missing_field_is_fatal_witness :
  StingrayNode.main false present "lb" "9070" "web" "10.0.0.1:80" JNull JNull (JStr "draining")
    (serving_world bare_entry_doc) =
    (Exit (FailJson (MsgExn (KeyError "state"))),
     logged (serving_world bare_entry_doc) [get_request "lb" "9070" "web"]).
Proof.
  apply (node_missing_field_is_fatal false "lb" "9070" "web" "10.0.0.1:80"
           JNull JNull (JStr "draining") (serving_world bare_entry_doc)
           (Response 200 (Json bare_entry_doc)) bare_entry_doc
           [JDict [("node", JStr "10.0.0.1:80")]] (JDict [("node", JStr "10.0.0.1:80")]) []
           (KeyError "state"));
    try reflexivity.
  simpl. lia.
Defined.

(** X14.  When the fetched document has no
    [properties.basic.nodes_table], the node module fails with the text
    of the exception, for either state and in either mode, and issues
    no write. *)
Theorem node_table_missing_is_fatal (check : bool) (state : presence)
  (server port pool name : string) (weight priority lb_state : json)
  (w : world) (resp : response) (v : json) (e : exn) :
  behaviour w (calls w) (get_request server port pool) = Ok resp ->
  status_code resp <> 404 -> text resp = Json v ->
  nodes_table v = Raise e ->
  StingrayNode.main check state server port pool name weight priority lb_state w =
    (Exit (FailJson (MsgExn e)), logged w [get_request server port pool]).
Proof.
  intros Hget H404 Hv Htbl.
  rewrite (node_main_run check state server port pool name weight priority lb_state
             w resp v Hget H404 Hv).
  unfold try_except, bind.
  destruct state; unfold node_method, set_present, set_absent; rewrite bind_lift;
    unfold _node_exists, _get_current_node, _nodes; node_fields;
    rewrite Htbl; reflexivity.
Qed.

Lemma node_table_missing_is_fatal_witness :
  StingrayNode.main false present "lb" "9070" "web" "10.0.0.1:80" JNull JNull JNull
    (serving_world (JDict [("properties", JDict [("connection", JDict [])])])) =
    (Exit (FailJson (MsgExn (KeyError "basic"))),
     logged (serving_world (JDict [("properties", JDict [("connection", JDict [])])]))
       [get_request "lb" "9070" "web"]).
Proof.
  apply (node_table_missing_is_fatal false present "lb" "9070" "web" "10.0.0.1:80"
           JNull JNull JNull
           (serving_world (JDict [("properties", JDict [("connection", JDict [])])]))
           (Response 200 (Json (JDict [("properties", JDict [("connection", JDict [])])])))
           (JDict [("properties", JDict [("connection", JDict [])])]) (KeyError "basic"));
    try reflexivity.
  simpl. lia.
Defined.

Lemma select_state_cons (name : string) (state n : json) (rest : list json) :
  select_state name state (n :: rest) =
  rbind (getitem n "node") (fun a =>
  rbind (if py_eq a (JStr name)
         then rbind (getitem n "state") (fun st => Ok (py_eq st state))
         else Ok false) (fun keep =>
  rbind (select_state name state rest) (fun tl =>
  Ok (if (keep : bool) then n :: tl else tl)))).
Proof. reflexivity. Qed.

Lemma select_state_within (name : string) (state : json) (l r : list json) :
  select_state name state l = Ok r ->
  exists r', select true name l = Ok r' /\ incl r r'.
Proof.
  revert r. induction l as [|n rest IH]; intros r H.
  - inversion H. exists []. split; [reflexivity|apply incl_refl].
  - rewrite select_state_cons in H. rewrite select_cons.
    destruct (getitem n "node") as [a|e]; simpl in H; [|discriminate]. simpl.
    destruct (py_eq a (JStr name)) eqn:Ea.
    + destruct (getitem n "state") as [st|e]; simpl in H; [|discriminate].
      destruct (select_state name state rest) as [tl|e]; simpl in H; [|discriminate].
      destruct (IH tl eq_refl) as [r' [-> Hincl]]. simpl.
      exists (n :: r'). split; [reflexivity|].
      destruct (py_eq st state); inversion H; subst.
      * apply incl_cons; [left; reflexivity|apply incl_tl; assumption].
      * apply incl_tl. assumption.
    + simpl in H.
      destruct (select_state name state rest) as [tl|e]; simpl in H; [|discriminate].
      destruct (IH tl eq_refl) as [r' [-> Hincl]]. simpl.
      exists r'. inversion H; subst. auto.
Qed.

Lemma select_state_none (name : string) (state : json) (l : list json) :
  select true name l = Ok [] -> select_state name state l = Ok [].
Proof.
  induction l as [|n rest IH]; intros H; [reflexivity|].
  rewrite select_cons in H. rewrite select_state_cons.
  destruct (getitem n "node") as [a|e]; simpl in *; [|discriminate].
  destruct (select true name rest) as [tl|e]; simpl in H; [|discriminate].
  destruct (py_eq a (JStr name)); simpl in H; [discriminate|].
  inversion H; subst. rewrite (IH eq_refl). reflexivity.
Qed.

(** X15.  [_has_state] answers true only for a node that [_node_exists]
    finds, and answers false, without reading any ['state'] field, for
    a node that [_node_exists] does not find. *)
Theorem has_state_implies_exists (s : self) (state : json) :
  (_has_state s state = Ok true -> _node_exists s = Ok true) /\
  (_node_exists s = Ok false -> _has_state s state = Ok false).
Proof.
  unfold _has_state, _node_exists, _get_current_node.
  destruct (_nodes s) as [tbl|e]; simpl; [|split; discriminate].
  destruct (iterate tbl) as [nodes|e]; simpl; [|split; discriminate].
  split.
  - destruct (select_state (node s) state nodes) as [r|e] eqn:Hs; simpl; [|discriminate].
    destruct (select_state_within _ _ _ _ Hs) as [r' [-> Hincl]]. simpl.
    destruct r as [|x r]; [discriminate|]. intros _.
    destruct r' as [|y r']; [|reflexivity].
    exfalso. apply (Hincl x). left. reflexivity.
  - destruct (select true (node s) nodes) as [[|y r']|e] eqn:Hs; simpl; try discriminate.
    intros _. rewrite (select_state_none _ state _ Hs). reflexivity.
Qed.

Lemma has_state_implies_exists_witness :
  _node_exists web_node_object = Ok true.
Proof.
  apply (proj1 (has_state_implies_exists web_node_object (JStr "active"))). reflexivity.
Defined.

(** ** Further properties of the pool diff *)

Lemma pool_changes_entries (new : json) :
  forall cur parent changes,
    pool_changes_of new cur parent = Ok changes -> Forall leaf_entry changes.
Proof.
  induction new as [| b | n | s | l IH | d IH] using json_induction;
    intros cur parent changes H; try (inversion H; constructor).
  rewrite pool_changes_of_dict in H. revert changes H.
  induction IH as [|[k v] items Hv Hitems IHitems]; intros changes H.
  - rewrite pool_changes_nil in H. inversion H. constructor.
  - rewrite pool_changes_cons in H.
    destruct (py_get cur k) as [cv|e]; simpl in H; [|discriminate].
    destruct (is_none cv) eqn:Hnone; [apply IHitems; assumption|].
    destruct (is_dict v) eqn:Hd.
    + destruct (pool_changes_of v cv k) as [sub|e] eqn:Hsub; simpl in H; [|discriminate].
      destruct (StingrayPool._pool_changes items cur parent) as [tl|e]; simpl in H;
        [|discriminate].
      inversion H; subst. apply Forall_app. split.
      * simpl in Hv. eapply Hv. exact Hsub.
      * apply IHitems. reflexivity.
    + destruct (py_eq v cv) eqn:He; simpl in H; [apply IHitems; assumption|].
      destruct (StingrayPool._pool_changes items cur parent) as [tl|e]; simpl in H;
        [|discriminate].
      inversion H; subst. constructor.
      * repeat split; assumption.
      * apply IHitems. reflexivity.
Qed.

Lemma pool_changes_raises (new : json) :
  forall cur parent e, pool_changes_of new cur parent = Raise e -> e = AttributeError.
Proof.
  induction new as [| b | n | s | l IH | d IH] using json_induction;
    intros cur parent e H; try discriminate.
  rewrite pool_changes_of_dict in H.
  induction IH as [|[k v] items Hv Hitems IHitems].
  - rewrite pool_changes_nil in H. discriminate.
  - rewrite pool_changes_cons in H.
    destruct (py_get cur k) as [cv|e0] eqn:Hget; simpl in H.
    + destruct (is_none cv); [apply IHitems; assumption|].
      destruct (is_dict v).
      * destruct (pool_changes_of v cv k) as [sub|e0] eqn:Hsub; simpl in H.
        -- destruct (StingrayPool._pool_changes items cur parent) as [tl|e1]; simpl in H;
             [discriminate|]. inversion H; subst. apply IHitems. reflexivity.
        -- inversion H; subst. simpl in Hv. eapply Hv. exact Hsub.
      * destruct (negb (py_eq v cv)); [|apply IHitems; assumption].
        destruct (StingrayPool._pool_changes items cur parent) as [tl|e1]; simpl in H;
          [discriminate|]. inversion H; subst. apply IHitems. reflexivity.
    + inversion H; subst. destruct cur; simpl in Hget; inversion Hget; reflexivity.
Qed.

(** X16.  Every entry of a diff that returns is a leaf that differs: its
    ['before'] is not null, its ['after'] is not a dict, and the two are
    not equal. *)
Theorem pool_changes_reports_differing_leaves (new_pool : pydict) (current_pool : json)
  (parent : string) (changes : list change) :
  StingrayPool._pool_changes new_pool current_pool parent = Ok changes ->
  Forall (fun e => is_none (before e) = false /\ is_dict (after e) = false /\
                   py_eq (after e) (before e) = false) changes.
Proof.
  intros H. rewrite <- pool_changes_of_dict in H.
  apply (pool_changes_entries _ _ _ _ H).
Qed.

Lemma pool_changes_reports_differing_leaves_witness :
  Forall (fun e => is_none (before e) = false /\ is_dict (after e) = false /\
                   py_eq (after e) (before e) = false)
         [Change "basic.note" (JStr "x") (JStr "y")].
Proof.
  apply (pool_changes_reports_differing_leaves
           [("basic", JDict [("note", JStr "y"); ("monitors", JList [])])]
           (JDict [("basic", JDict [("note", JStr "x"); ("monitors", JNull)])]) "").
  vm_compute. reflexivity.
Defined.

(** X17.  The only exception the diff raises is the [AttributeError] of
    a [get] on a current value that is not a dict: it never raises a
    [KeyError] for a key that the current tree lacks. *)
Theorem pool_changes_raises_attribute_error_only (new_pool : pydict) (current_pool : json)
  (parent : string) (e : exn) :
  StingrayPool._pool_changes new_pool current_pool parent = Raise e -> e = AttributeError.
Proof.
  intros H. rewrite <- pool_changes_of_dict in H.
  apply (pool_changes_raises _ _ _ _ H).
Qed.

Lemma pool_changes_raises_attribute_error_only_witness :
  AttributeError = AttributeError.
Proof.
  apply (pool_changes_raises_attribute_error_only
           [("basic", JDict [("note", JStr "x")])] (JDict [("basic", JStr "off")]) "").
  vm_compute. reflexivity.
Defined.

(** X18.  A tree with distinct keys compared with itself has no changes,
    at any depth and under any parent. *)
Theorem pool_changes_of_same_tree (d : pydict) (parent : string) :
  wf (JDict d) = true ->
  StingrayPool._pool_changes d (JDict d) parent = Ok [].
Proof.
  intros Hwf. rewrite <- pool_changes_of_dict.
  apply agrees_no_changes; [assumption|]. apply agrees_self. assumption.
Qed.

Lemma pool_changes_of_same_tree_witness :
  StingrayPool._pool_changes
    [("basic", JDict [("note", JStr "x"); ("nodes_table", JList web_nodes)])]
    (JDict [("basic", JDict [("note", JStr "x"); ("nodes_table", JList web_nodes)])]) ""
  = Ok [].
Proof.
  apply (pool_changes_of_same_tree
           [("basic", JDict [("note", JStr "x"); ("nodes_table", JList web_nodes)])] "").
  reflexivity.
Defined.

(** X19.  The diff follows the order of the desired keys: the changes of
    two runs of keys one after the other are the changes of the first
    followed by those of the second, and an exception in either is the
    exception of the whole. *)
Theorem pool_changes_in_key_order (l1 l2 : pydict) (current_pool : json) (parent : string) :
  StingrayPool._pool_changes (l1 ++ l2) current_pool parent =
  match StingrayPool._pool_changes l1 current_pool parent with
  | Ok a =>
      match StingrayPool._pool_changes l2 current_pool parent with
      | Ok b => Ok (a ++ b)
      | Raise e => Raise e
      end
  | Raise e => Raise e
  end.
Proof. rewrite pool_changes_app. reflexivity. Qed.

(** X20.  Of the desired properties, [__init__] keeps the entries whose
    value is not null, in their order and with their values: for
    distinct keys, a key is found in the kept properties exactly when
    it is given with a value other than null. *)
Theorem non_empty_props_lookup (props : pydict) (k : string) :
  nodup_keys (map fst props) = true ->
  lookup k (non_empty_props props) =
    match lookup k props with
    | Some JNull => None
    | found => found
    end.
Proof.
  unfold non_empty_props.
  induction props as [|[k' v] rest IH]; intros Hnd; [reflexivity|].
  simpl in Hnd. apply andb_true_iff in Hnd. destruct Hnd as [Hk Hnd].
  simpl. destruct (String.eqb k' k) eqn:E.
  - apply String.eqb_eq in E. subst k'.
    destruct (is_none v) eqn:Hv; simpl.
    + destruct v; try discriminate. rewrite (IH Hnd).
      apply negb_true_iff, existsb_eqb_false_iff in Hk.
      destruct (lookup k rest) as [x|] eqn:Hl; [|reflexivity].
      exfalso. apply Hk. clear - Hl.
      induction rest as [|[k0 v0] rest IH]; [discriminate|].
      simpl in *. destruct (String.eqb k0 k) eqn:E0.
      * left. apply String.eqb_eq. assumption.
      * right. auto.
    + rewrite String.eqb_refl. destruct v; try reflexivity. discriminate.
  - destruct (negb (is_none v)); simpl; [rewrite E|]; apply (IH Hnd).
Qed.

Lemma non_empty_props_lookup_witness :
  lookup "connection" (non_empty_props [("basic", JDict []); ("connection", JNull)]) = None.
Proof.
  apply (non_empty_props_lookup [("basic", JDict []); ("connection", JNull)] "connection").
  reflexivity.
Defined.

(** ** Requests per run *)

Ltac no_request :=
  eexists; exists []; rewrite logged_nil; split; [reflexivity|left; reflexivity].

Ltac one_request :=
  eexists; eexists; split;
  [reflexivity|right; split; [reflexivity|eexists; split; reflexivity]].

Lemma pool_set_present_requests (s : StingrayPool.self) (w : world) :
  exists o rqs, StingrayPool.set_present s w = (o, logged w rqs) /\
                one_write_at_most (StingrayPool.check_mode s) rqs.
Proof.
  destruct s as [c p props u e pd m ch].
  unfold StingrayPool.set_present, bind, try_except, http, ret, fail_json, lift. simpl.
  destruct e; simpl.
  - destruct (rbind (getitem pd "properties") _) as [[|c0 cs]|ex]; simpl.
    + destruct c; simpl; no_request.
    + destruct c; simpl; [no_request|].
      destruct (behaviour w (calls w) _) as [resp|ex]; simpl; [|one_request].
      destruct (status_code resp =? 200); simpl; [|one_request].
      destruct (json_loads (text resp)); simpl; one_request.
    + no_request.
  - destruct c; simpl; [no_request|].
    destruct props; simpl;
      (destruct (behaviour w (calls w) _) as [resp|ex]; simpl; [|one_request]);
      (destruct (status_code resp =? 201); simpl; [|one_request]);
      destruct (json_loads (text resp)); simpl; one_request.
Qed.

Lemma pool_set_absent_requests (s : StingrayPool.self) (w : world) :
  exists o rqs, StingrayPool.set_absent s w = (o, logged w rqs) /\
                one_write_at_most (StingrayPool.check_mode s) rqs.
Proof.
  destruct s as [c p props u e pd m ch].
  unfold StingrayPool.set_absent, bind, try_except, http, ret, fail_json, lift. simpl.
  destruct e; simpl; [|no_request].
  destruct c; simpl; [no_request|].
  destruct (behaviour w (calls w) _) as [resp|ex]; simpl; [|one_request].
  destruct (negb (status_code resp =? 204)); simpl; one_request.
Qed.

Lemma node_put_requests (s : self) (nodes : list json) (ch : list (string * mvalue))
  (w : world) :
  check_mode s = false ->
  exists o rqs,
    (response <- set_nodes s nodes ;; after_put s ch response) w = (o, logged w rqs) /\
    one_write_at_most (check_mode s) rqs.
Proof.
  intros Hc. rewrite node_put_run. eexists. eexists. split; [reflexivity|].
  right. split; [assumption|]. eexists. split; reflexivity.
Qed.

Lemma node_method_requests (st : presence) (s : self) (w : world) :
  exists o rqs, node_method st s w = (o, logged w rqs) /\
                one_write_at_most (check_mode s) rqs.
Proof.
  destruct s as [c p n dw dp dl u pd m chg].
  destruct st; unfold node_method.
  - unfold set_present. rewrite bind_lift.
    destruct (_node_exists _) as [[|]|e]; cbn [negb]; cbv iota; try no_request.
    + rewrite bind_lift.
      destruct (rbind (_get_current_node _) first_node) as [x|e]; [|no_request].
      rewrite bind_lift.
      destruct (compare_fields _ x _) as [[[s3 x3] ch3]|e] eqn:Hcmp; [|no_request].
      assert (check_mode s3 = c) as Hc3.
      { change (set_changed false (Self c p n dw dp dl u pd m chg))
          with (set_check_mode c (Self false p n dw dp dl u pd m false)) in Hcmp.
        rewrite compare_fields_check in Hcmp.
        destruct (compare_fields _ x _) as [[[s4 x4] ch4]|e]; simpl in Hcmp; [|discriminate].
        inversion Hcmp; subst. reflexivity. }
      destruct (changed s3); [|unfold ret; no_request].
      cbn [check_mode set_msg]. rewrite Hc3.
      destruct c; [unfold ret; no_request|].
      rewrite bind_lift.
      destruct (rbind (other_nodes _) _) as [l|e]; [|no_request].
      rewrite <- Hc3.
      change (check_mode s3) with (check_mode (set_msg (MsgDict ch3) s3)).
      apply node_put_requests. simpl. exact Hc3.
    + node_fields. destruct c; [unfold ret; no_request|].
      rewrite bind_lift.
      destruct (rbind (_nodes _) _) as [l|e]; [|no_request].
      apply (node_put_requests
               (set_changed true
                  (set_msg (MsgDict (dict_set "action" (MJson (JStr "add_node"))
                                       [("node", MJson (JStr n)); ("pool", MJson (JStr p))]))
                     (Self false p n dw dp dl u pd m false)))).
      reflexivity.
  - unfold set_absent. rewrite bind_lift.
    destruct (_node_exists _) as [[|]|e]; cbv iota; try (unfold ret; no_request).
    node_fields. destruct c; [unfold ret; no_request|].
    rewrite bind_lift.
    destruct (other_nodes _) as [l|e]; [|no_request].
    apply (node_put_requests
             (set_msg (MsgDict (dict_set "action" (MJson (JStr "remove_node"))
                                  [("node", MJson (JStr n)); ("pool", MJson (JStr p))]))
                (Self false p n dw dp dl u pd m true))).
    reflexivity.
Qed.

(** X21.  Every run of either module issues the GET first and after it
    at most one more request, a PUT or a DELETE; in check mode it issues
    the GET alone. *)
Theorem one_read_then_at_most_one_write :
  (forall (check : bool) (state : presence) (server port name : string)
          (props : pydict) (w : world),
     exists o rqs,
       StingrayPool.main check state server port name props w =
         (o, logged w (get_request server port name :: rqs)) /\
       one_write_at_most check rqs)
  /\
  (forall (check : bool) (state : presence) (server port pool name : string)
          (weight priority lb_state : json) (w : world),
     exists o rqs,
       StingrayNode.main check state server port pool name weight priority lb_state w =
         (o, logged w (get_request server port pool :: rqs)) /\
       one_write_at_most check rqs).
Proof.
  split.
  - intros check state server port name props w.
    unfold StingrayPool.main, bind.
    destruct (behaviour w (calls w) (get_request server port name)) as [resp|e] eqn:Hget.
    + rewrite (pool_init_run check server port name props w resp Hget).
      destruct (json_loads (text resp)) as [v|e];
        [|eexists; exists []; split; [reflexivity|left; reflexivity]].
      set (s := StingrayPool.Self _ _ _ _ _ _ _ _).
      assert (exists o rqs,
                match state with
                | present => StingrayPool.set_present s
                | absent => StingrayPool.set_absent s
                end (logged w [get_request server port name])
                = (o, logged (logged w [get_request server port name]) rqs) /\
                one_write_at_most check rqs) as [o [rqs [Hrun Hone]]].
      { destruct state; [apply (pool_set_present_requests s)
                        |apply (pool_set_absent_requests s)]. }
      unfold try_except, bind. rewrite Hrun. rewrite logged_logged.
      destruct o as [s'|r|e]; eexists; exists rqs; (split; [reflexivity|exact Hone]).
    + rewrite (pool_init_raise check server port name props w e Hget).
      destruct e; eexists; exists []; (split; [reflexivity|left; reflexivity]).
  - intros check state server port pool name weight priority lb_state w.
    destruct (behaviour w (calls w) (get_request server port pool)) as [resp|e] eqn:Hget.
    + destruct (Z.eq_dec (status_code resp) 404) as [H404|H404].
      * rewrite (node_pool_not_found_run check state server port pool name
                   weight priority lb_state w resp Hget H404).
        eexists. exists []. split; [reflexivity|left; reflexivity].
      * destruct (text resp) as [v|b] eqn:Hv.
        -- rewrite (node_main_run check state server port pool name weight priority lb_state
                      w resp v Hget H404 Hv).
           destruct (node_method_requests state
                       (Self check pool name weight priority lb_state
                          (pool_url server port pool) v (MsgStr "") false)
                       (logged w [get_request server port pool]))
             as [o [rqs [Hrun Hone]]].
           unfold try_except, bind. rewrite Hrun. rewrite logged_logged.
           destruct o as [s'|r|e]; eexists; exists rqs; (split; [reflexivity|exact Hone]).
        -- unfold StingrayNode.main, bind.
           rewrite (node_init_run check server port pool name weight priority lb_state
                      w resp Hget).
           apply Z.eqb_neq in H404. rewrite H404, Hv.
           eexists. exists []. split; [reflexivity|left; reflexivity].
    + unfold StingrayNode.main, bind.
      rewrite (node_init_raise check server port pool name weight priority lb_state w e Hget).
      destruct e; eexists; exists []; (split; [reflexivity|left; reflexivity]).
Qed.
